(** * Manual tile distribution of tiles-web

    A shallow embedding of the manual-distribution subsystem:
    - [BagView] (bag-view.ts): the per-colour supply counts shown to the
      operator and the "Start Round" button;
    - [FactoryDropHandler] (factory-drop-handler.ts): the per-factory tile
      lists filled by drag and drop;
    - [GuiGame] (game.ts): entering the distribution phase, the wiring of the
      callbacks, and the reconciliation into the rules engine.

    DOM effects that carry no state of the subsystem (class lists, text
    contents, attributes of tile elements) are left out; the [disabled] flag
    of the start button is kept because it gates reconciliation. *)

From stdpp Require Import gmap list strings pretty sorting.
From Stdlib Require Import ZArith Lia Ascii.

Local Open Scope Z_scope.

(** ** JavaScript numbers, as far as this code uses them

    Every number handled here is an integer or [NaN] ([parseInt] of a string
    without digits, [undefined + 1]).  Integers are unbounded: the counts of
    this program stay far below 2^53. *)

Inductive number : Type :=
  | Num (z : Z)
  | NaN.

#[global] Instance number_eq_dec : EqDecision number.
Proof. solve_decision. Defined.

(** [a + b] *)
Definition nadd (a b : number) : number :=
  match a, b with
  | Num x, Num y => Num (x + y)
  | _, _ => NaN
  end.

(** [a - b] *)
Definition nsub (a b : number) : number :=
  match a, b with
  | Num x, Num y => Num (x - y)
  | _, _ => NaN
  end.

(** [Math.min(a, b)]: [NaN] as soon as one argument is. *)
Definition Math_min (a b : number) : number :=
  match a, b with
  | Num x, Num y => Num (Z.min x y)
  | _, _ => NaN
  end.

(** [a === 0] *)
Definition is_zero (a : number) : bool :=
  match a with
  | Num x => x =? 0
  | NaN => false
  end.

(** [x > 0] where [x] was read from an object: an absent key reads as
    [undefined], and both [undefined > 0] and [NaN > 0] are false. *)
Definition gt_zero (x : option number) : bool :=
  match x with
  | Some (Num z) => 0 <? z
  | Some NaN | None => false
  end.

(** [x++] / [x--] on a property: the value stored back.  [undefined + 1]
    is [NaN]. *)
Definition incremented (x : option number) : number :=
  match x with
  | Some (Num z) => Num (z + 1)
  | Some NaN | None => NaN
  end.

Definition decremented (x : option number) : number :=
  match x with
  | Some (Num z) => Num (z - 1)
  | Some NaN | None => NaN
  end.

(** ** The builtin [parseInt(string)] (no radix argument)

    Leading white space is skipped, an optional sign is read, a [0x] / [0X]
    prefix selects radix 16, and the longest prefix of digits is converted;
    without a digit the result is [NaN].  A string is its sequence of UTF-8
    bytes, so the white space beyond ASCII takes two or three of them.  The
    integer is exact (the builtin rounds beyond 2^53, which no comparison
    with [0..4] can observe). *)

(** TAB, LF, VT, FF, CR, SP *)
Definition isWhiteSpace (a : Ascii.ascii) : bool :=
  match Ascii.nat_of_ascii a with
  | 9%nat | 10%nat | 11%nat | 12%nat | 13%nat | 32%nat => true
  | _ => false
  end.

(** U+00A0 *)
Definition isWhiteSpace2 (a b : Ascii.ascii) : bool :=
  match Ascii.nat_of_ascii a, Ascii.nat_of_ascii b with
  | 194%nat, 160%nat => true
  | _, _ => false
  end.

(** U+1680, U+2000..U+200A, U+2028, U+2029, U+202F, U+205F, U+3000,
    U+FEFF *)
Definition isWhiteSpace3 (a b c : Ascii.ascii) : bool :=
  let '(x, y, z) :=
    (Z.of_nat (Ascii.nat_of_ascii a), Z.of_nat (Ascii.nat_of_ascii b),
     Z.of_nat (Ascii.nat_of_ascii c)) in
  ((x =? 225) && (y =? 154) && (z =? 128))
  || ((x =? 226) && (y =? 128)
      && (((128 <=? z) && (z <=? 138)) || (z =? 168) || (z =? 169) || (z =? 175)))
  || ((x =? 226) && (y =? 129) && (z =? 159))
  || ((x =? 227) && (y =? 128) && (z =? 128))
  || ((x =? 239) && (y =? 187) && (z =? 191)).

Fixpoint trimStart (s : string) : string :=
  match s with
  | String a s1 =>
      if isWhiteSpace a then trimStart s1
      else
        match s1 with
        | String b s2 =>
            if isWhiteSpace2 a b then trimStart s2
            else
              match s2 with
              | String c s3 => if isWhiteSpace3 a b c then trimStart s3 else s
              | EmptyString => s
              end
        | EmptyString => s
        end
  | EmptyString => s
  end.

Definition digitValue (a : Ascii.ascii) : option Z :=
  let n := Z.of_nat (Ascii.nat_of_ascii a) in
  if (48 <=? n) && (n <=? 57) then Some (n - 48)
  else if (97 <=? n) && (n <=? 122) then Some (n - 87)
  else if (65 <=? n) && (n <=? 90) then Some (n - 55)
  else None.

Fixpoint parseDigits (radix : Z) (s : string) (acc : option Z) : option Z :=
  match s with
  | String a s' =>
      match digitValue a with
      | Some d =>
          if d <? radix
          then parseDigits radix s' (Some (default 0 acc * radix + d))
          else acc
      | None => acc
      end
  | EmptyString => acc
  end.

Definition parseInt (input : string) : number :=
  let s := trimStart input in
  let '(sign, s) :=
    match s with
    | String "-"%char r => (-1, r)
    | String "+"%char r => (1, r)
    | _ => (1, s)
    end in
  let '(radix, s) :=
    match s with
    | String "0"%char (String "x"%char r)
    | String "0"%char (String "X"%char r) => (16, r)
    | _ => (10, s)
    end in
  match parseDigits radix s None with
  | Some n => Num (sign * n)
  | None => NaN
  end.

(** [isNaN(color) || color < 0 || color > 4], the payload check of
    [handleDrop]; a payload that passes is an integer colour. *)
Definition colorOfPayload (color : number) : option Z :=
  match color with
  | NaN => None
  | Num c => if (c <? 0) || (c >? 4) then None else Some c
  end.

(** Values a call can evaluate to; a [void] method evaluates to
    [Undefined]. *)
Inductive value : Type :=
  | Undefined
  | Null
  | Bool (b : bool)
  | Number (n : number).

(** Closures created in [GuiGame.enterManualDistributionPhase] and stored in
    the callback fields of the two views; [GuiGame.callClosure] below gives
    their bodies. *)
Inductive Closure : Type :=
  | NotifyTilePlaced      (* (factoryId, color) => this.bagView?.tilePlaced(color) *)
  | NotifyTileReturned    (* (factoryId, color) => this.bagView?.tileReturned(color) *)
  | StartRound.           (* () => this.applyManualDistribution() *)

#[global] Instance Closure_eq_dec : EqDecision Closure.
Proof. solve_decision. Defined.

(** ** bag-view.ts *)

Module BagView.

Record state : Type := mk {
  tileCounts : gmap Z number;
  tilesPlaced : Z;
  tilesNeeded : Z;
  onDistributionComplete : option Closure;
  (** [None] is [null]; [Some d] is the button with [disabled = d]. *)
  startRoundBtn : option bool
}.

(** Field initialisers of the class. *)
Definition new : state :=
  {| tileCounts := ∅; tilesPlaced := 0; tilesNeeded := 0;
     onDistributionComplete := None; startRoundBtn := None |}.

Definition emptyCounts : gmap Z number :=
  <[0 := Num 0]> (<[1 := Num 0]> (<[2 := Num 0]> (<[3 := Num 0]>
    (<[4 := Num 0]> ∅)))).

(** [countTilesInBag]: [counts[tile]++] for every tile in [0..4]. *)
Definition countTilesInBag (tilebag : list Z) : gmap Z number :=
  foldl (λ counts tile,
           if (0 <=? tile) && (tile <=? 4)
           then <[tile := incremented (counts !! tile)]> counts
           else counts)
        emptyCounts tilebag.

(** [Object.values(this.tileCounts).reduce((a, b) => a + b, 0)] *)
Definition totalAvailable (counts : gmap Z number) : number :=
  map_fold (λ _ b a, nadd a b) (Num 0) counts.

(** [remaining] of [updateStatus]. *)
Definition remaining (bv : state) : number :=
  nsub (Math_min (Num (tilesNeeded bv))
                 (nadd (totalAvailable (tileCounts bv)) (Num (tilesPlaced bv))))
       (Num (tilesPlaced bv)).

(** [allPlaced] of [updateStatus]. *)
Definition allPlaced (bv : state) : bool :=
  is_zero (remaining bv) || is_zero (totalAvailable (tileCounts bv)).

Definition updateStatus (bv : state) : state :=
  match startRoundBtn bv with
  | Some _ =>
      {| tileCounts := tileCounts bv; tilesPlaced := tilesPlaced bv;
         tilesNeeded := tilesNeeded bv;
         onDistributionComplete := onDistributionComplete bv;
         startRoundBtn := Some (negb (allPlaced bv)) |}
  | None => bv
  end.

(** [create]: the markup contains [<button id="start-round-btn" disabled>],
    which [querySelector] then finds. *)
Definition create (tilebag : list Z) (needed : Z) (bv : state) : state :=
  updateStatus
    {| tileCounts := countTilesInBag tilebag; tilesPlaced := 0;
       tilesNeeded := needed;
       onDistributionComplete := onDistributionComplete bv;
       startRoundBtn := Some true |}.

(** [handleDragStart]: whether the drag of a bag tile of [color] starts
    (it is prevented when [tileCounts[color] <= 0]; [undefined <= 0] and
    [NaN <= 0] are false, so only a number at most 0 prevents it). *)
Definition handleDragStart (color : Z) (bv : state) : option string :=
  match tileCounts bv !! color with
  | Some (Num z) => if z <=? 0 then None else Some (pretty color)
  | _ => Some (pretty color)
  end.

Definition tilePlaced (color : Z) (bv : state) : state :=
  if gt_zero (tileCounts bv !! color) then
    updateStatus
      {| tileCounts := <[color := decremented (tileCounts bv !! color)]> (tileCounts bv);
         tilesPlaced := tilesPlaced bv + 1;
         tilesNeeded := tilesNeeded bv;
         onDistributionComplete := onDistributionComplete bv;
         startRoundBtn := startRoundBtn bv |}
  else bv.

(** [tilePlaced] is declared [void]: a call evaluates to [undefined] on
    either branch. *)
Definition tilePlaced_call (color : Z) (bv : state) : state * value :=
  (tilePlaced color bv, Undefined).

Definition tileReturned (color : Z) (bv : state) : state :=
  updateStatus
    {| tileCounts := <[color := incremented (tileCounts bv !! color)]> (tileCounts bv);
       tilesPlaced := tilesPlaced bv - 1;
       tilesNeeded := tilesNeeded bv;
       onDistributionComplete := onDistributionComplete bv;
       startRoundBtn := startRoundBtn bv |}.

Definition setOnDistributionComplete (cb : Closure) (bv : state) : state :=
  {| tileCounts := tileCounts bv; tilesPlaced := tilesPlaced bv;
     tilesNeeded := tilesNeeded bv;
     onDistributionComplete := Some cb;
     startRoundBtn := startRoundBtn bv |}.

(** The click listener of the start button, which a disabled button never
    receives: the closure to run, if any. *)
Definition startRoundClick (bv : state) : option Closure :=
  match startRoundBtn bv with
  | Some false => onDistributionComplete bv
  | _ => None
  end.

End BagView.

(** ** factory-drop-handler.ts *)

(** The part of a [DragEvent] the handler reads:
    [e.dataTransfer?.getData("text/plain")].  [None] is an event without a
    [dataTransfer]; [getData] yields the empty string when the drag carries
    no text. *)
Record DragEvent : Type := { dataTransfer : option string }.

(** A callback invocation made by a handler: the closure stored in the
    callback field, applied to [(factoryId, color)]. *)
Record Call : Type := { callee : Closure; arg_factoryId : nat; arg_color : Z }.

Module FactoryDropHandler.

(** [FactoryState], without its DOM elements. *)
Record FactoryState : Type := { factoryId : nat; tiles : list Z }.

Record state : Type := mk {
  factories : gmap nat FactoryState;
  onTileDropped : option Closure;
  onTileRemoved : option Closure;
  enabled : bool
}.

Definition new : state :=
  {| factories := ∅; onTileDropped := None; onTileRemoved := None;
     enabled := true |}.

Definition with_factories (m : gmap nat FactoryState) (h : state) : state :=
  {| factories := m; onTileDropped := onTileDropped h;
     onTileRemoved := onTileRemoved h; enabled := enabled h |}.

(** [setupDropZones(factoryElements)]: the map is cleared and the element
    at [index] becomes factory [index + 1] with no tiles.  Only the number
    of elements matters to the state. *)
Definition setupDropZones (factoryElements : nat) (h : state) : state :=
  with_factories
    (foldl (λ m index,
              <[(index + 1)%nat :=
                  {| factoryId := (index + 1)%nat; tiles := [] |}]> m)
           ∅ (seq 0 factoryElements))
    h.

Definition addTileToFactory (id : nat) (color : Z) (h : state) : state * bool :=
  match factories h !! id with
  | None => (h, false)
  | Some factory =>
      if (4 <=? length (tiles factory))%nat then (h, false)
      else
        (with_factories
           (<[id := {| factoryId := factoryId factory;
                       tiles := tiles factory ++ [color] |}]> (factories h)) h,
         true)
  end.

(** [removeTileFromFactory]: [None] is the [null] result.
    [tiles.splice(slotIndex, 1)] removes the element at [slotIndex] and
    closes the gap. *)
Definition removeTileFromFactory (id slotIndex : nat) (h : state)
  : state * option Z :=
  match factories h !! id with
  | None => (h, None)
  | Some factory =>
      if (length (tiles factory) <=? slotIndex)%nat then (h, None)
      else
        (with_factories
           (<[id := {| factoryId := factoryId factory;
                       tiles := delete slotIndex (tiles factory) |}]> (factories h)) h,
         tiles factory !! slotIndex)
  end.

Definition handleDrop (e : DragEvent) (id : nat) (h : state)
  : state * list Call :=
  if negb (enabled h) then (h, [])
  else
    match dataTransfer e with
    | None => (h, [])
    | Some colorStr =>
        if decide (colorStr = EmptyString) then (h, [])
        else
          match colorOfPayload (parseInt colorStr) with
          | None => (h, [])
          | Some color =>
              let '(h', placed) := addTileToFactory id color h in
              if placed then
                (h', match onTileDropped h' with
                     | Some cb => [{| callee := cb; arg_factoryId := id;
                                      arg_color := color |}]
                     | None => []
                     end)
              else (h', [])
          end
    end.

Definition handleTileClick (id slotIndex : nat) (h : state)
  : state * list Call :=
  if negb (enabled h) then (h, [])
  else
    match factories h !! id with
    | None => (h, [])
    | Some factory =>
        match tiles factory !! slotIndex with
        | Some color =>          (* slotIndex < factory.tiles.length *)
            let h' := fst (removeTileFromFactory id slotIndex h) in
            (h', match onTileRemoved h' with
                 | Some cb => [{| callee := cb; arg_factoryId := id;
                                  arg_color := color |}]
                 | None => []
                 end)
        | None => (h, [])
        end
    end.

(** [getTotalTilesPlaced], and the [totalPlaced] loop of [isComplete]. *)
Definition getTotalTilesPlaced (h : state) : Z :=
  map_fold (λ _ factory total, total + Z.of_nat (length (tiles factory)))
           0 (factories h).

(** [totalPlaced >= Math.min(totalTilesAvailable, maxCapacity)];
    a comparison with [NaN] is false. *)
Definition isComplete (totalTilesAvailable : number) (h : state) : bool :=
  let totalPlaced := getTotalTilesPlaced h in
  let maxCapacity := Z.of_nat (size (factories h)) * 4 in
  match Math_min totalTilesAvailable (Num maxCapacity) with
  | Num m => m <=? totalPlaced
  | NaN => false
  end.

(** [[...this.factories.keys()].sort((a, b) => a - b)] *)
Definition sortedIds (h : state) : list nat :=
  merge_sort (≤)%nat ((map_to_list (factories h)).*1).

(** [getFactoryConfiguration]: a copy of each tile list, by ascending id. *)
Definition getFactoryConfiguration (h : state) : list (list Z) :=
  omap (λ id, tiles <$> factories h !! id) (sortedIds h).

Definition reset (h : state) : state :=
  with_factories
    ((λ factory, {| factoryId := factoryId factory; tiles := [] |})
       <$> factories h) h.

Definition setEnabled (b : bool) (h : state) : state :=
  {| factories := factories h; onTileDropped := onTileDropped h;
     onTileRemoved := onTileRemoved h; enabled := b |}.

Definition setOnTileDropped (cb : Closure) (h : state) : state :=
  {| factories := factories h; onTileDropped := Some cb;
     onTileRemoved := onTileRemoved h; enabled := enabled h |}.

Definition setOnTileRemoved (cb : Closure) (h : state) : state :=
  {| factories := factories h; onTileDropped := onTileDropped h;
     onTileRemoved := Some cb; enabled := enabled h |}.

Definition destroy (h : state) : state := with_factories ∅ h.

End FactoryDropHandler.

(** ** game.ts: the distribution controller *)

(** How a call ends: normally, or by an uncaught exception, with the state
    reached at that point (mutations made before the throw stay). *)
Inductive completion (A : Type) : Type :=
  | Normal (a : A)
  | Throw (err : string) (a : A).
Arguments Normal {A} a.
Arguments Throw {A} err a.

(** [arr[i] = x] on a JavaScript array: in range the element is replaced;
    at or past the end the array grows, the skipped positions being holes
    ([None]), which read back as [undefined]. *)
Definition array_set {A} (arr : list (option A)) (i : nat) (x : A)
  : list (option A) :=
  if decide (i < length arr)%nat then <[i := Some x]> arr
  else arr ++ replicate (i - length arr) None ++ [Some x].

(** [arr[i]]: [None] is [undefined] (a hole, or an index out of range). *)
Definition array_get {A} (arr : list (option A)) (i : nat) : option A :=
  mjoin (arr !! i).

(** [arr.indexOf(x)]; [None] is [-1]. *)
Fixpoint indexOf (x : Z) (arr : list Z) : option nat :=
  match arr with
  | [] => None
  | y :: arr' => if decide (y = x) then Some 0%nat else S <$> indexOf x arr'
  end.

(** [const index = bag.indexOf(x); if (index !== -1) bag.splice(index, 1);] *)
Definition removeFirst (x : Z) (bag : list Z) : list Z :=
  match indexOf x bag with
  | Some index => delete index bag
  | None => bag
  end.

(** Modelled from the spec: [GuiDisplay.create_empty_factories] and
    [GuiDisplay.getRegularFactories] (display.ts is not among the sources).
    The spec registers the factory ids [1..numFactories], so the display
    hands back one element per regular factory. *)
Definition regularFactoryCount (numFactories : Z) : nat := Z.to_nat numFactories.

Module GuiGame.
Section Engine.

(** The rules engine (package azul-tiles) is external.  Of its state the
    controller touches the factory array (index 0 is the centre), the tile
    bag and, through the engine's [getMoves], the legal moves; [Rest] is
    everything else the engine keeps. *)
Context {Moves Rest : Type}.

Record GameState : Type := {
  factory : list (option (list Z));
  tilebag : list Z;
  availableMoves : Moves;
  rest : Rest
}.

(** The move set the engine's [getMoves()] computes from its state. *)
Variable getMoves : GameState → Moves.
(** The enumerator [Tile.Null] of the engine. *)
Variable Tile_Null : Z.

Record state : Type := mk {
  gamestate : GameState;
  manualDistributionMode : bool;
  bagView : option BagView.state;
  factoryDropHandler : option FactoryDropHandler.state;
  ourBag : list Z;
  discardedTiles : list Z
}.

Definition with_gamestate (gs : GameState) (g : state) : state :=
  {| gamestate := gs; manualDistributionMode := manualDistributionMode g;
     bagView := bagView g; factoryDropHandler := factoryDropHandler g;
     ourBag := ourBag g; discardedTiles := discardedTiles g |}.

Definition with_bagView (bv : option BagView.state) (g : state) : state :=
  {| gamestate := gamestate g; manualDistributionMode := manualDistributionMode g;
     bagView := bv; factoryDropHandler := factoryDropHandler g;
     ourBag := ourBag g; discardedTiles := discardedTiles g |}.

Definition with_handler (h : option FactoryDropHandler.state) (g : state) : state :=
  {| gamestate := gamestate g; manualDistributionMode := manualDistributionMode g;
     bagView := bagView g; factoryDropHandler := h;
     ourBag := ourBag g; discardedTiles := discardedTiles g |}.

Definition with_bags (bag discard : list Z) (g : state) : state :=
  {| gamestate := gamestate g; manualDistributionMode := manualDistributionMode g;
     bagView := bagView g; factoryDropHandler := factoryDropHandler g;
     ourBag := bag; discardedTiles := discard |}.

Definition with_mode (b : bool) (g : state) : state :=
  {| gamestate := gamestate g; manualDistributionMode := b;
     bagView := bagView g; factoryDropHandler := factoryDropHandler g;
     ourBag := ourBag g; discardedTiles := discardedTiles g |}.

(** The tiles of a factory that go back to the bag:
    [tile !== Tile.Null && tile >= 0]. *)
Definition restorable (tile : Z) : bool :=
  negb (bool_decide (tile = Tile_Null)) && (0 <=? tile).

(** The loop of [restoreTilesToBag] over the indices still to visit.
    [factory.forEach] on a hole is a [TypeError]. *)
Fixpoint restoreLoop (indices : list nat) (gs : GameState)
  : completion GameState :=
  match indices with
  | [] => Normal gs
  | i :: indices' =>
      match array_get (factory gs) i with
      | Some tiles =>
          restoreLoop indices'
            {| factory := <[i := Some []]> (factory gs);
               tilebag := tilebag gs ++ filter (λ t, restorable t = true) tiles;
               availableMoves := availableMoves gs;
               rest := rest gs |}
      | None => Throw "TypeError" gs
      end
  end.

(** [for (let i = 1; i < this.gamestate.factory.length; i++)] *)
Definition restoreTilesToBag (gs : GameState) : completion GameState :=
  restoreLoop (seq 1 (length (factory gs) - 1)) gs.

(** The first [if] of [enterManualDistributionPhase]: the supply is seeded
    from the engine only when [ourBag] is empty. *)
Definition seedOurBag (g : state) : completion state :=
  if decide (length (ourBag g) = 0%nat) then
    match restoreTilesToBag (gamestate g) with
    | Normal gs => Normal (with_bags (tilebag gs) (discardedTiles g) (with_gamestate gs g))
    | Throw err gs => Throw err (with_gamestate gs g)
    end
  else Normal g.

(** The second [if]: the whole discard pile joins a bag that is short. *)
Definition refillFromDiscard (tilesPerRound : Z) (g : state) : state :=
  if (Z.of_nat (length (ourBag g)) <? tilesPerRound)
     && (0 <? length (discardedTiles g))%nat
  then with_bags (ourBag g ++ discardedTiles g) [] g
  else g.

Definition enterManualDistributionPhase (g : state) : completion state :=
  let numFactories := Z.of_nat (length (factory (gamestate g))) - 1 in
  let tilesPerRound := numFactories * 4 in
  match seedOurBag g with
  | Throw err g' => Throw err g'
  | Normal g1 =>
      let g2 := refillFromDiscard tilesPerRound g1 in
      let bv := BagView.create (ourBag g2) tilesPerRound BagView.new in
      let h := FactoryDropHandler.setupDropZones
                 (regularFactoryCount numFactories) FactoryDropHandler.new in
      let h := FactoryDropHandler.setOnTileDropped NotifyTilePlaced h in
      let h := FactoryDropHandler.setOnTileRemoved NotifyTileReturned h in
      let bv := BagView.setOnDistributionComplete StartRound bv in
      Normal (with_mode true (with_handler (Some h) (with_bagView (Some bv) g2)))
  end.

Definition applyManualDistribution (g : state) : state :=
  match factoryDropHandler g with
  | None => g
  | Some h =>
      let factoryConfig := FactoryDropHandler.getFactoryConfiguration h in
      (* 2. factory[index + 1] = tiles *)
      let factory' :=
        foldl (λ fs it, array_set fs (it.1 + 1)%nat it.2)
              (factory (gamestate g)) (imap pair factoryConfig) in
      (* 3. every placed tile leaves our bag, if it is found there *)
      let ourBag' :=
        foldl (λ bag tileColor, removeFirst tileColor bag)
              (ourBag g) (concat factoryConfig) in
      (* 4. the engine's bag is replaced by ours, then getMoves() *)
      let gs1 := {| factory := factory'; tilebag := ourBag';
                    availableMoves := availableMoves (gamestate g);
                    rest := rest (gamestate g) |} in
      let gs2 := {| factory := factory'; tilebag := ourBag';
                    availableMoves := getMoves gs1;
                    rest := rest (gamestate g) |} in
      {| gamestate := gs2; manualDistributionMode := false;
         bagView := None; factoryDropHandler := None;
         ourBag := ourBag'; discardedTiles := discardedTiles g |}
  end.

(** The bodies of the closures wired in [enterManualDistributionPhase]. *)
Definition callClosure (c : Call) (g : state) : state :=
  match callee c with
  | NotifyTilePlaced =>
      with_bagView (BagView.tilePlaced (arg_color c) <$> bagView g) g
  | NotifyTileReturned =>
      with_bagView (BagView.tileReturned (arg_color c) <$> bagView g) g
  | StartRound => applyManualDistribution g
  end.

(** The events of the distribution user interface.  A drop or a click
    reaches the handler through the listeners of [setupDropZones]; the
    click on the start button reaches [BagView] only while the button is
    enabled. *)
Inductive Event : Type :=
  | DropOn (e : DragEvent) (factoryId : nat)
  | TileClick (factoryId slotIndex : nat)
  | StartRoundClick.

Definition runCalls (calls : list Call) (g : state) : state :=
  foldl (λ g c, callClosure c g) g calls.

Definition dispatch (ev : Event) (g : state) : state :=
  match ev with
  | DropOn e id =>
      match factoryDropHandler g with
      | Some h =>
          let '(h', calls) := FactoryDropHandler.handleDrop e id h in
          runCalls calls (with_handler (Some h') g)
      | None => g
      end
  | TileClick id slotIndex =>
      match factoryDropHandler g with
      | Some h =>
          let '(h', calls) := FactoryDropHandler.handleTileClick id slotIndex h in
          runCalls calls (with_handler (Some h') g)
      | None => g
      end
  | StartRoundClick =>
      match bagView g ≫= BagView.startRoundClick with
      | Some cb => callClosure {| callee := cb; arg_factoryId := 0; arg_color := 0 |} g
      | None => g
      end
  end.

End Engine.
End GuiGame.


(** ** The rest of bag-view.ts and game.ts *)

(** [BagView.getRemainingCounts]: a copy of the counts. *)
Definition getRemainingCounts (bv : BagView.state) : gmap Z number :=
  BagView.tileCounts bv.

(** [BagView.getTilesPlaced] *)
Definition getTilesPlaced (bv : BagView.state) : Z := BagView.tilesPlaced bv.

(** ** game.ts: selecting a tile and a line during ordinary play *)

Inductive PlayerType : Type := HUMAN | AI.

#[global] Instance PlayerType_eq_dec : EqDecision PlayerType.
Proof. solve_decision. Defined.

(** What the controller reads of a [PlayerInterface]. *)
Record Player : Type := { player_type : PlayerType; player_id : Z }.

(** [field == x] where [field] is a number of an engine move and [x] a
    number of ours, possibly [NaN]. *)
Definition num_eq (field : Z) (x : number) : bool :=
  match x with
  | Num y => bool_decide (field = y)
  | NaN => false
  end.

Module Play.
Section Play.

(** The moves of the engine, of which the controller reads four fields;
    the engine's [activePlayer] field, and its methods [playMove] (which
    may be handed [undefined], [None] here) and [nextTurn]. *)
Context {Move Rest : Type}.
Variables move_factory move_tile move_line move_player : Move → Z.
Variable Tile_Null : Z.
Variable activePlayer : @GuiGame.GameState (list Move) Rest → nat.
Variable playMove :
  option Move → @GuiGame.GameState (list Move) Rest → @GuiGame.GameState (list Move) Rest.
Variable nextTurn :
  @GuiGame.GameState (list Move) Rest → @GuiGame.GameState (list Move) Rest.

Record state : Type := mk {
  game : @GuiGame.state (list Move) Rest;
  players : list Player;
  selected_tile : number;
  selected_factory : number;
  possible_lines : list Z
}.

Definition with_game (g : @GuiGame.state (list Move) Rest) (s : state) : state :=
  {| game := g; players := players s; selected_tile := selected_tile s;
     selected_factory := selected_factory s; possible_lines := possible_lines s |}.

Definition availableMoves (s : state) : list Move :=
  GuiGame.availableMoves (GuiGame.gamestate (game s)).

(** [this.players[this.gamestate.activePlayer]]; [None] is [undefined]. *)
Definition get_active_player (s : state) : option Player :=
  players s !! activePlayer (GuiGame.gamestate (game s)).

(** The filter of [check_move]. *)
Definition matches (player : Z) (tile factory line : number) (move : Move) : bool :=
  num_eq (move_factory move) factory && num_eq (move_tile move) tile
  && num_eq (move_line move) line && bool_decide (move_player move = player).

(** [check_move]: with any number of matches other than one, the [Error]
    is built but not thrown, and the result is [undefined]. *)
Definition check_move (player : Z) (tile factory line : number) (s : state)
  : option Move :=
  match filter (λ move, matches player tile factory line move = true)
               (availableMoves s) with
  | [move] => Some move
  | _ => None
  end.

Definition clear_selected (s : state) : state :=
  {| game := game s; players := players s; selected_tile := Num Tile_Null;
     selected_factory := Num (-1); possible_lines := [] |}.

(** [factory_tile_callback]: [tile_str] is the [tile-colour] attribute of
    the clicked element and [factory_attr] the [factory-id] attribute of
    its parent ([None] when absent: [parseInt(null)] is [NaN]).  This is the
    body of the callback: on a human's turn it calls
    [event.stopPropagation()] and is all the click does, on an AI's turn it
    returns before that call and the click goes on to
    [screen_click_callback], which is not part of this model.  The same
    holds of [line_click_callback] below. *)
Definition factory_tile_callback (tile_str factory_attr : option string) (s : state)
  : completion state :=
  match get_active_player s with
  | None => Throw "TypeError" s
  | Some active =>
      if decide (player_type active ≠ HUMAN) then Normal s
      else
        let s := clear_selected s in
        match tile_str with
        | None => Normal s
        | Some tile_str =>
            let tile := parseInt tile_str in
            let factory_id :=
              match factory_attr with
              | Some a => parseInt a
              | None => NaN
              end in
            let moves :=
              filter (λ move, num_eq (move_factory move) factory_id
                              && num_eq (move_tile move) tile = true)
                     (availableMoves s) in
            Normal {| game := game s; players := players s;
                      selected_tile := tile; selected_factory := factory_id;
                      possible_lines := move_line <$> moves |}
        end
  end.

(** [this.possible_lines.includes(line_id)] *)
Definition includes (lines : list Z) (line_id : number) : bool :=
  match line_id with
  | Num z => bool_decide (z ∈ lines)
  | NaN => false
  end.

(** [x != y] on numbers. *)
Definition num_ne (x : number) (y : Z) : bool := negb (num_eq y x).

(** [line_click_callback]: [line_attr] is the [line-id] attribute of the
    clicked line. *)
Definition line_click_callback (line_attr : option string) (s : state)
  : completion state :=
  match get_active_player s with
  | None => Throw "TypeError" s
  | Some active =>
      if decide (player_type active ≠ HUMAN) then Normal s
      else if num_ne (selected_factory s) (-1) && num_ne (selected_tile s) Tile_Null
      then
        let line_id :=
          match line_attr with
          | Some a => parseInt a
          | None => NaN
          end in
        if includes (possible_lines s) line_id then
          let move := check_move (player_id active) (selected_tile s)
                                 (selected_factory s) line_id s in
          let gs := nextTurn (playMove move (GuiGame.gamestate (game s))) in
          Normal (clear_selected (with_game (GuiGame.with_gamestate gs (game s)) s))
        else Normal s
      else Normal (clear_selected s)
  end.

End Play.
End Play.

(** ** game.ts: starting over *)

Section Restart.
Context {Moves Rest Seed : Type}.
Variable Tile_Null : Z.

(** Of the external engine: the [seed] property of a game state, read and
    assigned, and the method [newGame(numPlayers)], which deals the tiles
    from the seed. *)
Variable seed : @GuiGame.GameState Moves Rest → Seed.
Variable set_seed : Seed → @GuiGame.GameState Moves Rest → @GuiGame.GameState Moves Rest.
Variable newGame : nat → @GuiGame.GameState Moves Rest → @GuiGame.GameState Moves Rest.

(** [GuiGame.replay]: the seed of the old engine state is read and assigned
    to the new one before the engine starts the game; then our bag and the
    discard pile are emptied and the distribution phase is entered.
    [fresh] is the object [new GameState()] constructs, carrying the seed
    the engine drew for it, and [players] the controller's [players]
    field. *)
Definition replay (fresh : @GuiGame.GameState Moves Rest) (players : list Player)
    (g : @GuiGame.state Moves Rest) : completion (@GuiGame.state Moves Rest) :=
  let seed := seed (GuiGame.gamestate g) in
  let gs := fresh in
  let gs := set_seed seed gs in
  let gs := newGame (length players) gs in
  GuiGame.enterManualDistributionPhase Tile_Null
    (GuiGame.with_bags [] [] (GuiGame.with_gamestate gs g)).

(** [GuiGame.rematch]: as [replay], but the new engine state keeps the seed
    it was constructed with. *)
Definition rematch (fresh : @GuiGame.GameState Moves Rest) (players : list Player)
    (g : @GuiGame.state Moves Rest) : completion (@GuiGame.state Moves Rest) :=
  let gs := fresh in
  let gs := newGame (length players) gs in
  GuiGame.enterManualDistributionPhase Tile_Null
    (GuiGame.with_bags [] [] (GuiGame.with_gamestate gs g)).

End Restart.
(** * Notions used by the statements *)

(** The shape of every counting loop over a [Map]: [total += w(entry)]. *)
Definition sum_with `{Countable K} {A : Type} (w : A → Z) (m : gmap K A) : Z :=
  map_fold (λ _ a total, total + w a) 0 m.

(** The number stored for a colour, [0] when there is none. *)
Definition count_of (counts : gmap Z number) (c : Z) : Z :=
  match counts !! c with
  | Some (Num z) => z
  | _ => 0
  end.

(** The shape [countTilesInBag] gives the counts, which every later update
    keeps: exactly the keys [0..4], each holding a natural number. *)
Definition wfCounts (m : gmap Z number) : Prop :=
  ∀ c, if decide (0 ≤ c ≤ 4)
       then ∃ z, m !! c = Some (Num z) ∧ 0 ≤ z
       else m !! c = None.

Definition sum_colors (f : Z → Z) : Z := f 0 + f 1 + f 2 + f 3 + f 4.

(** How many tiles of colour [c] a list holds. *)
Definition countColor (c : Z) (l : list Z) : Z :=
  Z.of_nat (length (filter (λ t, t = c) l)).

(** The colour a drop event carries, if [handleDrop] accepts its payload. *)
Definition payloadColor (e : DragEvent) : option Z :=
  match dataTransfer e with
  | Some colorStr =>
      if decide (colorStr = EmptyString) then None
      else colorOfPayload (parseInt colorStr)
  | None => None
  end.

(** A payload that is absent, empty, or does not parse to an integer in
    [0..4]. *)
Definition badPayload (e : DragEvent) : Prop :=
  dataTransfer e = None
  ∨ dataTransfer e = Some EmptyString
  ∨ ∃ s, dataTransfer e = Some s
         ∧ (parseInt s = NaN ∨ ∃ z, parseInt s = Num z ∧ (z < 0 ∨ 4 < z)).

(** Operations on a drop handler: the two private mutators, the two event
    handlers that call them, and [reset]. *)
Inductive HandlerOp : Type :=
  | Place (id : nat) (color : Z)
  | Remove (id slotIndex : nat)
  | DropEvent (e : DragEvent) (id : nat)
  | ClickEvent (id slotIndex : nat)
  | ResetAll.

Definition handlerOp (h : FactoryDropHandler.state) (op : HandlerOp)
  : FactoryDropHandler.state :=
  match op with
  | Place id color => (FactoryDropHandler.addTileToFactory id color h).1
  | Remove id slotIndex => (FactoryDropHandler.removeTileFromFactory id slotIndex h).1
  | DropEvent e id => (FactoryDropHandler.handleDrop e id h).1
  | ClickEvent id slotIndex => (FactoryDropHandler.handleTileClick id slotIndex h).1
  | ResetAll => FactoryDropHandler.reset h
  end.

(** All tiles on the factories, in the order of the configuration. *)
Definition placedTiles (h : FactoryDropHandler.state) : list Z :=
  concat (FactoryDropHandler.getFactoryConfiguration h).

(** No factory holds more than four tiles. *)
Definition capacity_ok (h : FactoryDropHandler.state) : Prop :=
  ∀ id f, FactoryDropHandler.factories h !! id = Some f →
          (length (FactoryDropHandler.tiles f) ≤ 4)%nat.

(** Tiles of colour [c] on the factories, counted as the loops of the
    handler count. *)
Definition placedCount (c : Z) (h : FactoryDropHandler.state) : Z :=
  sum_with (λ f, countColor c (FactoryDropHandler.tiles f))
           (FactoryDropHandler.factories h).

(** Every placed tile is one of the five colours. *)
Definition tiles_valid (h : FactoryDropHandler.state) : Prop :=
  ∀ id f, FactoryDropHandler.factories h !! id = Some f →
          Forall (λ t, 0 ≤ t ≤ 4) (FactoryDropHandler.tiles f).

(** The factory ids are [1..n]. *)
Definition ids_dense (n : nat) (h : FactoryDropHandler.state) : Prop :=
  ∀ id, is_Some (FactoryDropHandler.factories h !! id) ↔ (1 ≤ id ≤ n)%nat.

Section Phase.
Context {Moves Rest : Type}.
Variable getMoves : @GuiGame.GameState Moves Rest → Moves.
Variable Tile_Null : Z.
Local Abbreviation state := (@GuiGame.state Moves Rest).

(** The states of one distribution phase: what
    [enterManualDistributionPhase] returns, and what drops and clicks on
    the factories make of it. *)
Inductive distributing : state → Prop :=
  | distributing_enter g0 g :
      GuiGame.enterManualDistributionPhase Tile_Null g0 = Normal g →
      distributing g
  | distributing_drop e id g :
      distributing g →
      distributing (GuiGame.dispatch getMoves (GuiGame.DropOn e id) g)
  | distributing_click id slotIndex g :
      distributing g →
      distributing (GuiGame.dispatch getMoves (GuiGame.TileClick id slotIndex) g).

(** [numFactories] and [tilesPerRound] as [enterManualDistributionPhase]
    computes them. *)
Definition numFactories (g : state) : Z :=
  Z.of_nat (length (GuiGame.factory (GuiGame.gamestate g))) - 1.

Definition tilesPerRound (g : state) : Z := numFactories g * 4.

(** What holds of the two views throughout a distribution phase. *)
Record phase_inv (g : state) (h : FactoryDropHandler.state) (bv : BagView.state)
  : Prop := {
  inv_handler : GuiGame.factoryDropHandler g = Some h;
  inv_bagView : GuiGame.bagView g = Some bv;
  inv_enabled : FactoryDropHandler.enabled h = true;
  inv_onDropped : FactoryDropHandler.onTileDropped h = Some NotifyTilePlaced;
  inv_onRemoved : FactoryDropHandler.onTileRemoved h = Some NotifyTileReturned;
  inv_onComplete : BagView.onDistributionComplete bv = Some StartRound;
  inv_button : BagView.startRoundBtn bv = Some (negb (BagView.allPlaced bv));
  inv_counts : wfCounts (BagView.tileCounts bv);
  inv_capacity : capacity_ok h;
  inv_valid : tiles_valid h;
  inv_ids : ids_dense (regularFactoryCount (numFactories g)) h;
  inv_needed : BagView.tilesNeeded bv = tilesPerRound g;
  (** without a factory nothing was ever placed or returned *)
  inv_empty : FactoryDropHandler.factories h = ∅ → BagView.tilesPlaced bv = 0;
  (** no colour has more tiles in our bag than in the counts and on the
      factories together *)
  inv_colour : ∀ c, 0 ≤ c ≤ 4 →
    countColor c (GuiGame.ourBag g)
    ≤ count_of (BagView.tileCounts bv) c + placedCount c h;
  (** the view's [tilesPlaced] is what the counts lack of our bag *)
  inv_placed :
    BagView.tilesPlaced bv + sum_colors (count_of (BagView.tileCounts bv))
    = sum_colors (λ c, countColor c (GuiGame.ourBag g))
}.

(** The supply counts: those of the bag view while there is one, else those
    the next view will be created with. *)
Definition supplyCounts (g : state) : gmap Z number :=
  match GuiGame.bagView g with
  | Some bv => BagView.tileCounts bv
  | None => BagView.countTilesInBag (GuiGame.ourBag g)
  end.

Definition tilesOnFactories (g : state) : Z :=
  match GuiGame.factoryDropHandler g with
  | Some h => FactoryDropHandler.getTotalTilesPlaced h
  | None => 0
  end.

(** [sum(counts) + sum(placed) + len(discard)] *)
Definition tilesAccounted (g : state) : number :=
  nadd (nadd (BagView.totalAvailable (supplyCounts g)) (Num (tilesOnFactories g)))
       (Num (Z.of_nat (length (GuiGame.discardedTiles g)))).

(** A drop is backed by the supply when the colour it carries has a
    positive count (a drag started on the bag view always is: see
    [BagView.handleDragStart]); clicks on placed tiles always are. *)
Definition supplied (ev : GuiGame.Event) (g : state) : bool :=
  match ev with
  | GuiGame.DropOn e _ =>
      match payloadColor e with
      | Some c => gt_zero (supplyCounts g !! c)
      | None => true
      end
  | GuiGame.TileClick _ _ => true
  | GuiGame.StartRoundClick => false
  end.

Fixpoint all_supplied (evs : list GuiGame.Event) (g : state) : bool :=
  match evs with
  | [] => true
  | ev :: evs' => supplied ev g && all_supplied evs' (GuiGame.dispatch getMoves ev g)
  end.

Definition run (evs : list GuiGame.Event) (g : state) : state :=
  foldl (λ g ev, GuiGame.dispatch getMoves ev g) g evs.

End Phase.

(** ** Concrete states *)

(** Five factories short of two tiles: 17 placed tiles are not enough, the
    18th completes the distribution. *)
Definition handler_17_of_18 : FactoryDropHandler.state :=
  foldl handlerOp (FactoryDropHandler.setupDropZones 5 FactoryDropHandler.new)
    [Place 1 0; Place 1 0; Place 1 0; Place 1 0;
     Place 2 1; Place 2 1; Place 2 1; Place 2 1;
     Place 3 2; Place 3 2; Place 3 2; Place 3 2;
     Place 4 3; Place 4 3; Place 4 3; Place 4 3;
     Place 5 4].

(** An engine whose moves are its factory contents, two players' worth of
    tiles cut down to one factory: the centre holds the first-player token,
    factory 1 four tiles of colour 1, the bag four more. *)
Definition ex_getMoves (gs : @GuiGame.GameState (list (option (list Z))) unit)
  : list (option (list Z)) := GuiGame.factory gs.

Definition ex_start : @GuiGame.state (list (option (list Z))) unit :=
  {| GuiGame.gamestate :=
       {| GuiGame.factory := [Some [5]; Some [1; 1; 1; 1]];
          GuiGame.tilebag := [1; 1; 1; 1];
          GuiGame.availableMoves := [];
          GuiGame.rest := tt |};
     GuiGame.manualDistributionMode := false;
     GuiGame.bagView := None;
     GuiGame.factoryDropHandler := None;
     GuiGame.ourBag := [];
     GuiGame.discardedTiles := [] |}.

Definition completed {A} (c : completion A) : A :=
  match c with
  | Normal a => a
  | Throw _ a => a
  end.

(** The first distribution phase, just entered: eight tiles of colour 1 in
    the supply, none of colour 0. *)
Definition ex_entered : @GuiGame.state (list (option (list Z))) unit :=
  completed (GuiGame.enterManualDistributionPhase (-1) ex_start).

Definition dropOf (payload : string) : DragEvent :=
  {| dataTransfer := Some payload |}.

(** Factory 1 filled with four tiles of colour 1. *)
Definition ex_filled : @GuiGame.state (list (option (list Z))) unit :=
  run ex_getMoves
    [GuiGame.DropOn (dropOf "1") 1; GuiGame.DropOn (dropOf "1") 1;
     GuiGame.DropOn (dropOf "1") 1; GuiGame.DropOn (dropOf "1") 1]
    ex_entered.

(** The round started from there. *)
Definition ex_applied : @GuiGame.state (list (option (list Z))) unit :=
  GuiGame.dispatch ex_getMoves GuiGame.StartRoundClick ex_filled.


(** ** Notions used by the further properties *)

(** A tile value that is one of the five colours. *)
Definition isColor (t : Z) : Prop := 0 ≤ t ≤ 4.

Section SuppliedPhase.
Context {Moves Rest : Type}.
Variable getMoves : @GuiGame.GameState Moves Rest → Moves.
Variable Tile_Null : Z.
Local Abbreviation state := (@GuiGame.state Moves Rest).

(** The states of a distribution phase in which every drop so far carried
    a colour the supply had (the drags the bag view starts: see
    [handleDragStart_supplied]). *)
Inductive supplied_phase : state → Prop :=
  | supplied_enter g0 g :
      GuiGame.enterManualDistributionPhase Tile_Null g0 = Normal g →
      supplied_phase g
  | supplied_event ev g :
      supplied_phase g → supplied ev g = true →
      supplied_phase (GuiGame.dispatch getMoves ev g).

(** The bag view and the handler agree, and together they account for our
    bag colour by colour. *)
Definition views_agree (g : state) (h : FactoryDropHandler.state)
    (bv : BagView.state) : Prop :=
  getTilesPlaced bv = FactoryDropHandler.getTotalTilesPlaced h
  ∧ ∀ c, 0 ≤ c ≤ 4 →
      countColor c (GuiGame.ourBag g)
      = count_of (getRemainingCounts bv) c + placedCount c h.

(** The engine's factory array has no hole among the regular factories. *)
Definition no_holes (gs : @GuiGame.GameState Moves Rest) : Prop :=
  ∀ i, (1 ≤ i < length (GuiGame.factory gs))%nat →
       is_Some (array_get (GuiGame.factory gs) i).

(** The tiles [restoreTilesToBag] takes from the regular factories, in the
    order it visits them. *)
Definition restoredTiles (gs : @GuiGame.GameState Moves Rest) : list Z :=
  concat (omap (λ entry, filter (λ t, GuiGame.restorable Tile_Null t = true) <$> entry)
               (drop 1 (GuiGame.factory gs))).

End SuppliedPhase.

(** ** More concrete states *)

(** A move as a tuple (factory, tile, line, player), an engine that
    remembers the move it was handed as its only available move, and a
    human (id 0) to move against an AI. *)
Definition ExMove : Type := Z * Z * Z * Z.
Definition ex_move_factory (m : ExMove) : Z := m.1.1.1.
Definition ex_move_tile (m : ExMove) : Z := m.1.1.2.
Definition ex_move_line (m : ExMove) : Z := m.1.2.
Definition ex_move_player (m : ExMove) : Z := m.2.

Definition ex_playMove (m : option ExMove) (gs : @GuiGame.GameState (list ExMove) unit)
  : @GuiGame.GameState (list ExMove) unit :=
  {| GuiGame.factory := GuiGame.factory gs; GuiGame.tilebag := GuiGame.tilebag gs;
     GuiGame.availableMoves := match m with Some x => [x] | None => [] end;
     GuiGame.rest := GuiGame.rest gs |}.

Definition ex_play : @Play.state ExMove unit :=
  {| Play.game :=
       {| GuiGame.gamestate :=
            {| GuiGame.factory := [Some [5]; Some [1; 1; 3; 3]];
               GuiGame.tilebag := [2; 2];
               GuiGame.availableMoves :=
                 [(1, 1, 0, 0); (1, 1, 2, 0); (1, 3, 1, 0); (0, 5, 4, 0)];
               GuiGame.rest := tt |};
          GuiGame.manualDistributionMode := false;
          GuiGame.bagView := None;
          GuiGame.factoryDropHandler := None;
          GuiGame.ourBag := [2; 2];
          GuiGame.discardedTiles := [] |};
     Play.players := [{| player_type := HUMAN; player_id := 0 |};
                      {| player_type := AI; player_id := 1 |}];
     Play.selected_tile := Num (-1);
     Play.selected_factory := Num (-1);
     Play.possible_lines := [] |}.

(** The first phase with its handler switched off. *)
Definition ex_disabled : @GuiGame.state (list (option (list Z))) unit :=
  GuiGame.with_handler
    (FactoryDropHandler.setEnabled false <$> GuiGame.factoryDropHandler ex_entered)
    ex_entered.



(** An engine that keeps its seed as the rest of its state and deals, for
    [n] players, [2 n + 1] factories of four tiles of the colour the seed
    gives, with two more such tiles in the bag; an old game of seed 7,
    left in the middle of a round, and a newly constructed engine state
    of seed 3. *)
Definition ex_seed (gs : @GuiGame.GameState unit Z) : Z := GuiGame.rest gs.

Definition ex_set_seed (s : Z) (gs : @GuiGame.GameState unit Z)
  : @GuiGame.GameState unit Z :=
  {| GuiGame.factory := GuiGame.factory gs; GuiGame.tilebag := GuiGame.tilebag gs;
     GuiGame.availableMoves := GuiGame.availableMoves gs; GuiGame.rest := s |}.

Definition ex_newGame (n : nat) (gs : @GuiGame.GameState unit Z)
  : @GuiGame.GameState unit Z :=
  let colour := GuiGame.rest gs `mod` 5 in
  {| GuiGame.factory := Some [5] :: replicate (2 * n + 1) (Some (replicate 4 colour));
     GuiGame.tilebag := [colour; colour];
     GuiGame.availableMoves := tt;
     GuiGame.rest := GuiGame.rest gs |}.

Definition ex_fresh : @GuiGame.GameState unit Z :=
  {| GuiGame.factory := []; GuiGame.tilebag := [];
     GuiGame.availableMoves := tt; GuiGame.rest := 3 |}.

Definition ex_players : list Player :=
  [{| player_type := HUMAN; player_id := 0 |}; {| player_type := AI; player_id := 1 |}].

Definition ex_old : @GuiGame.state unit Z :=
  {| GuiGame.gamestate :=
       {| GuiGame.factory := [Some [5; 1]; Some []; Some [0; 0]];
          GuiGame.tilebag := [4];
          GuiGame.availableMoves := tt;
          GuiGame.rest := 7 |};
     GuiGame.manualDistributionMode := false;
     GuiGame.bagView := None;
     GuiGame.factoryDropHandler := None;
     GuiGame.ourBag := [4; 0; 1];
     GuiGame.discardedTiles := [1; 0] |}.

(** Another old game of the same seed, with another supply. *)
Definition ex_old' : @GuiGame.state unit Z :=
  GuiGame.with_mode true (GuiGame.with_bags [2; 2; 2] [] ex_old).
Example parseInt_3 : parseInt "3" = Num 3.
Proof. reflexivity. Qed.
Example parseInt_ws : parseInt "  -12px" = Num (-12).
Proof. reflexivity. Qed.
Example parseInt_hex : parseInt "0x1f" = Num 31.
Proof. reflexivity. Qed.
Example parseInt_nan : parseInt "red" = NaN.
Proof. reflexivity. Qed.
Example count_ex : BagView.totalAvailable (BagView.countTilesInBag [0; 0; 3; 4; 7]) = Num 4.
Proof. vm_compute. reflexivity. Qed.

Example config_ex :
  FactoryDropHandler.getFactoryConfiguration
    (fst (FactoryDropHandler.addTileToFactory 2 3
       (FactoryDropHandler.setupDropZones 3 FactoryDropHandler.new)))
  = [[]; [3]; []].
Proof. vm_compute. reflexivity. Qed.

(** * Sums over the two maps *)

Section MapSums.
Context `{Countable K} {A : Type}.
Implicit Types (m : gmap K A) (w : A → Z).


Lemma sum_with_empty w : sum_with w (∅ : gmap K A) = 0.
Proof. apply map_fold_empty. Qed.

Lemma sum_with_insert_fresh w m i y :
  m !! i = None → sum_with w (<[i:=y]> m) = sum_with w m + w y.
Proof.
  intros Hi. unfold sum_with. rewrite map_fold_insert_L; [done| |done].
  intros; lia.
Qed.

Lemma sum_with_delete w m i x :
  m !! i = Some x → sum_with w m = sum_with w (delete i m) + w x.
Proof.
  intros Hi. unfold sum_with.
  rewrite (map_fold_delete_L _ _ i x m); [done| |done].
  intros; lia.
Qed.

Lemma sum_with_insert w m i x y :
  m !! i = Some x → sum_with w (<[i:=y]> m) = sum_with w m - w x + w y.
Proof.
  intros Hi. rewrite <-(insert_delete_eq m).
  rewrite sum_with_insert_fresh by apply lookup_delete_eq.
  rewrite (sum_with_delete w m i x Hi). lia.
Qed.

Lemma sum_with_list w m :
  sum_with w m = foldr Z.add 0 (w <$> (map_to_list m).*2).
Proof.
  unfold sum_with. rewrite map_fold_foldr.
  induction (map_to_list m) as [|[k a] l IH]; [done|].
  cbn [foldr uncurry fmap list_fmap snd] in *. rewrite IH. lia.
Qed.

Lemma sum_with_nonneg w m :
  (∀ i x, m !! i = Some x → 0 ≤ w x) → 0 ≤ sum_with w m.
Proof.
  induction m as [|i x m Hi IH] using map_ind; intros Hw.
  - by rewrite sum_with_empty.
  - rewrite sum_with_insert_fresh by done.
    assert (0 ≤ w x) by (apply (Hw i); by rewrite lookup_insert_eq).
    assert (0 ≤ sum_with w m); [|lia].
    apply IH. intros j y Hj. apply (Hw j). rewrite lookup_insert_ne; [done|].
    intros ->. congruence.
Qed.

Lemma sum_with_bound w m (b : Z) :
  (∀ i x, m !! i = Some x → w x ≤ b) → sum_with w m ≤ Z.of_nat (size m) * b.
Proof.
  induction m as [|i x m Hi IH] using map_ind; intros Hw.
  - rewrite sum_with_empty, map_size_empty. lia.
  - rewrite sum_with_insert_fresh, map_size_insert_None by done.
    assert (w x ≤ b) by (apply (Hw i); by rewrite lookup_insert_eq).
    assert (sum_with w m ≤ Z.of_nat (size m) * b); [|lia].
    apply IH. intros j y Hj. apply (Hw j). rewrite lookup_insert_ne; [done|].
    intros ->. congruence.
Qed.
End MapSums.

Lemma foldr_add_perm (l1 l2 : list Z) :
  l1 ≡ₚ l2 → foldr Z.add 0 l1 = foldr Z.add 0 l2.
Proof. induction 1; simpl; lia. Qed.

(** ** The supply counts *)

Lemma nadd_comm a b : nadd a b = nadd b a.
Proof. destruct a, b; simpl; f_equal; lia. Qed.

Lemma nadd_assoc a b c : nadd (nadd a b) c = nadd a (nadd b c).
Proof. destruct a, b, c; simpl; f_equal; lia. Qed.

Lemma totalAvailable_insert_fresh (m : gmap Z number) c v :
  m !! c = None →
  BagView.totalAvailable (<[c:=v]> m) = nadd (BagView.totalAvailable m) v.
Proof.
  intros Hc. unfold BagView.totalAvailable.
  rewrite map_fold_insert_L; [done| |done].
  intros. rewrite !nadd_assoc. f_equal. apply nadd_comm.
Qed.


Lemma wfCounts_lookup m c :
  wfCounts m → 0 ≤ c ≤ 4 → m !! c = Some (Num (count_of m c)) ∧ 0 ≤ count_of m c.
Proof.
  intros Hm Hc. specialize (Hm c). rewrite decide_True in Hm by done.
  destruct Hm as (z & Hz & ?). unfold count_of. by rewrite Hz.
Qed.

Lemma wfCounts_eq m :
  wfCounts m →
  m = <[0 := Num (count_of m 0)]> (<[1 := Num (count_of m 1)]>
        (<[2 := Num (count_of m 2)]> (<[3 := Num (count_of m 3)]>
          (<[4 := Num (count_of m 4)]> ∅)))).
Proof.
  intros Hm. apply map_eq. intros c.
  destruct (decide (0 ≤ c ≤ 4)) as [Hc|Hc].
  - destruct (wfCounts_lookup m c Hm Hc) as [-> _].
    assert (c = 0 ∨ c = 1 ∨ c = 2 ∨ c = 3 ∨ c = 4) as Hcases by lia.
    destruct Hcases as [->|[->|[->|[->| ->]]]]; by simplify_map_eq.
  - specialize (Hm c). rewrite decide_False in Hm by done. rewrite Hm.
    symmetry. rewrite !lookup_insert_ne by lia. done.
Qed.

Lemma wfCounts_total m :
  wfCounts m → BagView.totalAvailable m = Num (sum_colors (count_of m)).
Proof.
  intros Hm. rewrite (wfCounts_eq m Hm) at 1.
  rewrite !totalAvailable_insert_fresh; try by simplify_map_eq.
  unfold BagView.totalAvailable. rewrite map_fold_empty. simpl.
  f_equal. unfold sum_colors. lia.
Qed.

Lemma wfCounts_insert m c z :
  wfCounts m → 0 ≤ c ≤ 4 → 0 ≤ z → wfCounts (<[c := Num z]> m).
Proof.
  intros Hm Hc Hz c'. specialize (Hm c'). destruct (decide (c = c')) as [->|Hne].
  - rewrite decide_True by done. exists z. by rewrite lookup_insert_eq.
  - rewrite lookup_insert_ne by done. done.
Qed.

Lemma count_of_insert m c z c' :
  count_of (<[c := Num z]> m) c' = if decide (c = c') then z else count_of m c'.
Proof.
  unfold count_of. destruct (decide (c = c')) as [->|Hne].
  - by rewrite lookup_insert_eq.
  - by rewrite lookup_insert_ne.
Qed.

Lemma sum_colors_insert m c z :
  0 ≤ c ≤ 4 →
  sum_colors (count_of (<[c := Num z]> m)) = sum_colors (count_of m) - count_of m c + z.
Proof.
  intros Hc. unfold sum_colors. rewrite !count_of_insert.
  assert (c = 0 ∨ c = 1 ∨ c = 2 ∨ c = 3 ∨ c = 4) as Hcases by lia.
  destruct Hcases as [->|[->|[->|[->| ->]]]]; simpl; lia.
Qed.

(** * The drop handler *)

Section HandlerFacts.
Import FactoryDropHandler.
Implicit Types (h : state) (id slotIndex : nat) (color : Z).

Lemma setupDropZones_lookup n h id :
  factories (setupDropZones n h) !! id =
    if decide (1 ≤ id ≤ n)%nat then Some {| factoryId := id; tiles := [] |}
    else None.
Proof.
  unfold setupDropZones. simpl. induction n as [|n IH].
  - simpl. rewrite lookup_empty. by rewrite decide_False by lia.
  - rewrite seq_S, foldl_app. simpl.
    destruct (decide (id = (n + 1)%nat)) as [->|Hne].
    + rewrite lookup_insert_eq. by rewrite decide_True by lia.
    + rewrite lookup_insert_ne by done. rewrite IH.
      destruct (decide (1 ≤ id ≤ n)%nat).
      * by rewrite decide_True by lia.
      * by rewrite decide_False by lia.
Qed.

Lemma addTileToFactory_false id color h h' :
  addTileToFactory id color h = (h', false) → h' = h.
Proof.
  unfold addTileToFactory. destruct (factories h !! id) as [f|]; [|congruence].
  destruct (4 <=? length (tiles f))%nat; congruence.
Qed.

Lemma addTileToFactory_true id color h h' :
  addTileToFactory id color h = (h', true) →
  ∃ f, factories h !! id = Some f ∧ (length (tiles f) < 4)%nat
       ∧ h' = with_factories
                (<[id := {| factoryId := factoryId f; tiles := tiles f ++ [color] |}]>
                   (factories h)) h.
Proof.
  unfold addTileToFactory. destruct (factories h !! id) as [f|]; [|congruence].
  destruct (Nat.leb_spec 4 (length (tiles f))); [congruence|].
  intros [= <-]. eauto.
Qed.

Lemma addTileToFactory_full id color h f :
  factories h !! id = Some f → (4 ≤ length (tiles f))%nat →
  addTileToFactory id color h = (h, false).
Proof.
  intros Hf Hlen. unfold addTileToFactory. rewrite Hf.
  destruct (Nat.leb_spec 4 (length (tiles f))); [done|lia].
Qed.

Lemma capacity_ok_insert h id f :
  capacity_ok h → (length (tiles f) ≤ 4)%nat →
  capacity_ok (with_factories (<[id := f]> (factories h)) h).
Proof.
  intros Hh Hf id' f'. simpl. destruct (decide (id = id')) as [->|Hne].
  - rewrite lookup_insert_eq. by intros [= <-].
  - rewrite lookup_insert_ne by done. apply Hh.
Qed.

Lemma addTileToFactory_capacity id color h :
  capacity_ok h → capacity_ok (addTileToFactory id color h).1.
Proof.
  intros Hh. destruct (addTileToFactory id color h) as [h' [|]] eqn:E.
  - apply addTileToFactory_true in E as (f & Hf & Hlen & ->). simpl.
    apply capacity_ok_insert; [done|]. simpl. rewrite length_app. simpl. lia.
  - by apply addTileToFactory_false in E as ->.
Qed.

Lemma removeTileFromFactory_capacity id slotIndex h :
  capacity_ok h → capacity_ok (removeTileFromFactory id slotIndex h).1.
Proof.
  intros Hh. unfold removeTileFromFactory.
  destruct (factories h !! id) as [f|] eqn:Hf; [|done].
  destruct (Nat.leb_spec (length (tiles f)) slotIndex); [done|]. simpl.
  apply capacity_ok_insert; [done|]. simpl.
  pose proof (Hh id f Hf). rewrite length_delete by (apply lookup_lt_is_Some_2; lia). lia.
Qed.

Lemma handleDrop_capacity e id h :
  capacity_ok h → capacity_ok (handleDrop e id h).1.
Proof.
  intros Hh. unfold handleDrop.
  destruct (enabled h); [|done]. simpl.
  destruct (dataTransfer e) as [s|]; [|done].
  destruct (decide (s = EmptyString)); [done|].
  destruct (colorOfPayload (parseInt s)) as [color|]; [|done].
  pose proof (addTileToFactory_capacity id color h Hh) as Hc.
  destruct (addTileToFactory id color h) as [h' [|]]; done.
Qed.

Lemma handleTileClick_capacity id slotIndex h :
  capacity_ok h → capacity_ok (handleTileClick id slotIndex h).1.
Proof.
  intros Hh. unfold handleTileClick.
  destruct (enabled h); [|done]. simpl.
  destruct (factories h !! id) as [f|]; [|done].
  destruct (tiles f !! slotIndex); [|done]. simpl.
  by apply removeTileFromFactory_capacity.
Qed.

Lemma reset_capacity h : capacity_ok (reset h).
Proof.
  intros id f. simpl. rewrite lookup_fmap.
  destruct (factories h !! id); simpl; [|done]. intros [= <-]. simpl. lia.
Qed.

Lemma setupDropZones_capacity n h : capacity_ok (setupDropZones n h).
Proof.
  intros id f. rewrite setupDropZones_lookup.
  destruct (decide _); [|done]. intros [= <-]. simpl. lia.
Qed.

Lemma handlerOp_capacity h op : capacity_ok h → capacity_ok (handlerOp h op).
Proof.
  destruct op; simpl;
    auto using addTileToFactory_capacity, removeTileFromFactory_capacity,
      handleDrop_capacity, handleTileClick_capacity, reset_capacity.
Qed.

(** C8.  Capacity bound: whatever sequence of placements, removals, drop and
    click events and resets follows [setupDropZones], every factory holds
    between 0 and 4 tiles. *)
Theorem capacity_bound n h0 (ops : list HandlerOp) id f :
  factories (foldl handlerOp (setupDropZones n h0) ops) !! id = Some f →
  (0 ≤ length (tiles f) ≤ 4)%nat.
Proof.
  intros Hf. split; [lia|]. revert id f Hf.
  change (capacity_ok (foldl handlerOp (setupDropZones n h0) ops)).
  induction ops as [|op ops IH] using rev_ind.
  - apply setupDropZones_capacity.
  - rewrite foldl_app. simpl. by apply handlerOp_capacity.
Qed.

End HandlerFacts.

Lemma capacity_bound_witness :
  ∃ f, FactoryDropHandler.factories
         (foldl handlerOp (FactoryDropHandler.setupDropZones 2 FactoryDropHandler.new)
            [Place 1 0; Place 1 1; Place 1 2; Place 1 3; Place 1 4; Remove 1 0;
             DropEvent {| dataTransfer := Some "2" |} 1]) !! 1%nat = Some f
       ∧ FactoryDropHandler.tiles f = [1; 2; 3; 2]
       ∧ (0 ≤ length (FactoryDropHandler.tiles f) ≤ 4)%nat.
Proof.
  eexists. split; [vm_compute; reflexivity|]. split; [reflexivity|].
  apply (capacity_bound 2 FactoryDropHandler.new
           [Place 1 0; Place 1 1; Place 1 2; Place 1 3; Place 1 4; Remove 1 0;
            DropEvent {| dataTransfer := Some "2" |} 1] 1%nat).
  vm_compute. reflexivity.
Defined.

(** * The configuration and the counting loops *)

Section ConfigFacts.
Import FactoryDropHandler.
Implicit Types (h : state) (id slotIndex : nat) (color : Z).

Lemma omap_keys_values (m : gmap nat FactoryState) (l : list (nat * FactoryState)) :
  (∀ k a, (k, a) ∈ l → m !! k = Some a) →
  omap (λ k, tiles <$> m !! k) l.*1 = tiles <$> l.*2.
Proof.
  induction l as [|[k a] l IH]; intros Hl; [done|].
  cbn [fmap list_fmap fst snd omap list_omap].
  rewrite (Hl k a) by left. simpl. f_equal. apply IH.
  intros k' a' Hin. apply Hl. by right.
Qed.

Lemma getFactoryConfiguration_perm h :
  getFactoryConfiguration h ≡ₚ tiles <$> (map_to_list (factories h)).*2.
Proof.
  unfold getFactoryConfiguration, sortedIds.
  rewrite merge_sort_Permutation.
  rewrite omap_keys_values; [done|].
  intros k a. apply elem_of_map_to_list.
Qed.

(** A loop [total += w(factory.tiles)] over the map adds up the same
    numbers as a pass over the configuration. *)
Lemma sum_with_config (w : list Z → Z) h :
  sum_with (λ f, w (tiles f)) (factories h)
  = foldr Z.add 0 (w <$> getFactoryConfiguration h).
Proof.
  rewrite sum_with_list.
  apply foldr_add_perm. rewrite getFactoryConfiguration_perm.
  rewrite <-(list_fmap_compose tiles w). reflexivity.
Qed.

Lemma length_concat_sum (ls : list (list Z)) :
  Z.of_nat (length (concat ls)) = foldr Z.add 0 ((λ l, Z.of_nat (length l)) <$> ls).
Proof.
  induction ls as [|l ls IH]; [done|].
  cbn [concat fmap list_fmap foldr]. rewrite length_app, <-IH. lia.
Qed.

Lemma countColor_app c l1 l2 :
  countColor c (l1 ++ l2) = countColor c l1 + countColor c l2.
Proof. unfold countColor. rewrite filter_app, length_app. lia. Qed.

Lemma countColor_concat_sum c (ls : list (list Z)) :
  countColor c (concat ls) = foldr Z.add 0 (countColor c <$> ls).
Proof.
  induction ls as [|l ls IH]; [done|].
  cbn [concat fmap list_fmap foldr]. rewrite countColor_app, <-IH. lia.
Qed.

(** [getTotalTilesPlaced] counts the tiles of the configuration. *)
Lemma getTotalTilesPlaced_placedTiles h :
  getTotalTilesPlaced h = Z.of_nat (length (placedTiles h)).
Proof.
  unfold placedTiles. rewrite length_concat_sum.
  rewrite <-(sum_with_config (λ l, Z.of_nat (length l))). done.
Qed.

(** C4.  [isComplete(totalTilesAvailable)] holds exactly when the tiles
    placed on all factories number at least the minimum of
    [totalTilesAvailable] and four times the number of factories; with five
    factories and 18 tiles available, that is from 18 placed tiles on. *)
Theorem isComplete_iff_min :
  (∀ h t, isComplete (Num t) h = true
          ↔ Z.min t (Z.of_nat (size (factories h)) * 4)
            ≤ Z.of_nat (length (placedTiles h)))
  ∧ (∀ h, size (factories h) = 5%nat →
          Z.of_nat (size (factories h)) * 4 = 20
          ∧ (isComplete (Num 18) h = true
             ↔ 18 ≤ Z.of_nat (length (placedTiles h)))).
Proof.
  assert (∀ h t, isComplete (Num t) h = true
          ↔ Z.min t (Z.of_nat (size (factories h)) * 4)
            ≤ Z.of_nat (length (placedTiles h))) as Hgen.
  { intros h t. unfold isComplete. simpl.
    rewrite getTotalTilesPlaced_placedTiles. apply Z.leb_le. }
  split; [exact Hgen|].
  intros h H5. split; [lia|]. rewrite Hgen, H5. lia.
Qed.

End ConfigFacts.

Lemma isComplete_iff_min_witness :
  FactoryDropHandler.isComplete (Num 18) handler_17_of_18 = false
  ∧ FactoryDropHandler.isComplete (Num 18) (handlerOp handler_17_of_18 (Place 5 4)) = true
  ∧ 18 ≤ Z.of_nat (length (placedTiles (handlerOp handler_17_of_18 (Place 5 4)))).
Proof.
  split; [vm_compute; reflexivity|]. split; [vm_compute; reflexivity|].
  apply (proj2 isComplete_iff_min (handlerOp handler_17_of_18 (Place 5 4))).
  - vm_compute. reflexivity.
  - vm_compute. reflexivity.
Defined.

(** * The bag view *)

Section BagViewFacts.
Import BagView.
Implicit Types (bv : state) (color c : Z) (l : list Z).

Lemma countColor_nil c : countColor c [] = 0.
Proof. done. Qed.

Lemma countColor_cons c x l :
  countColor c (x :: l) = (if decide (x = c) then 1 else 0) + countColor c l.
Proof.
  unfold countColor. rewrite filter_cons.
  destruct (decide (x = c)); simpl; lia.
Qed.

Lemma countColor_nonneg c l : 0 ≤ countColor c l.
Proof. unfold countColor. lia. Qed.

Lemma countColor_snoc c l x :
  countColor c (l ++ [x]) = countColor c l + (if decide (x = c) then 1 else 0).
Proof.
  rewrite countColor_app, countColor_cons, countColor_nil.
  destruct (decide (x = c)); lia.
Qed.

Lemma countColor_delete c l i x :
  l !! i = Some x →
  countColor c (delete i l) = countColor c l - (if decide (x = c) then 1 else 0).
Proof.
  revert i. induction l as [|y l IH]; intros [|i] Hi; simplify_eq/=.
  - rewrite countColor_cons. lia.
  - rewrite !countColor_cons, (IH i Hi). lia.
Qed.

Lemma wfCounts_emptyCounts : wfCounts emptyCounts.
Proof.
  intros c. unfold emptyCounts. destruct (decide (0 ≤ c ≤ 4)) as [Hc|Hc].
  - exists 0. split; [|done].
    assert (c = 0 ∨ c = 1 ∨ c = 2 ∨ c = 3 ∨ c = 4) as Hcases by lia.
    destruct Hcases as [->|[->|[->|[->| ->]]]]; by simplify_map_eq.
  - rewrite !lookup_insert_ne by lia. done.
Qed.

Lemma count_of_emptyCounts c : count_of emptyCounts c = 0.
Proof.
  destruct (decide (0 ≤ c ≤ 4)) as [Hc|Hc].
  - pose proof (wfCounts_emptyCounts c) as Hw. rewrite decide_True in Hw by done.
    unfold count_of, emptyCounts in *.
    assert (c = 0 ∨ c = 1 ∨ c = 2 ∨ c = 3 ∨ c = 4) as Hcases by lia.
    destruct Hcases as [->|[->|[->|[->| ->]]]]; by simplify_map_eq.
  - pose proof (wfCounts_emptyCounts c) as Hw. rewrite decide_False in Hw by done.
    unfold count_of. by rewrite Hw.
Qed.

(** The counting loop, from any well-formed start. *)
Lemma countTiles_loop l (m : gmap Z number) :
  wfCounts m →
  wfCounts (foldl (λ counts tile,
                    if (0 <=? tile) && (tile <=? 4)
                    then <[tile := incremented (counts !! tile)]> counts
                    else counts) m l)
  ∧ ∀ c, 0 ≤ c ≤ 4 →
      count_of (foldl (λ counts tile,
                    if (0 <=? tile) && (tile <=? 4)
                    then <[tile := incremented (counts !! tile)]> counts
                    else counts) m l) c
      = count_of m c + countColor c l.
Proof.
  revert m. induction l as [|t l IH]; intros m Hm.
  - split; [done|]. intros c _. rewrite countColor_nil. simpl. lia.
  - cbn [foldl]. destruct ((0 <=? t) && (t <=? 4)) eqn:Hv.
    + apply andb_true_iff in Hv as [H0 H4].
      apply Z.leb_le in H0. apply Z.leb_le in H4.
      destruct (wfCounts_lookup m t Hm) as [Ht Hpos]; [lia|].
      rewrite Ht. cbn [incremented].
      destruct (IH (<[t := Num (count_of m t + 1)]> m)) as [Hwf Hcount].
      { apply wfCounts_insert; [done|lia|lia]. }
      split; [done|]. intros c Hc. rewrite (Hcount c Hc).
      rewrite count_of_insert, countColor_cons.
      destruct (decide (t = c)); subst; lia.
    + destruct (IH m Hm) as [Hwf Hcount]. split; [done|].
      intros c Hc. rewrite (Hcount c Hc), countColor_cons.
      rewrite decide_False; [lia|]. intros ->.
      apply andb_false_iff in Hv as [Hv|Hv]; apply Z.leb_gt in Hv; lia.
Qed.

Lemma wfCounts_countTilesInBag l : wfCounts (countTilesInBag l).
Proof. apply (countTiles_loop l emptyCounts wfCounts_emptyCounts). Qed.

Lemma count_of_countTilesInBag l c :
  0 ≤ c ≤ 4 → count_of (countTilesInBag l) c = countColor c l.
Proof.
  intros Hc. unfold countTilesInBag.
  rewrite (proj2 (countTiles_loop l emptyCounts wfCounts_emptyCounts) c Hc).
  rewrite count_of_emptyCounts. lia.
Qed.

(** The number of coloured tiles of a bag is its length when every tile is
    a colour. *)
Lemma sum_colors_countColor l :
  Forall (λ t, 0 ≤ t ≤ 4) l →
  sum_colors (λ c, countColor c l) = Z.of_nat (length l).
Proof.
  induction 1 as [|t l Ht _ IH]; [done|].
  unfold sum_colors in *. rewrite !countColor_cons. simpl length.
  assert (t = 0 ∨ t = 1 ∨ t = 2 ∨ t = 3 ∨ t = 4) as Hcases by lia.
  destruct Hcases as [->|[->|[->|[->| ->]]]]; simpl; lia.
Qed.

Lemma totalAvailable_countTilesInBag l :
  totalAvailable (countTilesInBag l) = Num (sum_colors (λ c, countColor c l)).
Proof.
  rewrite (wfCounts_total _ (wfCounts_countTilesInBag l)).
  unfold sum_colors. rewrite !count_of_countTilesInBag by lia. done.
Qed.

Lemma tilePlaced_positive color bv z :
  tileCounts bv !! color = Some (Num z) → 0 < z →
  tilePlaced color bv =
    updateStatus
      {| tileCounts := <[color := Num (z - 1)]> (tileCounts bv);
         tilesPlaced := tilesPlaced bv + 1;
         tilesNeeded := tilesNeeded bv;
         onDistributionComplete := onDistributionComplete bv;
         startRoundBtn := startRoundBtn bv |}.
Proof.
  intros Hc Hz. unfold tilePlaced. rewrite Hc. simpl.
  by destruct (Z.ltb_spec 0 z); [|lia].
Qed.

Lemma tilePlaced_rejected color bv :
  gt_zero (tileCounts bv !! color) = false → tilePlaced color bv = bv.
Proof. intros Hc. unfold tilePlaced. by rewrite Hc. Qed.

Lemma tileCounts_updateStatus bv : tileCounts (updateStatus bv) = tileCounts bv.
Proof. unfold updateStatus. by destruct (startRoundBtn bv). Qed.

Lemma tilesPlaced_updateStatus bv : tilesPlaced (updateStatus bv) = tilesPlaced bv.
Proof. unfold updateStatus. by destruct (startRoundBtn bv). Qed.

Lemma tilesNeeded_updateStatus bv : tilesNeeded (updateStatus bv) = tilesNeeded bv.
Proof. unfold updateStatus. by destruct (startRoundBtn bv). Qed.

Lemma onDistributionComplete_updateStatus bv :
  onDistributionComplete (updateStatus bv) = onDistributionComplete bv.
Proof. unfold updateStatus. by destruct (startRoundBtn bv). Qed.

Lemma startRoundBtn_updateStatus bv :
  is_Some (startRoundBtn bv) →
  startRoundBtn (updateStatus bv) = Some (negb (allPlaced (updateStatus bv))).
Proof. intros [b Hb]. unfold updateStatus. rewrite Hb. done. Qed.

End BagViewFacts.

(** * The controller during a distribution phase *)

Lemma payloadColor_range e c : payloadColor e = Some c → 0 ≤ c ≤ 4.
Proof.
  unfold payloadColor, colorOfPayload.
  destruct (dataTransfer e) as [s|]; [|done].
  destruct (decide (s = EmptyString)); [done|].
  destruct (parseInt s) as [z|]; [|done].
  destruct (Z.ltb_spec z 0); [done|]. destruct (Z.gtb_spec z 4); [done|].
  simpl. intros [= <-]. lia.
Qed.

Lemma payloadColor_bad e : badPayload e → payloadColor e = None.
Proof.
  unfold payloadColor, colorOfPayload.
  intros [->|[->|(s & -> & Hs)]]; [done|done|].
  destruct (decide (s = EmptyString)); [done|].
  destruct Hs as [->|(z & -> & Hz)]; [done|].
  destruct (Z.ltb_spec z 0); [done|]. destruct (Z.gtb_spec z 4); [done|]. lia.
Qed.

(** The gate of the design: a drag that the bag view lets start carries a
    colour of which the supply has a tile. *)
Lemma handleDragStart_supplied c bv payload :
  wfCounts (BagView.tileCounts bv) → 0 ≤ c ≤ 4 →
  BagView.handleDragStart c bv = Some payload →
  payloadColor (dropOf payload) = Some c
  ∧ gt_zero (BagView.tileCounts bv !! c) = true.
Proof.
  intros Hwf Hc. unfold BagView.handleDragStart.
  destruct (wfCounts_lookup _ c Hwf Hc) as [-> _].
  destruct (Z.leb_spec (count_of (BagView.tileCounts bv) c) 0); [done|].
  intros [= <-]. split; [|by apply Z.ltb_lt].
  assert (c = 0 ∨ c = 1 ∨ c = 2 ∨ c = 3 ∨ c = 4) as Hcases by lia.
  destruct Hcases as [->|[->|[->|[->| ->]]]]; reflexivity.
Qed.

Lemma handleDrop_enabled e id h :
  FactoryDropHandler.enabled h = true →
  FactoryDropHandler.handleDrop e id h =
    match payloadColor e with
    | None => (h, [])
    | Some color =>
        let '(h', placed) := FactoryDropHandler.addTileToFactory id color h in
        if placed then
          (h', match FactoryDropHandler.onTileDropped h' with
               | Some cb => [{| callee := cb; arg_factoryId := id; arg_color := color |}]
               | None => []
               end)
        else (h', [])
    end.
Proof.
  intros He. unfold FactoryDropHandler.handleDrop, payloadColor. rewrite He. simpl.
  destruct (dataTransfer e) as [s|]; [|done].
  by destruct (decide (s = EmptyString)).
Qed.

Lemma handleDrop_no_payload e id h :
  payloadColor e = None → FactoryDropHandler.handleDrop e id h = (h, []).
Proof.
  intros Hp. destruct (FactoryDropHandler.enabled h) eqn:He.
  - by rewrite handleDrop_enabled, Hp.
  - unfold FactoryDropHandler.handleDrop. by rewrite He.
Qed.

Lemma ids_dense_insert n h id f f' :
  FactoryDropHandler.factories h !! id = Some f →
  ids_dense n h →
  ids_dense n (FactoryDropHandler.with_factories
                 (<[id := f']> (FactoryDropHandler.factories h)) h).
Proof.
  intros Hf Hd id'. simpl. rewrite <-(Hd id').
  destruct (decide (id = id')) as [->|Hne].
  - rewrite lookup_insert_eq, Hf. split; eauto.
  - by rewrite lookup_insert_ne.
Qed.

Lemma tiles_valid_insert h id f :
  tiles_valid h → Forall (λ t, 0 ≤ t ≤ 4) (FactoryDropHandler.tiles f) →
  tiles_valid (FactoryDropHandler.with_factories
                 (<[id := f]> (FactoryDropHandler.factories h)) h).
Proof.
  intros Hh Hf id' f'. simpl. destruct (decide (id = id')) as [->|Hne].
  - rewrite lookup_insert_eq. by intros [= <-].
  - rewrite lookup_insert_ne by done. apply Hh.
Qed.

Lemma placedCount_insert c h id f f' :
  FactoryDropHandler.factories h !! id = Some f →
  placedCount c (FactoryDropHandler.with_factories
                   (<[id := f']> (FactoryDropHandler.factories h)) h)
  = placedCount c h - countColor c (FactoryDropHandler.tiles f)
    + countColor c (FactoryDropHandler.tiles f').
Proof. intros Hf. unfold placedCount. simpl. by rewrite (sum_with_insert _ _ _ f). Qed.

Lemma getTotalTilesPlaced_insert h id f f' :
  FactoryDropHandler.factories h !! id = Some f →
  FactoryDropHandler.getTotalTilesPlaced
    (FactoryDropHandler.with_factories
       (<[id := f']> (FactoryDropHandler.factories h)) h)
  = FactoryDropHandler.getTotalTilesPlaced h
    - Z.of_nat (length (FactoryDropHandler.tiles f))
    + Z.of_nat (length (FactoryDropHandler.tiles f')).
Proof.
  intros Hf. unfold FactoryDropHandler.getTotalTilesPlaced. simpl.
  apply (sum_with_insert (λ f, Z.of_nat (length (FactoryDropHandler.tiles f))) _ _ f _ Hf).
Qed.

Section ControllerFacts.
Context {Moves Rest : Type}.
Variable getMoves : @GuiGame.GameState Moves Rest → Moves.
Variable Tile_Null : Z.
Local Abbreviation state := (@GuiGame.state Moves Rest).
Local Abbreviation dispatch := (GuiGame.dispatch getMoves).
Local Abbreviation enter := (GuiGame.enterManualDistributionPhase Tile_Null).
Local Abbreviation apply := (GuiGame.applyManualDistribution getMoves).
Implicit Types (g : state) (h : FactoryDropHandler.state) (bv : BagView.state).

Lemma with_handler_id g h :
  GuiGame.factoryDropHandler g = Some h → GuiGame.with_handler (Some h) g = g.
Proof. destruct g; simpl. by intros ->. Qed.

Lemma with_bagView_id g bv :
  GuiGame.bagView g = Some bv → GuiGame.with_bagView (Some bv) g = g.
Proof. destruct g; simpl. by intros ->. Qed.

(** What a drop does in a distribution phase: nothing, or a tile lands on
    the factory and the bag view is told so. *)
Lemma dispatch_drop g h bv e id :
  phase_inv g h bv →
  dispatch (GuiGame.DropOn e id) g =
    match payloadColor e with
    | None => g
    | Some c =>
        match FactoryDropHandler.addTileToFactory id c h with
        | (h', true) =>
            GuiGame.with_bagView (Some (BagView.tilePlaced c bv))
              (GuiGame.with_handler (Some h') g)
        | (_, false) => g
        end
    end.
Proof.
  intros I. unfold GuiGame.dispatch. rewrite (inv_handler _ _ _ I).
  rewrite handleDrop_enabled by apply I.
  destruct (payloadColor e) as [c|]; [|by rewrite with_handler_id by apply I].
  destruct (FactoryDropHandler.addTileToFactory id c h) as [h' [|]] eqn:E.
  - apply addTileToFactory_true in E as (f & Hf & Hlen & ->). simpl.
    rewrite (inv_onDropped _ _ _ I). simpl.
    unfold GuiGame.callClosure. simpl. by rewrite (inv_bagView _ _ _ I).
  - apply addTileToFactory_false in E as ->. simpl.
    by rewrite with_handler_id by apply I.
Qed.

(** What a click on a slot does: nothing, or the tile of that slot leaves
    the factory and the bag view is told so. *)
Lemma dispatch_click g h bv id slotIndex :
  phase_inv g h bv →
  dispatch (GuiGame.TileClick id slotIndex) g =
    match FactoryDropHandler.factories h !! id with
    | Some f =>
        match FactoryDropHandler.tiles f !! slotIndex with
        | Some color =>
            GuiGame.with_bagView (Some (BagView.tileReturned color bv))
              (GuiGame.with_handler
                 (Some (FactoryDropHandler.with_factories
                          (<[id := {| FactoryDropHandler.factoryId :=
                                        FactoryDropHandler.factoryId f;
                                      FactoryDropHandler.tiles :=
                                        delete slotIndex (FactoryDropHandler.tiles f) |}]>
                             (FactoryDropHandler.factories h)) h)) g)
        | None => g
        end
    | None => g
    end.
Proof.
  intros I. unfold GuiGame.dispatch. rewrite (inv_handler _ _ _ I).
  unfold FactoryDropHandler.handleTileClick. rewrite (inv_enabled _ _ _ I). simpl.
  destruct (FactoryDropHandler.factories h !! id) as [f|] eqn:Hf;
    [|by rewrite with_handler_id by apply I].
  destruct (FactoryDropHandler.tiles f !! slotIndex) as [color|] eqn:Hc;
    [|by rewrite with_handler_id by apply I].
  unfold FactoryDropHandler.removeTileFromFactory. rewrite Hf.
  apply lookup_lt_Some in Hc as Hlt.
  destruct (Nat.leb_spec (length (FactoryDropHandler.tiles f)) slotIndex); [lia|].
  simpl. rewrite (inv_onRemoved _ _ _ I). simpl.
  unfold GuiGame.callClosure. simpl. by rewrite (inv_bagView _ _ _ I).
Qed.

End ControllerFacts.

(** * The invariant of a distribution phase *)

Section PhaseInvariant.
Context {Moves Rest : Type}.
Variable getMoves : @GuiGame.GameState Moves Rest → Moves.
Variable Tile_Null : Z.
Local Abbreviation state := (@GuiGame.state Moves Rest).
Local Abbreviation dispatch := (GuiGame.dispatch getMoves).
Local Abbreviation enter := (GuiGame.enterManualDistributionPhase Tile_Null).
Implicit Types (g : state) (h : FactoryDropHandler.state) (bv : BagView.state).

Lemma restoreLoop_length indices (gs gs' : @GuiGame.GameState Moves Rest) :
  GuiGame.restoreLoop Tile_Null indices gs = Normal gs' →
  length (GuiGame.factory gs') = length (GuiGame.factory gs).
Proof.
  revert gs. induction indices as [|i indices IH]; intros gs; simpl.
  - by intros [= ->].
  - destruct (array_get (GuiGame.factory gs) i); [|done].
    intros Hr. rewrite (IH _ Hr). simpl. apply length_insert.
Qed.

Lemma seedOurBag_length g g1 :
  GuiGame.seedOurBag Tile_Null g = Normal g1 →
  length (GuiGame.factory (GuiGame.gamestate g1))
  = length (GuiGame.factory (GuiGame.gamestate g)).
Proof.
  unfold GuiGame.seedOurBag, GuiGame.restoreTilesToBag.
  destruct (decide _); [|by intros [= ->]].
  destruct (GuiGame.restoreLoop _ _ _) as [gs|] eqn:Hr; [|done].
  intros [= <-]. simpl. by apply restoreLoop_length in Hr.
Qed.

Lemma placedCount_setup c n h :
  placedCount c (FactoryDropHandler.setupDropZones n h) = 0.
Proof.
  unfold placedCount.
  assert (∀ id f,
    FactoryDropHandler.factories (FactoryDropHandler.setupDropZones n h) !! id = Some f →
    countColor c (FactoryDropHandler.tiles f) = 0) as Hz.
  { intros id f. rewrite setupDropZones_lookup.
    destruct (decide _); [|done]. by intros [= <-]. }
  pose proof (sum_with_nonneg (λ f, countColor c (FactoryDropHandler.tiles f))
    (FactoryDropHandler.factories (FactoryDropHandler.setupDropZones n h))) as Hlo.
  pose proof (sum_with_bound (λ f, countColor c (FactoryDropHandler.tiles f))
    (FactoryDropHandler.factories (FactoryDropHandler.setupDropZones n h)) 0) as Hhi.
  assert (0 ≤ sum_with (λ f, countColor c (FactoryDropHandler.tiles f))
    (FactoryDropHandler.factories (FactoryDropHandler.setupDropZones n h))).
  { apply Hlo. intros id f Hf. rewrite (Hz id f Hf). lia. }
  assert (sum_with (λ f, countColor c (FactoryDropHandler.tiles f))
    (FactoryDropHandler.factories (FactoryDropHandler.setupDropZones n h)) ≤ 0); [|lia].
  etrans; [apply Hhi|lia]. intros id f Hf. rewrite (Hz id f Hf). lia.
Qed.

Lemma factories_wired a b h :
  FactoryDropHandler.factories
    (FactoryDropHandler.setOnTileRemoved a (FactoryDropHandler.setOnTileDropped b h))
  = FactoryDropHandler.factories h.
Proof. done. Qed.

Lemma refillFromDiscard_gamestate t g :
  GuiGame.gamestate (GuiGame.refillFromDiscard t g) = GuiGame.gamestate g.
Proof. unfold GuiGame.refillFromDiscard. by destruct (_ && _). Qed.

(** Entering establishes the invariant. *)
Lemma phase_inv_enter g0 g :
  enter g0 = Normal g → ∃ h bv, phase_inv g h bv.
Proof.
  unfold GuiGame.enterManualDistributionPhase.
  destruct (GuiGame.seedOurBag Tile_Null g0) as [g1|] eqn:Hseed; [|done].
  intros [= <-]. eexists _, _.
  split; [reflexivity|reflexivity|..]; simpl; try done.
  - apply wfCounts_countTilesInBag.
  - intros id f. rewrite factories_wired. apply setupDropZones_capacity.
  - intros id f. rewrite factories_wired, setupDropZones_lookup.
    destruct (decide _); [|done]. by intros [= <-].
  - intros id. rewrite factories_wired, setupDropZones_lookup.
    unfold numFactories. simpl.
    rewrite refillFromDiscard_gamestate, (seedOurBag_length _ _ Hseed).
    destruct (decide _) as [Hd|Hd]; split; intros Hx; try done.
  - unfold tilesPerRound, numFactories. simpl.
    by rewrite refillFromDiscard_gamestate, (seedOurBag_length _ _ Hseed).
  - intros c Hc. rewrite count_of_countTilesInBag by done.
    unfold placedCount. rewrite factories_wired.
    pose proof (placedCount_setup c
      (regularFactoryCount (Z.of_nat (length (GuiGame.factory (GuiGame.gamestate g0))) - 1))
      FactoryDropHandler.new) as Hp.
    unfold placedCount in Hp. rewrite Hp. lia.
  - unfold sum_colors. rewrite !count_of_countTilesInBag by lia. lia.
Qed.

(** A tile landing on a factory keeps the invariant, whether or not the bag
    view had one to give. *)
Lemma phase_inv_placed g h bv id f c :
  phase_inv g h bv → 0 ≤ c ≤ 4 →
  FactoryDropHandler.factories h !! id = Some f →
  (length (FactoryDropHandler.tiles f) < 4)%nat →
  phase_inv
    (GuiGame.with_bagView (Some (BagView.tilePlaced c bv))
       (GuiGame.with_handler
          (Some (FactoryDropHandler.with_factories
                   (<[id := {| FactoryDropHandler.factoryId := FactoryDropHandler.factoryId f;
                               FactoryDropHandler.tiles := FactoryDropHandler.tiles f ++ [c] |}]>
                      (FactoryDropHandler.factories h)) h)) g))
    (FactoryDropHandler.with_factories
       (<[id := {| FactoryDropHandler.factoryId := FactoryDropHandler.factoryId f;
                   FactoryDropHandler.tiles := FactoryDropHandler.tiles f ++ [c] |}]>
          (FactoryDropHandler.factories h)) h)
    (BagView.tilePlaced c bv).
Proof.
  intros I Hc Hf Hlen.
  destruct (wfCounts_lookup _ c (inv_counts _ _ _ I) Hc) as [Hlook Hpos].
  assert (∀ c', placedCount c'
            (FactoryDropHandler.with_factories
               (<[id := {| FactoryDropHandler.factoryId := FactoryDropHandler.factoryId f;
                           FactoryDropHandler.tiles := FactoryDropHandler.tiles f ++ [c] |}]>
                  (FactoryDropHandler.factories h)) h)
          = placedCount c' h + (if decide (c = c') then 1 else 0)) as Hplaced.
  { intros c'. rewrite (placedCount_insert c' h id f _ Hf). simpl.
    rewrite countColor_snoc. lia. }
  assert (capacity_ok
            (FactoryDropHandler.with_factories
               (<[id := {| FactoryDropHandler.factoryId := FactoryDropHandler.factoryId f;
                           FactoryDropHandler.tiles := FactoryDropHandler.tiles f ++ [c] |}]>
                  (FactoryDropHandler.factories h)) h)) as Hcap.
  { apply capacity_ok_insert; [apply I|]. simpl. rewrite length_app. simpl. lia. }
  assert (tiles_valid
            (FactoryDropHandler.with_factories
               (<[id := {| FactoryDropHandler.factoryId := FactoryDropHandler.factoryId f;
                           FactoryDropHandler.tiles := FactoryDropHandler.tiles f ++ [c] |}]>
                  (FactoryDropHandler.factories h)) h)) as Hval.
  { apply tiles_valid_insert; [apply I|]. simpl. apply Forall_app. split.
    - apply (inv_valid _ _ _ I id f Hf).
    - by constructor. }
  destruct (decide (0 < count_of (BagView.tileCounts bv) c)) as [Hz|Hz].
  - rewrite (tilePlaced_positive c bv _ Hlook Hz).
    split; simpl; try apply I; try done.
    + by rewrite onDistributionComplete_updateStatus; apply I.
    + apply startRoundBtn_updateStatus. simpl.
      rewrite (inv_button _ _ _ I). eauto.
    + rewrite tileCounts_updateStatus. simpl.
      apply wfCounts_insert; [apply I|done|lia].
    + eapply ids_dense_insert; [exact Hf|apply I].
    + rewrite tilesNeeded_updateStatus. simpl. apply I.
    + intros Hempty. by apply insert_non_empty in Hempty.
    + intros c' Hc'. rewrite tileCounts_updateStatus. simpl.
      rewrite count_of_insert, Hplaced.
      pose proof (inv_colour _ _ _ I c' Hc').
      destruct (decide (c = c')); subst; lia.
    + rewrite tileCounts_updateStatus, tilesPlaced_updateStatus. simpl.
      rewrite sum_colors_insert by done.
      pose proof (inv_placed _ _ _ I). lia.
  - rewrite tilePlaced_rejected.
    2:{ rewrite Hlook. simpl. apply Z.ltb_ge. lia. }
    split; simpl; try apply I; try done.
    + eapply ids_dense_insert; [exact Hf|apply I].
    + intros Hempty. by apply insert_non_empty in Hempty.
    + intros c' Hc'. rewrite Hplaced.
      pose proof (inv_colour _ _ _ I c' Hc').
      destruct (decide (c = c')); subst; lia.
Qed.

(** A tile leaving a factory keeps the invariant. *)
Lemma phase_inv_returned g h bv id f slotIndex color :
  phase_inv g h bv →
  FactoryDropHandler.factories h !! id = Some f →
  FactoryDropHandler.tiles f !! slotIndex = Some color →
  phase_inv
    (GuiGame.with_bagView (Some (BagView.tileReturned color bv))
       (GuiGame.with_handler
          (Some (FactoryDropHandler.with_factories
                   (<[id := {| FactoryDropHandler.factoryId := FactoryDropHandler.factoryId f;
                               FactoryDropHandler.tiles :=
                                 delete slotIndex (FactoryDropHandler.tiles f) |}]>
                      (FactoryDropHandler.factories h)) h)) g))
    (FactoryDropHandler.with_factories
       (<[id := {| FactoryDropHandler.factoryId := FactoryDropHandler.factoryId f;
                   FactoryDropHandler.tiles :=
                     delete slotIndex (FactoryDropHandler.tiles f) |}]>
          (FactoryDropHandler.factories h)) h)
    (BagView.tileReturned color bv).
Proof.
  intros I Hf Hslot.
  assert (0 ≤ color ≤ 4) as Hc.
  { apply (Forall_lookup_1 _ _ _ _ (inv_valid _ _ _ I id f Hf) Hslot). }
  destruct (wfCounts_lookup _ color (inv_counts _ _ _ I) Hc) as [Hlook Hpos].
  unfold BagView.tileReturned. rewrite Hlook. cbn [incremented].
  split; simpl; try apply I; try done.
  - by rewrite onDistributionComplete_updateStatus; apply I.
  - apply startRoundBtn_updateStatus. simpl.
    rewrite (inv_button _ _ _ I). eauto.
  - rewrite tileCounts_updateStatus. simpl.
    apply wfCounts_insert; [apply I|done|lia].
  - apply capacity_ok_insert; [apply I|]. simpl.
    pose proof (inv_capacity _ _ _ I id f Hf).
    pose proof (length_delete (FactoryDropHandler.tiles f) slotIndex
                  (ltac:(eauto) : is_Some (FactoryDropHandler.tiles f !! slotIndex))).
    lia.
  - apply tiles_valid_insert; [apply I|]. simpl.
    apply Forall_delete, (inv_valid _ _ _ I id f Hf).
  - eapply ids_dense_insert; [exact Hf|apply I].
  - rewrite tilesNeeded_updateStatus. simpl. apply I.
  - intros Hempty. by apply insert_non_empty in Hempty.
  - intros c' Hc'. rewrite tileCounts_updateStatus. simpl.
    rewrite count_of_insert, (placedCount_insert c' h id f _ Hf). simpl.
    rewrite (countColor_delete c' _ _ _ Hslot).
    pose proof (inv_colour _ _ _ I c' Hc').
    destruct (decide (color = c')); subst; lia.
  - rewrite tileCounts_updateStatus, tilesPlaced_updateStatus. simpl.
    rewrite sum_colors_insert by done.
    pose proof (inv_placed _ _ _ I). lia.
Qed.

Lemma phase_inv_drop g h bv e id :
  phase_inv g h bv →
  ∃ h' bv', phase_inv (dispatch (GuiGame.DropOn e id) g) h' bv'.
Proof.
  intros I. rewrite (dispatch_drop _ g h bv e id I).
  destruct (payloadColor e) as [c|] eqn:Hp; [|eauto].
  apply payloadColor_range in Hp.
  destruct (FactoryDropHandler.addTileToFactory id c h) as [h' [|]] eqn:E; [|eauto].
  apply addTileToFactory_true in E as (f & Hf & Hlen & ->).
  eexists _, _. by apply phase_inv_placed.
Qed.

Lemma phase_inv_click g h bv id slotIndex :
  phase_inv g h bv →
  ∃ h' bv', phase_inv (dispatch (GuiGame.TileClick id slotIndex) g) h' bv'.
Proof.
  intros I. rewrite (dispatch_click _ g h bv id slotIndex I).
  destruct (FactoryDropHandler.factories h !! id) as [f|] eqn:Hf; [|eauto].
  destruct (FactoryDropHandler.tiles f !! slotIndex) as [color|] eqn:Hc; [|eauto].
  eexists _, _. by eapply phase_inv_returned.
Qed.

(** The invariant holds throughout a distribution phase. *)
Lemma distributing_inv g :
  distributing getMoves Tile_Null g → ∃ h bv, phase_inv g h bv.
Proof.
  induction 1 as [g0 g Henter|e id g _ (h & bv & I)|id slotIndex g _ (h & bv & I)].
  - by eapply phase_inv_enter.
  - by eapply phase_inv_drop.
  - by eapply phase_inv_click.
Qed.

End PhaseInvariant.

(** * Rejections *)

Section Rejections.
Context {Moves Rest : Type}.
Variable getMoves : @GuiGame.GameState Moves Rest → Moves.
Local Abbreviation state := (@GuiGame.state Moves Rest).
Local Abbreviation dispatch := (GuiGame.dispatch getMoves).
Implicit Types (g : state) (h : FactoryDropHandler.state) (bv : BagView.state).

Lemma dispatch_drop_rejected g h e id :
  GuiGame.factoryDropHandler g = Some h →
  FactoryDropHandler.handleDrop e id h = (h, []) →
  dispatch (GuiGame.DropOn e id) g = g.
Proof.
  intros Hh Hdrop. unfold GuiGame.dispatch. rewrite Hh, Hdrop. simpl.
  by apply with_handler_id.
Qed.

(** C10.  A drop whose payload is absent, empty, or does not parse to an
    integer colour in [0..4] leaves the handler as it is and makes no
    callback invocation; the controller state, supply counts included, is
    unchanged. *)
Theorem bad_payload_ignored (e : DragEvent) (id : nat) :
  badPayload e →
  (∀ h, FactoryDropHandler.handleDrop e id h = (h, []))
  ∧ (∀ g, dispatch (GuiGame.DropOn e id) g = g).
Proof.
  intros Hbad. apply payloadColor_bad in Hbad.
  split; [intros h; by apply handleDrop_no_payload|].
  intros g. destruct (GuiGame.factoryDropHandler g) as [h|] eqn:Hh.
  - eapply dispatch_drop_rejected; [done|]. by apply handleDrop_no_payload.
  - unfold GuiGame.dispatch. by rewrite Hh.
Qed.

(** C3, as the code has it.  The handler tries the placement first and
    notifies the bag view only of a placement that succeeded: every callback
    invocation a drop makes is for a tile that [addTileToFactory] has just
    put on the factory.  A drop the handler rejects (handler disabled, no
    colour in the payload, factory unknown or full) changes nothing in the
    controller. *)
Theorem drop_places_then_notifies (e : DragEvent) (id : nat) :
  (∀ h h' calls call,
     FactoryDropHandler.handleDrop e id h = (h', calls) →
     call ∈ calls →
     ∃ c, payloadColor e = Some c
          ∧ FactoryDropHandler.addTileToFactory id c h = (h', true)
          ∧ calls = [call]
          ∧ Some (callee call) = FactoryDropHandler.onTileDropped h
          ∧ arg_factoryId call = id ∧ arg_color call = c)
  ∧ (∀ g h,
       GuiGame.factoryDropHandler g = Some h →
       FactoryDropHandler.enabled h = false
       ∨ payloadColor e = None
       ∨ (∃ c, payloadColor e = Some c
               ∧ (FactoryDropHandler.addTileToFactory id c h).2 = false) →
       dispatch (GuiGame.DropOn e id) g = g).
Proof.
  split.
  - intros h h' calls call Hdrop Hin.
    destruct (FactoryDropHandler.enabled h) eqn:He.
    2:{ unfold FactoryDropHandler.handleDrop in Hdrop. rewrite He in Hdrop.
        simpl in Hdrop. injection Hdrop as <- <-. by apply elem_of_nil in Hin. }
    rewrite handleDrop_enabled in Hdrop by done.
    destruct (payloadColor e) as [c|].
    2:{ injection Hdrop as <- <-. by apply elem_of_nil in Hin. }
    destruct (FactoryDropHandler.addTileToFactory id c h) as [h1 [|]] eqn:E.
    2:{ injection Hdrop as <- <-. by apply elem_of_nil in Hin. }
    apply addTileToFactory_true in E as E'. destruct E' as (f & Hf & Hlen & ->).
    simpl in Hdrop. destruct (FactoryDropHandler.onTileDropped h) as [cb|] eqn:Hcb.
    2:{ injection Hdrop as <- <-. by apply elem_of_nil in Hin. }
    injection Hdrop as <- <-. apply list_elem_of_singleton in Hin as ->.
    exists c. by repeat split.
  - intros g h Hh Hrej. eapply dispatch_drop_rejected; [done|].
    destruct Hrej as [He|[Hp|(c & Hp & Hfull)]].
    + unfold FactoryDropHandler.handleDrop. by rewrite He.
    + by apply handleDrop_no_payload.
    + destruct (FactoryDropHandler.enabled h) eqn:He.
      * rewrite handleDrop_enabled, Hp by done.
        destruct (FactoryDropHandler.addTileToFactory id c h) as [h' [|]] eqn:E; [done|].
        by apply addTileToFactory_false in E as ->.
      * unfold FactoryDropHandler.handleDrop. by rewrite He.
Qed.

End Rejections.

(** C7, as the code has it.  [tilePlaced(color)] takes one tile of the
    colour from the counts when [counts[color] > 0] and otherwise changes
    nothing; being [void], it evaluates to [undefined] either way.
    [addTileToFactory] on a factory that holds four tiles returns [false]
    and leaves the handler, hence the factory's tiles, unchanged. *)
Theorem tilePlaced_guarded_and_place_full (color : Z) :
  (∀ bv z, BagView.tileCounts bv !! color = Some (Num z) → 0 < z →
     BagView.tileCounts (BagView.tilePlaced color bv)
       = <[color := Num (z - 1)]> (BagView.tileCounts bv)
     ∧ BagView.tilesPlaced (BagView.tilePlaced color bv) = BagView.tilesPlaced bv + 1)
  ∧ (∀ bv, gt_zero (BagView.tileCounts bv !! color) = false →
       BagView.tilePlaced color bv = bv)
  ∧ (∀ bv, (BagView.tilePlaced_call color bv).2 = Undefined)
  ∧ (∀ h id f, FactoryDropHandler.factories h !! id = Some f →
       length (FactoryDropHandler.tiles f) = 4%nat →
       FactoryDropHandler.addTileToFactory id color h = (h, false)).
Proof.
  repeat split.
  - rewrite (tilePlaced_positive color bv z) by done.
    by rewrite tileCounts_updateStatus.
  - rewrite (tilePlaced_positive color bv z) by done.
    by rewrite tilesPlaced_updateStatus.
  - apply tilePlaced_rejected.
  - intros h id f Hf Hlen. eapply addTileToFactory_full; [done|lia].
Qed.

(** * Conservation and round trip within a phase *)

Section WithinPhase.
Context {Moves Rest : Type}.
Variable getMoves : @GuiGame.GameState Moves Rest → Moves.
Variable Tile_Null : Z.
Local Abbreviation state := (@GuiGame.state Moves Rest).
Local Abbreviation dispatch := (GuiGame.dispatch getMoves).
Implicit Types (g : state) (h : FactoryDropHandler.state) (bv : BagView.state).

Lemma tilesAccounted_inv g h bv :
  phase_inv g h bv →
  tilesAccounted g
  = Num (sum_colors (count_of (BagView.tileCounts bv))
         + FactoryDropHandler.getTotalTilesPlaced h
         + Z.of_nat (length (GuiGame.discardedTiles g))).
Proof.
  intros I. unfold tilesAccounted, supplyCounts, tilesOnFactories.
  rewrite (inv_bagView _ _ _ I), (inv_handler _ _ _ I).
  by rewrite (wfCounts_total _ (inv_counts _ _ _ I)).
Qed.

Lemma supplied_step g h bv ev :
  phase_inv g h bv → supplied ev g = true →
  tilesAccounted (dispatch ev g) = tilesAccounted g
  ∧ ∃ h' bv', phase_inv (dispatch ev g) h' bv'.
Proof.
  intros I Hs. destruct ev as [e id|id slotIndex|]; [| |done].
  - split; [|by eapply phase_inv_drop].
    rewrite (dispatch_drop _ g h bv e id I). simpl in Hs.
    destruct (payloadColor e) as [c|] eqn:Hp; [|done].
    apply payloadColor_range in Hp.
    destruct (FactoryDropHandler.addTileToFactory id c h) as [h' [|]] eqn:E; [|done].
    apply addTileToFactory_true in E as (f & Hf & Hlen & ->).
    rewrite (tilesAccounted_inv _ _ _ (phase_inv_placed g h bv id f c I Hp Hf Hlen)).
    rewrite (tilesAccounted_inv _ _ _ I). simpl.
    unfold supplyCounts in Hs. rewrite (inv_bagView _ _ _ I) in Hs.
    destruct (wfCounts_lookup _ c (inv_counts _ _ _ I) Hp) as [Hlook Hpos].
    rewrite Hlook in Hs. simpl in Hs. apply Z.ltb_lt in Hs.
    rewrite (tilePlaced_positive c bv _ Hlook Hs), tileCounts_updateStatus. simpl.
    rewrite sum_colors_insert by done.
    rewrite (getTotalTilesPlaced_insert h id f _ Hf). simpl.
    rewrite length_app. simpl. f_equal. lia.
  - split; [|by eapply phase_inv_click].
    rewrite (dispatch_click _ g h bv id slotIndex I).
    destruct (FactoryDropHandler.factories h !! id) as [f|] eqn:Hf; [|done].
    destruct (FactoryDropHandler.tiles f !! slotIndex) as [color|] eqn:Hc; [|done].
    rewrite (tilesAccounted_inv _ _ _
               (phase_inv_returned g h bv id f slotIndex color I Hf Hc)).
    rewrite (tilesAccounted_inv _ _ _ I). simpl.
    assert (0 ≤ color ≤ 4) as Hcol.
    { apply (Forall_lookup_1 _ _ _ _ (inv_valid _ _ _ I id f Hf) Hc). }
    destruct (wfCounts_lookup _ color (inv_counts _ _ _ I) Hcol) as [Hlook Hpos].
    unfold BagView.tileReturned. rewrite Hlook, tileCounts_updateStatus. simpl.
    rewrite sum_colors_insert by done.
    rewrite (getTotalTilesPlaced_insert h id f _ Hf). simpl.
    pose proof (length_delete (FactoryDropHandler.tiles f) slotIndex
                  (ltac:(eauto) : is_Some (FactoryDropHandler.tiles f !! slotIndex))).
    apply lookup_lt_Some in Hc. f_equal. lia.
Qed.

(** C1, as the code has it.  Within one distribution phase, over every
    sequence of clicks on placed tiles and of drops whose colour has a
    positive supply count, the supply counts, the tiles on the factories and
    the discard pile together keep their total. *)
Theorem conservation_within_phase (evs : list GuiGame.Event) g :
  distributing getMoves Tile_Null g →
  all_supplied getMoves evs g = true →
  tilesAccounted (run getMoves evs g) = tilesAccounted g.
Proof.
  intros Hd. apply distributing_inv in Hd as (h & bv & I).
  revert g h bv I. induction evs as [|ev evs IH]; intros g h bv I Hs; [done|].
  simpl in Hs. apply andb_true_iff in Hs as [Hev Hevs].
  destruct (supplied_step g h bv ev I Hev) as [Heq (h' & bv' & I')].
  unfold run in *. simpl. rewrite (IH _ h' bv' I' Hevs). done.
Qed.

(** C5.  Round trip: in a distribution phase, a drop of a colour with a
    positive supply count on a factory with a free slot lands in the first
    free slot, and a click on that slot straight after gives back the
    state before the drop: counts, configuration and all. *)
Theorem place_then_remove_restores g h bv e id c f :
  distributing getMoves Tile_Null g →
  GuiGame.factoryDropHandler g = Some h →
  GuiGame.bagView g = Some bv →
  payloadColor e = Some c →
  gt_zero (BagView.tileCounts bv !! c) = true →
  FactoryDropHandler.factories h !! id = Some f →
  (length (FactoryDropHandler.tiles f) < 4)%nat →
  (∃ h1 f1,
     GuiGame.factoryDropHandler (dispatch (GuiGame.DropOn e id) g) = Some h1
     ∧ FactoryDropHandler.factories h1 !! id = Some f1
     ∧ FactoryDropHandler.tiles f1 = FactoryDropHandler.tiles f ++ [c])
  ∧ dispatch (GuiGame.TileClick id (length (FactoryDropHandler.tiles f)))
             (dispatch (GuiGame.DropOn e id) g) = g.
Proof.
  intros Hd Hh Hbv Hp Hpos Hf Hlen.
  apply distributing_inv in Hd as (h0 & bv0 & I).
  assert (h0 = h) as -> by (pose proof (inv_handler _ _ _ I); congruence).
  assert (bv0 = bv) as -> by (pose proof (inv_bagView _ _ _ I); congruence).
  pose proof (payloadColor_range _ _ Hp) as Hc.
  pose proof (phase_inv_placed g h bv id f c I Hc Hf Hlen) as I1.
  rewrite (dispatch_drop _ g h bv e id I), Hp.
  unfold FactoryDropHandler.addTileToFactory at 1 2. rewrite Hf.
  destruct (Nat.leb_spec 4 (length (FactoryDropHandler.tiles f))); [lia|].
  split.
  { eexists _, _. split; [reflexivity|]. split; [apply lookup_insert_eq|done]. }
  rewrite (dispatch_click _ _ _ _ id (length (FactoryDropHandler.tiles f)) I1).
  cbn [FactoryDropHandler.factories FactoryDropHandler.with_factories].
  rewrite lookup_insert_eq. cbn [FactoryDropHandler.tiles FactoryDropHandler.factoryId].
  rewrite list_lookup_middle by done.
  rewrite insert_insert_eq.
  replace (delete (length (FactoryDropHandler.tiles f)) (FactoryDropHandler.tiles f ++ [c]))
    with (FactoryDropHandler.tiles f)
    by (by rewrite (delete_middle (FactoryDropHandler.tiles f) [] c), app_nil_r).
  destruct (wfCounts_lookup _ c (inv_counts _ _ _ I) Hc) as [Hlook Hnn].
  rewrite Hlook in Hpos. simpl in Hpos. apply Z.ltb_lt in Hpos.
  rewrite (tilePlaced_positive c bv _ Hlook Hpos).
  pose proof (inv_button _ _ _ I) as Hbtn.
  unfold BagView.tileReturned, BagView.updateStatus.
  cbn [BagView.startRoundBtn BagView.tileCounts BagView.tilesPlaced
       BagView.tilesNeeded BagView.onDistributionComplete].
  rewrite Hbtn.
  cbn [BagView.startRoundBtn BagView.tileCounts BagView.tilesPlaced
       BagView.tilesNeeded BagView.onDistributionComplete].
  rewrite lookup_insert_eq. cbn [incremented]. rewrite insert_insert_eq.
  replace (count_of (BagView.tileCounts bv) c - 1 + 1)
    with (count_of (BagView.tileCounts bv) c) by lia.
  rewrite (insert_id _ _ _ Hlook).
  replace (BagView.tilesPlaced bv + 1 - 1) with (BagView.tilesPlaced bv) by lia.
  rewrite (insert_id (FactoryDropHandler.factories h) id
             {| FactoryDropHandler.factoryId := FactoryDropHandler.factoryId f;
                FactoryDropHandler.tiles := FactoryDropHandler.tiles f |})
    by (by destruct f).
  destruct g as [gs mode obv oh bag disc]. simpl in *. subst obv oh.
  unfold GuiGame.with_bagView, GuiGame.with_handler. simpl. f_equal.
  - f_equal. destruct bv as [cnt tp tn cb btn]. simpl in *. rewrite Hbtn.
    unfold BagView.allPlaced, BagView.remaining. simpl. done.
  - f_equal. by destruct h.
Qed.

End WithinPhase.

(** * Reconciliation into the engine *)

Lemma array_get_array_set {A} (arr : list (option A)) i j (x : A) :
  array_get (array_set arr i x) j
  = if decide (i = j) then Some x else array_get arr j.
Proof.
  unfold array_get, array_set. destruct (decide (i < length arr)%nat) as [Hi|Hi].
  - destruct (decide (i = j)) as [->|Hne].
    + by rewrite list_lookup_insert_eq.
    + by rewrite list_lookup_insert_ne.
  - destruct (decide (j < length arr)%nat) as [Hj|Hj].
    + rewrite lookup_app_l by done. rewrite decide_False by lia. done.
    + rewrite lookup_app_r by lia.
      rewrite (lookup_ge_None_2 arr j) by lia. simpl.
      destruct (decide (j - length arr < i - length arr)%nat) as [Hlt|Hge].
      * rewrite lookup_app_l by (rewrite length_replicate; lia).
        rewrite lookup_replicate_2 by lia. rewrite decide_False by lia. done.
      * rewrite lookup_app_r by (rewrite length_replicate; lia).
        rewrite length_replicate.
        destruct (decide (i = j)) as [->|Hne].
        -- by rewrite Nat.sub_diag.
        -- destruct (j - length arr - (i - length arr))%nat as [|k] eqn:Hk; [lia|].
           done.
Qed.

(** Step 2 of [applyManualDistribution]: entry [index] of the configuration
    lands at [index + 1]; index 0, the centre, is not written. *)
Lemma apply_configuration (fs : list (option (list Z))) (cfg : list (list Z)) :
  (∀ i tiles, cfg !! i = Some tiles →
     array_get (foldl (λ fs it, array_set fs (it.1 + 1)%nat it.2) fs (imap pair cfg))
               (i + 1) = Some tiles)
  ∧ array_get (foldl (λ fs it, array_set fs (it.1 + 1)%nat it.2) fs (imap pair cfg)) 0
    = array_get fs 0.
Proof.
  induction cfg as [|x cfg [IH1 IH0]] using rev_ind; [done|].
  rewrite imap_app, foldl_app. simpl. rewrite Nat.add_0_r. split.
  - intros i tiles Hi. rewrite array_get_array_set.
    destruct (decide (length cfg + 1 = i + 1)%nat) as [Heq|Hne].
    + assert (i = length cfg) as -> by lia.
      rewrite list_lookup_middle in Hi by done. congruence.
    + apply IH1. apply lookup_lt_Some in Hi as Hlt.
      rewrite length_app in Hlt. simpl in Hlt.
      rewrite lookup_app_l in Hi by lia. done.
  - rewrite array_get_array_set. rewrite decide_False by lia. done.
Qed.

Lemma Sorted_seq start n : Sorted (≤)%nat (seq start n).
Proof.
  revert start. induction n as [|n IH]; intros start; simpl; [constructor|].
  constructor; [apply IH|]. destruct n; simpl; constructor. lia.
Qed.

Lemma sortedIds_dense n h :
  ids_dense n h → FactoryDropHandler.sortedIds h = seq 1 n.
Proof.
  intros Hd. unfold FactoryDropHandler.sortedIds.
  apply (Sorted_unique (≤)%nat).
  - apply Sorted_merge_sort. apply _.
  - apply Sorted_seq.
  - rewrite merge_sort_Permutation. apply NoDup_Permutation.
    + apply NoDup_fst_map_to_list.
    + apply NoDup_seq.
    + intros k. rewrite elem_of_seq, list_elem_of_fmap. split.
      * intros ([k' f] & -> & Hin). apply elem_of_map_to_list in Hin. simpl.
        assert (1 ≤ k' ≤ n)%nat; [|lia]. apply Hd. eauto.
      * intros Hk. destruct (proj2 (Hd k)) as [f Hf]; [lia|].
        exists (k, f). split; [done|]. by apply elem_of_map_to_list.
Qed.

Lemma omap_lookup_total {A B} (f : A → option B) (l : list A) i :
  (∀ x, x ∈ l → is_Some (f x)) → omap f l !! i = l !! i ≫= f.
Proof.
  revert i. induction l as [|x l IH]; intros i Hl; [done|].
  destruct (Hl x) as [y Hy]; [by left|]. simpl. rewrite Hy.
  destruct i as [|i]; simpl; [done|]. apply IH. intros x' Hx'. apply Hl. by right.
Qed.

(** The configuration lists the factories by ascending id: entry [i] is
    factory [i + 1]. *)
Lemma getFactoryConfiguration_lookup n h i :
  ids_dense n h →
  FactoryDropHandler.getFactoryConfiguration h !! i
  = FactoryDropHandler.tiles <$> FactoryDropHandler.factories h !! (i + 1)%nat.
Proof.
  intros Hd. unfold FactoryDropHandler.getFactoryConfiguration.
  rewrite (sortedIds_dense n h Hd).
  rewrite omap_lookup_total.
  - destruct (decide (i < n)%nat) as [Hi|Hi].
    + rewrite (proj2 (lookup_seq 1 n i (1 + i)%nat)) by lia. simpl.
      by replace (S i) with (i + 1)%nat by lia.
    + rewrite (lookup_ge_None_2 (seq 1 n) i) by (rewrite length_seq; lia). simpl.
      destruct (FactoryDropHandler.factories h !! (i + 1)%nat) as [f|] eqn:Hf; [|done].
      assert (1 ≤ i + 1 ≤ n)%nat; [|lia]. apply Hd. eauto.
  - intros id Hid. apply elem_of_seq in Hid.
    destruct (proj2 (Hd id)) as [f Hf]; [lia|]. rewrite Hf. simpl. eauto.
Qed.

Lemma indexOf_Some x bag i : indexOf x bag = Some i → bag !! i = Some x.
Proof.
  revert i. induction bag as [|y bag IH]; intros i; simpl; [done|].
  destruct (decide (y = x)) as [->|Hne]; [by intros [= <-]|].
  destruct (indexOf x bag) as [j|]; simpl; [|done].
  intros [= <-]. simpl. by apply IH.
Qed.

Lemma indexOf_None x bag : indexOf x bag = None → countColor x bag = 0.
Proof.
  induction bag as [|y bag IH]; simpl; [done|].
  destruct (decide (y = x)) as [->|Hne]; [done|].
  destruct (indexOf x bag) as [j|]; simpl; [done|].
  intros _. rewrite countColor_cons, decide_False by done. rewrite IH; [lia|done].
Qed.

(** Step 3 for one tile: it leaves the bag if the bag holds that colour. *)
Lemma countColor_removeFirst c x bag :
  countColor c (removeFirst x bag)
  = countColor c bag
    - (if decide (x = c ∧ 0 < countColor c bag) then 1 else 0).
Proof.
  unfold removeFirst. destruct (indexOf x bag) as [i|] eqn:Hi.
  - apply indexOf_Some in Hi as Hlook.
    rewrite (countColor_delete c bag i x Hlook).
    destruct (decide (x = c)) as [->|Hne].
    + assert (0 < countColor c bag).
      { apply list_elem_of_lookup_2 in Hlook.
        apply list_elem_of_split in Hlook as (l1 & l2 & ->).
        rewrite countColor_app, countColor_cons, decide_True by done.
        pose proof (countColor_nonneg c l1). pose proof (countColor_nonneg c l2). lia. }
      by rewrite decide_True.
    + rewrite decide_False; [done|]. by intros [? _].
  - apply indexOf_None in Hi. destruct (decide (x = c)) as [->|Hne].
    + rewrite decide_False; [lia|]. lia.
    + rewrite decide_False; [lia|]. by intros [? _].
Qed.

(** Step 3 for all placed tiles. *)
Lemma countColor_remove_placed c placed bag :
  countColor c (foldl (λ bag tileColor, removeFirst tileColor bag) bag placed)
  = Z.max 0 (countColor c bag - countColor c placed).
Proof.
  revert bag. induction placed as [|x placed IH]; intros bag; simpl.
  - rewrite countColor_nil. pose proof (countColor_nonneg c bag). lia.
  - rewrite IH, countColor_removeFirst, countColor_cons.
    pose proof (countColor_nonneg c bag). pose proof (countColor_nonneg c placed).
    destruct (decide (x = c)) as [->|Hne].
    + destruct (decide (c = c ∧ 0 < countColor c bag)) as [[_ ?]|Hn]; [lia|].
      assert (countColor c bag = 0) by (destruct (decide (0 < countColor c bag)); [by destruct Hn|lia]).
      lia.
    + rewrite decide_False; [lia|]. by intros [? _].
Qed.

Lemma removeFirst_sublist x bag : removeFirst x bag `sublist_of` bag.
Proof.
  unfold removeFirst. destruct (indexOf x bag); [apply sublist_delete|done].
Qed.

Lemma remove_placed_sublist placed bag :
  foldl (λ bag tileColor, removeFirst tileColor bag) bag placed `sublist_of` bag.
Proof.
  revert bag. induction placed as [|x placed IH]; intros bag; simpl; [done|].
  etrans; [apply IH|apply removeFirst_sublist].
Qed.

Lemma placedTiles_valid h :
  tiles_valid h → Forall (λ t, 0 ≤ t ≤ 4) (placedTiles h).
Proof.
  intros Hv. unfold placedTiles. apply Forall_concat, Forall_forall.
  intros tiles Hin. unfold FactoryDropHandler.getFactoryConfiguration in Hin.
  apply list_elem_of_omap in Hin as (id & _ & Hid).
  destruct (FactoryDropHandler.factories h !! id) as [f|] eqn:Hf; [|done].
  simpl in Hid. injection Hid as <-. by eapply Hv.
Qed.

Lemma placedCount_placedTiles c h : placedCount c h = countColor c (placedTiles h).
Proof.
  unfold placedCount, placedTiles.
  by rewrite countColor_concat_sum, <-(sum_with_config (countColor c)).
Qed.

Lemma getTotalTilesPlaced_bound h :
  capacity_ok h →
  FactoryDropHandler.getTotalTilesPlaced h
  ≤ Z.of_nat (size (FactoryDropHandler.factories h)) * 4.
Proof.
  intros Hc. apply (sum_with_bound (λ f, Z.of_nat (length (FactoryDropHandler.tiles f)))).
  intros id f Hf. pose proof (Hc id f Hf). lia.
Qed.

Lemma ids_dense_size n h :
  ids_dense n h → size (FactoryDropHandler.factories h) = n.
Proof.
  intros Hd. rewrite <-length_map_to_list, <-(length_fmap fst).
  transitivity (length (FactoryDropHandler.sortedIds h)).
  - unfold FactoryDropHandler.sortedIds. by rewrite merge_sort_Permutation.
  - by rewrite (sortedIds_dense n h Hd), length_seq.
Qed.

Section Reconciliation.
Context {Moves Rest : Type}.
Variable getMoves : @GuiGame.GameState Moves Rest → Moves.
Variable Tile_Null : Z.
Local Abbreviation state := (@GuiGame.state Moves Rest).
Local Abbreviation dispatch := (GuiGame.dispatch getMoves).
Local Abbreviation enter := (GuiGame.enterManualDistributionPhase Tile_Null).
Implicit Types (g : state) (h : FactoryDropHandler.state) (bv : BagView.state).

Lemma dispatch_start g h bv :
  phase_inv g h bv → BagView.startRoundBtn bv = Some false →
  dispatch GuiGame.StartRoundClick g = GuiGame.applyManualDistribution getMoves g.
Proof.
  intros I Hbtn. unfold GuiGame.dispatch. rewrite (inv_bagView _ _ _ I). simpl.
  unfold BagView.startRoundClick. rewrite Hbtn, (inv_onComplete _ _ _ I). done.
Qed.

(** With the start button enabled, what our bag keeps after the placed
    tiles left it is, colour by colour, what the counts say. *)
Lemma enabled_counts g h bv c :
  phase_inv g h bv → BagView.allPlaced bv = true → 0 ≤ c ≤ 4 →
  Z.max 0 (countColor c (GuiGame.ourBag g) - placedCount c h)
  = count_of (BagView.tileCounts bv) c.
Proof.
  intros I Hall Hc.
  pose proof (inv_colour _ _ _ I) as Hcol.
  pose proof (inv_placed _ _ _ I) as Hpl.
  pose proof (inv_counts _ _ _ I) as Hwf.
  assert (sum_colors (λ c, placedCount c h) = FactoryDropHandler.getTotalTilesPlaced h) as HP.
  { rewrite getTotalTilesPlaced_placedTiles.
    rewrite <-(sum_colors_countColor _ (placedTiles_valid h (inv_valid _ _ _ I))).
    unfold sum_colors. by rewrite !placedCount_placedTiles. }
  pose proof (getTotalTilesPlaced_bound h (inv_capacity _ _ _ I)) as Hcap.
  rewrite (ids_dense_size _ _ (inv_ids _ _ _ I)) in Hcap.
  assert (numFactories g < 0 → BagView.tilesPlaced bv = 0) as Hneg.
  { intros Hn. apply (inv_empty _ _ _ I). apply map_size_empty_iff.
    rewrite (ids_dense_size _ _ (inv_ids _ _ _ I)). unfold regularFactoryCount. lia. }
  unfold BagView.allPlaced, BagView.remaining in Hall.
  rewrite (wfCounts_total _ Hwf), (inv_needed _ _ _ I) in Hall. simpl in Hall.
  unfold tilesPerRound in Hall. unfold regularFactoryCount in Hcap.
  destruct (wfCounts_lookup _ 0 Hwf) as [_ H0]; [lia|].
  destruct (wfCounts_lookup _ 1 Hwf) as [_ H1]; [lia|].
  destruct (wfCounts_lookup _ 2 Hwf) as [_ H2]; [lia|].
  destruct (wfCounts_lookup _ 3 Hwf) as [_ H3]; [lia|].
  destruct (wfCounts_lookup _ 4 Hwf) as [_ H4]; [lia|].
  pose proof (Hcol 0 ltac:(lia)). pose proof (Hcol 1 ltac:(lia)).
  pose proof (Hcol 2 ltac:(lia)). pose proof (Hcol 3 ltac:(lia)).
  pose proof (Hcol 4 ltac:(lia)).
  unfold sum_colors in *.
  assert (c = 0 ∨ c = 1 ∨ c = 2 ∨ c = 3 ∨ c = 4) as Hcases by lia.
  apply orb_true_iff in Hall as [Hrem|Hzero].
  - apply Z.eqb_eq in Hrem.
    destruct Hcases as [->|[->|[->|[->| ->]]]]; lia.
  - apply Z.eqb_eq in Hzero.
    destruct Hcases as [->|[->|[->|[->| ->]]]]; lia.
Qed.

(** C2.  Reconciliation fidelity: when the operator starts the round, every
    factory of the configuration is written to the engine at its own id
    (the configuration lists them by ascending id; the centre, index 0, is
    not written), the engine's bag holds of each colour exactly what the
    supply counts say and no tile that was not in our bag, and the engine's
    moves are recomputed from that new state before the controller
    returns. *)
Theorem reconciliation_fidelity g h bv :
  distributing getMoves Tile_Null g →
  GuiGame.factoryDropHandler g = Some h →
  GuiGame.bagView g = Some bv →
  BagView.startRoundBtn bv = Some false →
  let gs := GuiGame.gamestate g in
  let gs' := GuiGame.gamestate (dispatch GuiGame.StartRoundClick g) in
  (∀ id f, FactoryDropHandler.factories h !! id = Some f →
     array_get (GuiGame.factory gs') id = Some (FactoryDropHandler.tiles f))
  ∧ (∀ i, FactoryDropHandler.getFactoryConfiguration h !! i
          = FactoryDropHandler.tiles <$> FactoryDropHandler.factories h !! (i + 1)%nat)
  ∧ array_get (GuiGame.factory gs') 0 = array_get (GuiGame.factory gs) 0
  ∧ (∀ c, 0 ≤ c ≤ 4 →
       BagView.tileCounts bv !! c = Some (Num (countColor c (GuiGame.tilebag gs'))))
  ∧ GuiGame.tilebag gs' `sublist_of` GuiGame.ourBag g
  ∧ GuiGame.availableMoves gs'
    = getMoves {| GuiGame.factory := GuiGame.factory gs';
                  GuiGame.tilebag := GuiGame.tilebag gs';
                  GuiGame.availableMoves := GuiGame.availableMoves gs;
                  GuiGame.rest := GuiGame.rest gs |}.
Proof.
  intros Hd Hh Hbv Hbtn.
  apply distributing_inv in Hd as (h0 & bv0 & I).
  assert (h0 = h) as -> by (pose proof (inv_handler _ _ _ I); congruence).
  assert (bv0 = bv) as -> by (pose proof (inv_bagView _ _ _ I); congruence).
  cbv zeta. rewrite (dispatch_start g h bv I Hbtn).
  unfold GuiGame.applyManualDistribution. rewrite Hh. simpl.
  pose proof (apply_configuration (GuiGame.factory (GuiGame.gamestate g))
                (FactoryDropHandler.getFactoryConfiguration h)) as [Hwrite Hcentre].
  assert (∀ i, FactoryDropHandler.getFactoryConfiguration h !! i
               = FactoryDropHandler.tiles <$> FactoryDropHandler.factories h !! (i + 1)%nat)
    as Hcfg.
  { intros i. eapply getFactoryConfiguration_lookup, (inv_ids _ _ _ I). }
  repeat split.
  - intros id f Hf.
    assert (1 ≤ id)%nat as Hid.
    { assert (1 ≤ id ≤ regularFactoryCount (numFactories g))%nat; [|lia].
      apply (inv_ids _ _ _ I). eauto. }
    replace id with (id - 1 + 1)%nat by lia. apply Hwrite.
    rewrite Hcfg. replace (id - 1 + 1)%nat with id by lia. by rewrite Hf.
  - exact Hcfg.
  - exact Hcentre.
  - intros c Hc.
    destruct (wfCounts_lookup _ c (inv_counts _ _ _ I) Hc) as [-> _].
    do 2 f_equal. rewrite countColor_remove_placed.
    fold (placedTiles h). rewrite <-placedCount_placedTiles.
    symmetry. apply (enabled_counts g h bv c I); [|done].
    pose proof (inv_button _ _ _ I) as Hb. rewrite Hbtn in Hb.
    injection Hb as Hb. by destruct (BagView.allPlaced bv).
  - apply remove_placed_sublist.
Qed.


(** C9, as the code has it.  With a supply that is not empty, entering
    skips the seeding without any error: the call returns normally, the
    engine state is neither read into the supply nor cleared, our bag keeps
    its tiles (the discard pile may join them), and the counts presented
    are those of that bag. *)
Theorem enter_keeps_nonempty_supply g :
  GuiGame.ourBag g ≠ [] →
  ∃ g' bv,
    enter g = Normal g'
    ∧ GuiGame.gamestate g' = GuiGame.gamestate g
    ∧ GuiGame.ourBag g' = GuiGame.ourBag (GuiGame.refillFromDiscard (tilesPerRound g) g)
    ∧ (GuiGame.ourBag g' = GuiGame.ourBag g
       ∨ GuiGame.ourBag g' = GuiGame.ourBag g ++ GuiGame.discardedTiles g)
    ∧ GuiGame.bagView g' = Some bv
    ∧ BagView.tileCounts bv = BagView.countTilesInBag (GuiGame.ourBag g').
Proof.
  intros Hne. unfold GuiGame.enterManualDistributionPhase, GuiGame.seedOurBag.
  destruct (decide (length (GuiGame.ourBag g) = 0%nat)) as [Hz|_].
  { by apply length_zero_iff_nil in Hz. }
  eexists _, _. split; [reflexivity|]. simpl.
  split; [apply refillFromDiscard_gamestate|]. split; [done|]. split; [|done].
  unfold GuiGame.refillFromDiscard. destruct (_ && _); simpl; auto.
Qed.

End Reconciliation.

(** * The theorems at concrete states *)

Lemma ex_entered_distributing : distributing ex_getMoves (-1) ex_entered.
Proof. apply (distributing_enter _ _ ex_start). vm_compute. reflexivity. Qed.

Lemma ex_filled_distributing : distributing ex_getMoves (-1) ex_filled.
Proof.
  unfold ex_filled, run. cbn [foldl].
  do 4 apply distributing_drop. apply ex_entered_distributing.
Qed.

(** Conservation over two drops, a removal and two rejected drops. *)
Lemma conservation_within_phase_witness :
  tilesAccounted
    (run ex_getMoves
       [GuiGame.DropOn (dropOf "1") 1; GuiGame.DropOn (dropOf "1") 1;
        GuiGame.TileClick 1 0; GuiGame.DropOn (dropOf "9") 1;
        GuiGame.DropOn (dropOf "1") 7]
       ex_entered)
  = tilesAccounted ex_entered.
Proof.
  apply (conservation_within_phase ex_getMoves (-1)).
  - apply ex_entered_distributing.
  - vm_compute. reflexivity.
Defined.

(** C1 fails as stated, twice over.  A drop that carries colour 0 while the
    supply has none of it puts a ninth tile on the table; and after the
    round is started the placed tiles belong to the engine, so the next
    phase (whatever the engine did in between: entering reads only the
    number of factories) accounts for four tiles, not eight. *)
Lemma conservation_counterexample :
  tilesAccounted ex_entered = Num 8
  ∧ tilesAccounted
      (GuiGame.dispatch ex_getMoves (GuiGame.DropOn (dropOf "0") 1) ex_entered)
    = Num 9
  ∧ ∃ g2, GuiGame.enterManualDistributionPhase (-1) ex_applied = Normal g2
          ∧ tilesAccounted g2 = Num 4.
Proof.
  split; [vm_compute; reflexivity|]. split; [vm_compute; reflexivity|].
  eexists. split; vm_compute; reflexivity.
Qed.

Lemma reconciliation_fidelity_witness :
  array_get (GuiGame.factory (GuiGame.gamestate ex_applied)) 1 = Some [1; 1; 1; 1]
  ∧ array_get (GuiGame.factory (GuiGame.gamestate ex_applied)) 0 = Some [5]
  ∧ countColor 1 (GuiGame.tilebag (GuiGame.gamestate ex_applied)) = 4
  ∧ GuiGame.availableMoves (GuiGame.gamestate ex_applied)
    = [Some [5]; Some [1; 1; 1; 1]].
Proof.
  assert (∃ h bv, GuiGame.factoryDropHandler ex_filled = Some h
                  ∧ GuiGame.bagView ex_filled = Some bv
                  ∧ BagView.startRoundBtn bv = Some false
                  ∧ (∃ f, FactoryDropHandler.factories h !! 1%nat = Some f
                          ∧ FactoryDropHandler.tiles f = [1; 1; 1; 1])
                  ∧ BagView.tileCounts bv !! 1 = Some (Num 4))
    as (h & bv & Hh & Hbv & Hbtn & (f & Hf & Htiles) & Hcount).
  { eexists _, _. split; [vm_compute; reflexivity|]. split; [reflexivity|].
    split; [vm_compute; reflexivity|]. split; [|vm_compute; reflexivity].
    eexists. split; vm_compute; reflexivity. }
  destruct (reconciliation_fidelity ex_getMoves (-1) ex_filled h bv
              ex_filled_distributing Hh Hbv Hbtn)
    as (Hfactories & _ & Hcentre & Hbag & _ & Hmoves).
  unfold ex_applied.
  split; [by rewrite (Hfactories 1%nat f Hf), Htiles|].
  split; [by rewrite Hcentre|].
  split; [|by rewrite Hmoves].
  specialize (Hbag 1 ltac:(lia)). rewrite Hcount in Hbag. congruence.
Defined.

Lemma drop_places_then_notifies_witness :
  GuiGame.dispatch ex_getMoves (GuiGame.DropOn (dropOf "1") 1) ex_filled = ex_filled.
Proof.
  assert (∃ h, GuiGame.factoryDropHandler ex_filled = Some h
               ∧ (FactoryDropHandler.addTileToFactory 1 1 h).2 = false)
    as (h & Hh & Hfull).
  { eexists. split; vm_compute; reflexivity. }
  apply (proj2 (drop_places_then_notifies ex_getMoves (dropOf "1") 1) ex_filled h Hh).
  right. right. exists 1. split; [reflexivity|exact Hfull].
Defined.

(** C3 fails as stated: colour 0 has no supply, so the spec's [take] would
    fail and nothing should change; the code places the tile on factory 1
    all the same and leaves the counts alone. *)
Lemma drop_without_supply_counterexample :
  gt_zero (supplyCounts ex_entered !! 0) = false
  ∧ GuiGame.dispatch ex_getMoves (GuiGame.DropOn (dropOf "0") 1) ex_entered ≠ ex_entered
  ∧ tilesOnFactories ex_entered = 0
  ∧ tilesOnFactories
      (GuiGame.dispatch ex_getMoves (GuiGame.DropOn (dropOf "0") 1) ex_entered) = 1
  ∧ supplyCounts
      (GuiGame.dispatch ex_getMoves (GuiGame.DropOn (dropOf "0") 1) ex_entered)
    = supplyCounts ex_entered.
Proof.
  split; [vm_compute; reflexivity|]. split.
  { intros Heq. apply (f_equal tilesOnFactories) in Heq. vm_compute in Heq. done. }
  repeat split; vm_compute; reflexivity.
Qed.

Lemma place_then_remove_restores_witness :
  GuiGame.dispatch ex_getMoves (GuiGame.TileClick 1 0)
    (GuiGame.dispatch ex_getMoves (GuiGame.DropOn (dropOf "1") 1) ex_entered)
  = ex_entered.
Proof.
  assert (∃ h bv f, GuiGame.factoryDropHandler ex_entered = Some h
                    ∧ GuiGame.bagView ex_entered = Some bv
                    ∧ gt_zero (BagView.tileCounts bv !! 1) = true
                    ∧ FactoryDropHandler.factories h !! 1%nat = Some f
                    ∧ FactoryDropHandler.tiles f = [])
    as (h & bv & f & Hh & Hbv & Hpos & Hf & Htiles).
  { eexists _, _, _. split; [vm_compute; reflexivity|]. split; [reflexivity|].
    split; [vm_compute; reflexivity|]. split; vm_compute; reflexivity. }
  destruct (place_then_remove_restores ex_getMoves (-1) ex_entered h bv
              (dropOf "1") 1 1 f ex_entered_distributing Hh Hbv eq_refl Hpos Hf)
    as [_ Hback].
  - rewrite Htiles. simpl. lia.
  - by rewrite Htiles in Hback.
Defined.



Lemma enter_keeps_nonempty_supply_witness :
  ∃ g', GuiGame.enterManualDistributionPhase (-1) ex_applied = Normal g'
        ∧ GuiGame.gamestate g' = GuiGame.gamestate ex_applied
        ∧ GuiGame.ourBag g' = [1; 1; 1; 1].
Proof.
  destruct (enter_keeps_nonempty_supply (-1) ex_applied) as (g' & bv & H).
  - vm_compute. discriminate.
  - destruct H as (Henter & Hgs & Hbag & _). exists g'.
    split; [done|]. split; [done|]. rewrite Hbag. vm_compute. reflexivity.
Defined.

(** C9 fails as stated: entering with a supply that is not empty is no
    failure; the call returns normally.  (A call that does fail looks like
    the second part: a hole in the engine's factory array makes the
    seeding throw.) *)
Lemma enter_again_counterexample :
  GuiGame.ourBag ex_applied ≠ []
  ∧ (∃ g', GuiGame.enterManualDistributionPhase (-1) ex_applied = Normal g')
  ∧ (∀ err g', GuiGame.enterManualDistributionPhase (-1) ex_applied ≠ Throw err g')
  ∧ ∃ err g',
      GuiGame.enterManualDistributionPhase (-1)
        (GuiGame.with_gamestate
           {| GuiGame.factory := [Some [5]; None];
              GuiGame.tilebag := [];
              GuiGame.availableMoves := [];
              GuiGame.rest := tt |} ex_start)
      = Throw err g'.
Proof.
  split; [vm_compute; discriminate|]. split; [eexists; vm_compute; reflexivity|].
  split; [intros err g'; vm_compute; discriminate|].
  eexists _, _. vm_compute. reflexivity.
Qed.

Lemma bad_payload_ignored_witness :
  FactoryDropHandler.handleDrop (dropOf "red") 1
    (FactoryDropHandler.setupDropZones 2 FactoryDropHandler.new)
  = (FactoryDropHandler.setupDropZones 2 FactoryDropHandler.new, [])
  ∧ GuiGame.dispatch ex_getMoves (GuiGame.DropOn (dropOf "7") 1) ex_entered = ex_entered.
Proof.
  split.
  - apply (proj1 (bad_payload_ignored ex_getMoves (dropOf "red") 1
                    ltac:(right; right; exists "red"; split; [reflexivity|left; reflexivity]))).
  - apply (proj2 (bad_payload_ignored ex_getMoves (dropOf "7") 1
                    ltac:(right; right; exists "7"; split;
                          [reflexivity|right; exists 7; split; [reflexivity|lia]]))).
Defined.

Lemma tilePlaced_guarded_and_place_full_witness :
  BagView.tilesPlaced (BagView.tilePlaced 1 (BagView.create [1; 1] 4 BagView.new)) = 1
  ∧ BagView.tilePlaced 0 (BagView.create [1; 1] 4 BagView.new)
    = BagView.create [1; 1] 4 BagView.new.
Proof.
  split.
  - rewrite (proj2 (proj1 (tilePlaced_guarded_and_place_full 1)
                      (BagView.create [1; 1] 4 BagView.new) 2
                      ltac:(vm_compute; reflexivity) ltac:(lia))).
    reflexivity.
  - apply (proj1 (proj2 (tilePlaced_guarded_and_place_full 0))).
    vm_compute. reflexivity.
Defined.

(** C7 fails as stated: with two tiles of colour 1 in the counts the call
    does not evaluate to [true], and with none of colour 0 it does not
    evaluate to [false]; the outcome shows in the counts only. *)
Lemma tilePlaced_result_counterexample :
  gt_zero (BagView.tileCounts (BagView.create [1; 1] 4 BagView.new) !! 1) = true
  ∧ (BagView.tilePlaced_call 1 (BagView.create [1; 1] 4 BagView.new)).2 ≠ Bool true
  ∧ gt_zero (BagView.tileCounts (BagView.create [1; 1] 4 BagView.new) !! 0) = false
  ∧ (BagView.tilePlaced_call 0 (BagView.create [1; 1] 4 BagView.new)).2 ≠ Bool false.
Proof. repeat split; try (vm_compute; reflexivity); discriminate. Qed.

(** * Further properties of the drop handler and the bag view *)

Lemma countColor_perm c (l1 l2 : list Z) : l1 ≡ₚ l2 → countColor c l1 = countColor c l2.
Proof. intros Hp. unfold countColor. by rewrite Hp. Qed.

Lemma sum_colors_filter (l : list Z) :
  sum_colors (λ c, countColor c l) = Z.of_nat (length (filter isColor l)).
Proof.
  induction l as [|t l IH]; [done|].
  unfold sum_colors in *. rewrite !countColor_cons, filter_cons.
  destruct (decide (isColor t)) as [Ht|Ht]; unfold isColor in Ht.
  - simpl length.
    assert (t = 0 ∨ t = 1 ∨ t = 2 ∨ t = 3 ∨ t = 4) as Hcases by lia.
    destruct Hcases as [->|[->|[->|[->| ->]]]]; simpl; lia.
  - repeat (rewrite decide_False by (intros ->; lia)). lia.
Qed.

Lemma countTilesInBag_lookup (bag : list Z) c :
  BagView.countTilesInBag bag !! c
  = if decide (0 ≤ c ≤ 4) then Some (Num (countColor c bag)) else None.
Proof.
  pose proof (wfCounts_countTilesInBag bag) as Hwf.
  destruct (decide (0 ≤ c ≤ 4)) as [Hc|Hc].
  - destruct (wfCounts_lookup _ c Hwf Hc) as [-> _].
    by rewrite count_of_countTilesInBag.
  - specialize (Hwf c). by rewrite decide_False in Hwf.
Qed.

(** X1.  [countTilesInBag] counts, for each of the five colours, the tiles
    of that colour in the bag and has no other key; tiles that are no
    colour are skipped, so the total is the number of coloured tiles; and
    the order of the bag does not matter. *)
Theorem countTilesInBag_counts (bag : list Z) :
  (∀ c, BagView.countTilesInBag bag !! c
        = if decide (0 ≤ c ≤ 4) then Some (Num (countColor c bag)) else None)
  ∧ BagView.totalAvailable (BagView.countTilesInBag bag)
    = Num (Z.of_nat (length (filter isColor bag)))
  ∧ (∀ bag', bag ≡ₚ bag' → BagView.countTilesInBag bag' = BagView.countTilesInBag bag).
Proof.
  split; [apply countTilesInBag_lookup|]. split.
  - by rewrite totalAvailable_countTilesInBag, sum_colors_filter.
  - intros bag' Hp. apply map_eq. intros c. rewrite !countTilesInBag_lookup.
    destruct (decide _); [|done]. by rewrite (countColor_perm c _ _ Hp).
Qed.

Section HandlerExtras.
Import FactoryDropHandler.
Implicit Types (h : state) (id slotIndex : nat) (color : Z).

(** X2.  [removeTileFromFactory] on a slot that holds a tile returns that
    tile and closes the gap: the tiles before and after the slot keep their
    order, the other factories and the total change by nothing else.  On an
    unknown factory or a slot past the tiles it returns [null] and changes
    nothing. *)
Theorem removeTileFromFactory_compacts h id slotIndex :
  match factories h !! id with
  | Some f =>
      match tiles f !! slotIndex with
      | Some c =>
          ∃ h', removeTileFromFactory id slotIndex h = (h', Some c)
                ∧ factories h' !! id
                  = Some {| factoryId := factoryId f;
                            tiles := take slotIndex (tiles f)
                                     ++ drop (S slotIndex) (tiles f) |}
                ∧ (∀ j, j ≠ id → factories h' !! j = factories h !! j)
                ∧ getTotalTilesPlaced h' = getTotalTilesPlaced h - 1
                ∧ onTileDropped h' = onTileDropped h
                ∧ onTileRemoved h' = onTileRemoved h
                ∧ enabled h' = enabled h
      | None => removeTileFromFactory id slotIndex h = (h, None)
      end
  | None => removeTileFromFactory id slotIndex h = (h, None)
  end.
Proof.
  unfold removeTileFromFactory.
  destruct (factories h !! id) as [f|] eqn:Hf; [|done].
  destruct (tiles f !! slotIndex) as [c|] eqn:Hc.
  - apply lookup_lt_Some in Hc as Hlt.
    destruct (Nat.leb_spec (length (tiles f)) slotIndex); [lia|].
    eexists. split; [reflexivity|]. simpl.
    rewrite lookup_insert_eq, delete_take_drop. split; [done|].
    split; [intros j Hj; by rewrite lookup_insert_ne|].
    split; [|done].
    rewrite (getTotalTilesPlaced_insert h id f _ Hf). simpl.
    rewrite length_app, length_take, length_drop. lia.
  - apply lookup_ge_None in Hc.
    by destruct (Nat.leb_spec (length (tiles f)) slotIndex); [|lia].
Qed.

Lemma StronglySorted_le_lt (l : list nat) :
  StronglySorted (≤)%nat l → NoDup l → StronglySorted (<)%nat l.
Proof.
  induction 1 as [|x l Hl IH Hx]; intros Hnd; [constructor|].
  apply NoDup_cons in Hnd as [Hnotin Hnd]. constructor; [by apply IH|].
  apply Forall_forall. intros y Hy.
  pose proof (proj1 (Forall_forall _ _) Hx y Hy).
  assert (x ≠ y) by (intros ->; done). lia.
Qed.

Lemma length_getFactoryConfiguration h :
  length (getFactoryConfiguration h) = size (factories h).
Proof. rewrite getFactoryConfiguration_perm, !length_fmap. apply length_map_to_list. Qed.

(** X3.  [getFactoryConfiguration] of any handler lists every factory
    exactly once, by strictly ascending id, each with its own tiles. *)
Theorem getFactoryConfiguration_sorted h :
  StronglySorted (<)%nat (sortedIds h)
  ∧ (∀ id, id ∈ sortedIds h ↔ is_Some (factories h !! id))
  ∧ length (getFactoryConfiguration h) = size (factories h)
  ∧ (∀ i, getFactoryConfiguration h !! i
          = sortedIds h !! i ≫= λ id, tiles <$> factories h !! id).
Proof.
  assert (∀ id, id ∈ sortedIds h ↔ is_Some (factories h !! id)) as Hdom.
  { intros id. unfold sortedIds. rewrite merge_sort_Permutation, list_elem_of_fmap.
    split.
    - intros ([k f] & -> & Hin). apply elem_of_map_to_list in Hin. eauto.
    - intros [f Hf]. exists (id, f). split; [done|]. by apply elem_of_map_to_list. }
  assert (∀ i, getFactoryConfiguration h !! i
          = sortedIds h !! i ≫= λ id, tiles <$> factories h !! id) as Hlook.
  { intros i. unfold getFactoryConfiguration. apply omap_lookup_total.
    intros id Hid. apply Hdom in Hid as [f Hf]. rewrite Hf. simpl. eauto. }
  split; [|split; [done|split; [|done]]].
  - apply StronglySorted_le_lt.
    + unfold sortedIds. apply StronglySorted_merge_sort; apply _.
    + unfold sortedIds. rewrite merge_sort_Permutation. apply NoDup_fst_map_to_list.
  - apply length_getFactoryConfiguration.
Qed.

(** X4.  [reset] keeps the factories and their ids and empties every one of
    them: the configuration is as many empty lists as there are factories
    and no tile counts as placed.  The callbacks and the enabled flag
    stay. *)
Theorem reset_empties h :
  (∀ id, factories (reset h) !! id
         = (λ f, {| factoryId := factoryId f; tiles := [] |}) <$> factories h !! id)
  ∧ getFactoryConfiguration (reset h) = replicate (size (factories h)) []
  ∧ getTotalTilesPlaced (reset h) = 0
  ∧ onTileDropped (reset h) = onTileDropped h
  ∧ onTileRemoved (reset h) = onTileRemoved h
  ∧ enabled (reset h) = enabled h.
Proof.
  assert (∀ id, factories (reset h) !! id
         = (λ f, {| factoryId := factoryId f; tiles := [] |}) <$> factories h !! id)
    as Hlook by (intros id; simpl; apply lookup_fmap).
  assert (∀ tl, tl ∈ getFactoryConfiguration (reset h) → tl = []) as Hall.
  { intros tl Hin. unfold getFactoryConfiguration in Hin.
    apply list_elem_of_omap in Hin as (id & _ & Hid). rewrite Hlook in Hid.
    destruct (factories h !! id); simpl in Hid; [|done]. by injection Hid as <-. }
  split; [done|]. split; [|split; [|done]].
  - pose proof (length_getFactoryConfiguration (reset h)) as Hlen.
    simpl in Hlen. rewrite map_size_fmap in Hlen. rewrite <-Hlen.
    apply list_eq. intros i.
    destruct (getFactoryConfiguration (reset h) !! i) as [tl|] eqn:Hi.
    + rewrite (Hall tl) by (by eapply list_elem_of_lookup_2).
      apply lookup_lt_Some in Hi. by rewrite lookup_replicate_2.
    + apply lookup_ge_None in Hi. symmetry. apply lookup_ge_None.
      by rewrite length_replicate.
  - rewrite getTotalTilesPlaced_placedTiles. unfold placedTiles.
    assert (concat (getFactoryConfiguration (reset h)) = []) as ->; [|done].
    induction (getFactoryConfiguration (reset h)) as [|tl ls IH]; [done|].
    simpl. rewrite (Hall tl) by left. simpl. apply IH.
    intros tl' Hin. apply Hall. by right.
Qed.

End HandlerExtras.

(** * Further properties of a distribution phase *)

Section PhaseExtras.
Context {Moves Rest : Type}.
Variable getMoves : @GuiGame.GameState Moves Rest → Moves.
Variable Tile_Null : Z.
Local Abbreviation state := (@GuiGame.state Moves Rest).
Local Abbreviation dispatch := (GuiGame.dispatch getMoves).
Local Abbreviation enter := (GuiGame.enterManualDistributionPhase Tile_Null).
Implicit Types (g : state) (h : FactoryDropHandler.state) (bv : BagView.state).

(** X5.  A click on a slot that holds no tile, or on a factory the handler
    does not know, removes nothing, makes no callback and leaves the whole
    controller as it is. *)
Theorem invalid_click_ignored g h id slotIndex :
  GuiGame.factoryDropHandler g = Some h →
  (∀ f, FactoryDropHandler.factories h !! id = Some f →
        (length (FactoryDropHandler.tiles f) ≤ slotIndex)%nat) →
  FactoryDropHandler.handleTileClick id slotIndex h = (h, [])
  ∧ dispatch (GuiGame.TileClick id slotIndex) g = g.
Proof.
  intros Hh Hslot.
  assert (FactoryDropHandler.handleTileClick id slotIndex h = (h, [])) as Hclick.
  { unfold FactoryDropHandler.handleTileClick.
    destruct (FactoryDropHandler.enabled h); [|done]. simpl.
    destruct (FactoryDropHandler.factories h !! id) as [f|] eqn:Hf; [|done].
    by rewrite (lookup_ge_None_2 _ _ (Hslot f eq_refl)). }
  split; [done|]. unfold GuiGame.dispatch. rewrite Hh, Hclick. simpl.
  by apply with_handler_id.
Qed.

(** X6.  Round trip the other way: in a distribution phase, clicking the
    last tile of a factory and then dropping a tile of the same colour on
    that factory gives back the state before the click. *)
Theorem remove_last_then_place_restores g h e id c f l :
  distributing getMoves Tile_Null g →
  GuiGame.factoryDropHandler g = Some h →
  FactoryDropHandler.factories h !! id = Some f →
  FactoryDropHandler.tiles f = l ++ [c] →
  payloadColor e = Some c →
  dispatch (GuiGame.DropOn e id) (dispatch (GuiGame.TileClick id (length l)) g) = g.
Proof.
  intros Hd Hh Hf Htiles Hp.
  apply distributing_inv in Hd as (h0 & bv & I).
  assert (h0 = h) as -> by (pose proof (inv_handler _ _ _ I); congruence).
  assert (FactoryDropHandler.tiles f !! length l = Some c) as Hslot.
  { rewrite Htiles. by apply list_lookup_middle. }
  pose proof (phase_inv_returned g h bv id f (length l) c I Hf Hslot) as I1.
  assert (0 ≤ c ≤ 4) as Hc by (by eapply payloadColor_range).
  destruct (wfCounts_lookup _ c (inv_counts _ _ _ I) Hc) as [Hlook Hnn].
  pose proof (inv_capacity _ _ _ I id f Hf) as Hcap.
  rewrite Htiles, length_app in Hcap. simpl in Hcap.
  rewrite (dispatch_click _ g h bv id (length l) I), Hf, Hslot.
  rewrite (dispatch_drop _ _ _ _ e id I1), Hp.
  unfold FactoryDropHandler.addTileToFactory.
  cbn [FactoryDropHandler.factories FactoryDropHandler.with_factories].
  rewrite lookup_insert_eq. cbn [FactoryDropHandler.tiles FactoryDropHandler.factoryId].
  rewrite Htiles, (delete_middle l [] c), app_nil_r.
  destruct (Nat.leb_spec 4 (length l)); [lia|].
  rewrite insert_insert_eq.
  rewrite (insert_id (FactoryDropHandler.factories h) id
             {| FactoryDropHandler.factoryId := FactoryDropHandler.factoryId f;
                FactoryDropHandler.tiles := l ++ [c] |})
    by (rewrite Hf; destruct f; simpl in *; by subst).
  pose proof (inv_button _ _ _ I) as Hbtn.
  unfold BagView.tilePlaced, BagView.tileReturned, BagView.updateStatus.
  rewrite Hlook, Hbtn.
  cbn [BagView.startRoundBtn BagView.tileCounts BagView.tilesPlaced
       BagView.tilesNeeded BagView.onDistributionComplete incremented].
  rewrite lookup_insert_eq. cbn [gt_zero decremented].
  destruct (Z.ltb_spec 0 (count_of (BagView.tileCounts bv) c + 1)); [|lia].
  cbn [BagView.startRoundBtn BagView.tileCounts BagView.tilesPlaced
       BagView.tilesNeeded BagView.onDistributionComplete].
  rewrite insert_insert_eq.
  replace (count_of (BagView.tileCounts bv) c + 1 - 1)
    with (count_of (BagView.tileCounts bv) c) by lia.
  rewrite (insert_id _ _ _ Hlook).
  replace (BagView.tilesPlaced bv - 1 + 1) with (BagView.tilesPlaced bv) by lia.
  pose proof (inv_bagView _ _ _ I) as Hbv.
  destruct g as [gs mode obv oh bag disc]. simpl in *. subst obv oh.
  unfold GuiGame.with_bagView, GuiGame.with_handler. simpl. f_equal.
  - f_equal. destruct bv as [cnt tp tn cb btn]. simpl in *. rewrite Hbtn.
    unfold BagView.allPlaced, BagView.remaining. simpl. done.
  - f_equal. by destruct h.
Qed.

End PhaseExtras.

(** * Phases in which every drop was backed by the supply *)

Lemma getTotalTilesPlaced_setup n h :
  FactoryDropHandler.getTotalTilesPlaced (FactoryDropHandler.setupDropZones n h) = 0.
Proof.
  pose proof (setupDropZones_capacity n h) as Hcap.
  unfold FactoryDropHandler.getTotalTilesPlaced.
  assert (∀ id f,
    FactoryDropHandler.factories (FactoryDropHandler.setupDropZones n h) !! id = Some f →
    Z.of_nat (length (FactoryDropHandler.tiles f)) = 0) as Hz.
  { intros id f. rewrite setupDropZones_lookup.
    destruct (decide _); [|done]. by intros [= <-]. }
  pose proof (sum_with_nonneg (λ f, Z.of_nat (length (FactoryDropHandler.tiles f)))
    (FactoryDropHandler.factories (FactoryDropHandler.setupDropZones n h))) as Hlo.
  pose proof (sum_with_bound (λ f, Z.of_nat (length (FactoryDropHandler.tiles f)))
    (FactoryDropHandler.factories (FactoryDropHandler.setupDropZones n h)) 0) as Hhi.
  unfold sum_with in *.
  assert (0 ≤ map_fold (λ _ a total, total + Z.of_nat (length (FactoryDropHandler.tiles a))) 0
    (FactoryDropHandler.factories (FactoryDropHandler.setupDropZones n h))).
  { apply Hlo. intros id f Hf. lia. }
  assert (map_fold (λ _ a total, total + Z.of_nat (length (FactoryDropHandler.tiles a))) 0
    (FactoryDropHandler.factories (FactoryDropHandler.setupDropZones n h)) ≤ 0); [|lia].
  etrans; [apply Hhi|lia]. intros id f Hf. rewrite (Hz id f Hf). lia.
Qed.

Lemma sum_colors_placedCount h :
  tiles_valid h →
  sum_colors (λ c, placedCount c h) = FactoryDropHandler.getTotalTilesPlaced h.
Proof.
  intros Hv. rewrite getTotalTilesPlaced_placedTiles.
  rewrite <-(sum_colors_countColor _ (placedTiles_valid h Hv)).
  unfold sum_colors. by rewrite !placedCount_placedTiles.
Qed.

Section SuppliedFacts.
Context {Moves Rest : Type}.
Variable getMoves : @GuiGame.GameState Moves Rest → Moves.
Variable Tile_Null : Z.
Local Abbreviation state := (@GuiGame.state Moves Rest).
Local Abbreviation dispatch := (GuiGame.dispatch getMoves).
Local Abbreviation enter := (GuiGame.enterManualDistributionPhase Tile_Null).
Implicit Types (g : state) (h : FactoryDropHandler.state) (bv : BagView.state).

(** The two views as [enterManualDistributionPhase] builds them. *)
Lemma enter_views g0 g :
  enter g0 = Normal g →
  GuiGame.factoryDropHandler g
  = Some (FactoryDropHandler.setOnTileRemoved NotifyTileReturned
            (FactoryDropHandler.setOnTileDropped NotifyTilePlaced
               (FactoryDropHandler.setupDropZones
                  (regularFactoryCount (numFactories g0)) FactoryDropHandler.new)))
  ∧ GuiGame.bagView g
    = Some (BagView.setOnDistributionComplete StartRound
              (BagView.create (GuiGame.ourBag g) (tilesPerRound g0) BagView.new))
  ∧ GuiGame.manualDistributionMode g = true
  ∧ numFactories g = numFactories g0.
Proof.
  unfold GuiGame.enterManualDistributionPhase.
  destruct (GuiGame.seedOurBag Tile_Null g0) as [g1|] eqn:Hseed; [|done].
  intros [= <-]. repeat split.
  unfold numFactories. simpl.
  by rewrite refillFromDiscard_gamestate, (seedOurBag_length _ _ _ Hseed).
Qed.

Lemma supplied_step_agree g h bv ev :
  phase_inv g h bv → supplied ev g = true →
  BagView.tilesPlaced bv = FactoryDropHandler.getTotalTilesPlaced h →
  ∃ h' bv', phase_inv (dispatch ev g) h' bv'
            ∧ BagView.tilesPlaced bv' = FactoryDropHandler.getTotalTilesPlaced h'.
Proof.
  intros I Hs Hagree. destruct ev as [e id|id slotIndex|]; [| |done].
  - rewrite (dispatch_drop _ g h bv e id I). simpl in Hs.
    destruct (payloadColor e) as [c|] eqn:Hp; [|eauto].
    apply payloadColor_range in Hp.
    destruct (FactoryDropHandler.addTileToFactory id c h) as [h' [|]] eqn:E; [|eauto].
    apply addTileToFactory_true in E as (f & Hf & Hlen & ->).
    eexists _, _. split; [by apply phase_inv_placed|].
    unfold supplyCounts in Hs. rewrite (inv_bagView _ _ _ I) in Hs.
    destruct (wfCounts_lookup _ c (inv_counts _ _ _ I) Hp) as [Hlook Hpos].
    rewrite Hlook in Hs. simpl in Hs. apply Z.ltb_lt in Hs.
    rewrite (tilePlaced_positive c bv _ Hlook Hs), tilesPlaced_updateStatus. simpl.
    rewrite (getTotalTilesPlaced_insert h id f _ Hf). simpl.
    rewrite length_app. simpl. lia.
  - rewrite (dispatch_click _ g h bv id slotIndex I).
    destruct (FactoryDropHandler.factories h !! id) as [f|] eqn:Hf; [|eauto].
    destruct (FactoryDropHandler.tiles f !! slotIndex) as [color|] eqn:Hc; [|eauto].
    eexists _, _. split; [by eapply phase_inv_returned|].
    unfold BagView.tileReturned. rewrite tilesPlaced_updateStatus. simpl.
    rewrite (getTotalTilesPlaced_insert h id f _ Hf). simpl.
    pose proof (length_delete (FactoryDropHandler.tiles f) slotIndex
                  (ltac:(eauto) : is_Some (FactoryDropHandler.tiles f !! slotIndex))).
    apply lookup_lt_Some in Hc. lia.
Qed.

Lemma supplied_phase_inv g :
  supplied_phase getMoves Tile_Null g →
  ∃ h bv, phase_inv g h bv
          ∧ BagView.tilesPlaced bv = FactoryDropHandler.getTotalTilesPlaced h.
Proof.
  induction 1 as [g0 g Henter|ev g _ (h & bv & I & Hagree) Hs].
  - destruct (phase_inv_enter _ _ _ Henter) as (h & bv & I).
    destruct (enter_views _ _ Henter) as (Hh & Hbv & _).
    exists h, bv. split; [done|].
    pose proof (inv_handler _ _ _ I) as Hh'. pose proof (inv_bagView _ _ _ I) as Hbv'.
    rewrite Hh in Hh'. rewrite Hbv in Hbv'. injection Hh' as <-. injection Hbv' as <-.
    unfold FactoryDropHandler.getTotalTilesPlaced.
    rewrite factories_wired. apply eq_sym, getTotalTilesPlaced_setup.
  - by eapply supplied_step_agree.
Qed.

Lemma phase_inv_exact g h bv c :
  phase_inv g h bv →
  BagView.tilesPlaced bv = FactoryDropHandler.getTotalTilesPlaced h →
  0 ≤ c ≤ 4 →
  countColor c (GuiGame.ourBag g) = count_of (BagView.tileCounts bv) c + placedCount c h.
Proof.
  intros I Hagree Hc.
  pose proof (inv_colour _ _ _ I) as Hcol.
  pose proof (inv_placed _ _ _ I) as Hpl.
  pose proof (sum_colors_placedCount h (inv_valid _ _ _ I)) as HP.
  pose proof (Hcol 0 ltac:(lia)). pose proof (Hcol 1 ltac:(lia)).
  pose proof (Hcol 2 ltac:(lia)). pose proof (Hcol 3 ltac:(lia)).
  pose proof (Hcol 4 ltac:(lia)).
  unfold sum_colors in *.
  assert (c = 0 ∨ c = 1 ∨ c = 2 ∨ c = 3 ∨ c = 4) as Hcases by lia.
  destruct Hcases as [->|[->|[->|[->| ->]]]]; lia.
Qed.

(** X7.  While every drop is backed by the supply, the bag view and the
    handler agree: [getTilesPlaced] is the handler's [getTotalTilesPlaced],
    and for each colour the remaining count plus the tiles of that colour
    on the factories is what our bag holds. *)
Theorem supplied_phase_views_agree g :
  supplied_phase getMoves Tile_Null g →
  ∃ h bv, GuiGame.factoryDropHandler g = Some h
          ∧ GuiGame.bagView g = Some bv
          ∧ views_agree g h bv.
Proof.
  intros Hs. apply supplied_phase_inv in Hs as (h & bv & I & Hagree).
  exists h, bv. split; [apply I|]. split; [apply I|]. split; [done|].
  intros c Hc. by apply phase_inv_exact.
Qed.

(** X8.  While every drop is backed by the supply and the engine has its
    centre, the start button is enabled exactly when the handler's
    [isComplete] holds of the original pool, the remaining supply plus the
    tiles placed. *)
Theorem start_button_iff_isComplete g h bv :
  supplied_phase getMoves Tile_Null g →
  GuiGame.factoryDropHandler g = Some h →
  GuiGame.bagView g = Some bv →
  GuiGame.factory (GuiGame.gamestate g) ≠ [] →
  BagView.startRoundBtn bv = Some false
  ↔ FactoryDropHandler.isComplete
      (nadd (BagView.totalAvailable (getRemainingCounts bv)) (Num (getTilesPlaced bv))) h
    = true.
Proof.
  intros Hs Hh Hbv Hne. apply supplied_phase_inv in Hs as (h0 & bv0 & I & Hagree).
  assert (h0 = h) as -> by (pose proof (inv_handler _ _ _ I); congruence).
  assert (bv0 = bv) as -> by (pose proof (inv_bagView _ _ _ I); congruence).
  assert (0 ≤ numFactories g) as Hnf.
  { unfold numFactories. destruct (GuiGame.factory (GuiGame.gamestate g)); [done|].
    simpl length. lia. }
  pose proof (inv_counts _ _ _ I) as Hwf.
  pose proof (getTotalTilesPlaced_bound h (inv_capacity _ _ _ I)) as Hcap.
  rewrite (ids_dense_size _ _ (inv_ids _ _ _ I)) in Hcap.
  assert (0 ≤ FactoryDropHandler.getTotalTilesPlaced h) as Hpos.
  { apply (sum_with_nonneg (λ f, Z.of_nat (length (FactoryDropHandler.tiles f)))).
    intros; lia. }
  assert (0 ≤ sum_colors (count_of (BagView.tileCounts bv))) as HT.
  { destruct (wfCounts_lookup _ 0 Hwf) as [_ ?]; [lia|].
    destruct (wfCounts_lookup _ 1 Hwf) as [_ ?]; [lia|].
    destruct (wfCounts_lookup _ 2 Hwf) as [_ ?]; [lia|].
    destruct (wfCounts_lookup _ 3 Hwf) as [_ ?]; [lia|].
    destruct (wfCounts_lookup _ 4 Hwf) as [_ ?]; [lia|].
    unfold sum_colors. lia. }
  rewrite (inv_button _ _ _ I).
  unfold FactoryDropHandler.isComplete, getRemainingCounts, getTilesPlaced,
    BagView.allPlaced, BagView.remaining.
  rewrite (wfCounts_total _ Hwf), (inv_needed _ _ _ I). simpl.
  rewrite (ids_dense_size _ _ (inv_ids _ _ _ I)).
  unfold tilesPerRound, regularFactoryCount in *. rewrite Hagree.
  set (T := sum_colors (count_of (BagView.tileCounts bv))) in *.
  set (P := FactoryDropHandler.getTotalTilesPlaced h) in *.
  rewrite Z2Nat.id in * by done.
  split.
  - intros [= Hb]. apply negb_false_iff, orb_true_iff in Hb.
    apply Z.leb_le. destruct Hb as [Hb|Hb]; apply Z.eqb_eq in Hb; lia.
  - intros Hb. apply Z.leb_le in Hb. f_equal. apply negb_false_iff, orb_true_iff.
    left. apply Z.eqb_eq. lia.
Qed.

End SuppliedFacts.

(** * Starting the round, entering, restarting *)

Lemma length_remove_placed placed bag :
  (∀ c, countColor c placed ≤ countColor c bag) →
  Z.of_nat (length (foldl (λ bag tileColor, removeFirst tileColor bag) bag placed))
  = Z.of_nat (length bag) - Z.of_nat (length placed).
Proof.
  revert bag. induction placed as [|x placed IH]; intros bag Hle; simpl; [lia|].
  assert (0 < countColor x bag) as Hx.
  { specialize (Hle x). rewrite countColor_cons, decide_True in Hle by done.
    pose proof (countColor_nonneg x placed). lia. }
  rewrite IH.
  - unfold removeFirst. destruct (indexOf x bag) as [i|] eqn:Hi.
    + apply indexOf_Some in Hi.
      pose proof (length_delete bag i (ltac:(eauto) : is_Some (bag !! i))).
      apply lookup_lt_Some in Hi. lia.
    + apply indexOf_None in Hi. lia.
  - intros c. rewrite countColor_removeFirst. specialize (Hle c).
    rewrite countColor_cons in Hle.
    destruct (decide (x = c)) as [->|Hne].
    + rewrite decide_True by done. lia.
    + rewrite decide_False; [lia|]. by intros [? _].
Qed.

Lemma countColor_not_in c (l : list Z) : c ∉ l → countColor c l = 0.
Proof.
  induction l as [|x l IH]; intros Hnot; [done|].
  apply not_elem_of_cons in Hnot as [Hne Hnot].
  rewrite countColor_cons, decide_False by done. rewrite IH by done. lia.
Qed.

Lemma setup_configuration n h :
  FactoryDropHandler.getFactoryConfiguration (FactoryDropHandler.setupDropZones n h)
  = replicate n [].
Proof.
  assert (ids_dense n (FactoryDropHandler.setupDropZones n h)) as Hd.
  { intros id. rewrite setupDropZones_lookup.
    destruct (decide _); split; intros Hx; try done; eauto. }
  apply list_eq. intros i. rewrite (getFactoryConfiguration_lookup n _ i Hd).
  rewrite setupDropZones_lookup. destruct (decide (i < n)%nat).
  - rewrite decide_True by lia. simpl. by rewrite lookup_replicate_2.
  - rewrite decide_False by lia. simpl. symmetry. apply lookup_ge_None.
    rewrite length_replicate. lia.
Qed.

Section ApplyExtras.
Context {Moves Rest : Type}.
Variable getMoves : @GuiGame.GameState Moves Rest → Moves.
Variable Tile_Null : Z.
Local Abbreviation state := (@GuiGame.state Moves Rest).
Local Abbreviation dispatch := (GuiGame.dispatch getMoves).
Local Abbreviation enter := (GuiGame.enterManualDistributionPhase Tile_Null).
Local Abbreviation apply := (GuiGame.applyManualDistribution getMoves).
Implicit Types (g : state) (h : FactoryDropHandler.state) (bv : BagView.state).

(** X9.  After [applyManualDistribution] the controller is idle: the mode
    flag is off, both views are gone, the engine's bag is our bag and the
    discard pile is untouched; from there no drop, click or start-button
    event changes anything, and applying again does nothing. *)
Theorem after_apply_idle g h :
  GuiGame.factoryDropHandler g = Some h →
  GuiGame.manualDistributionMode (apply g) = false
  ∧ GuiGame.bagView (apply g) = None
  ∧ GuiGame.factoryDropHandler (apply g) = None
  ∧ GuiGame.tilebag (GuiGame.gamestate (apply g)) = GuiGame.ourBag (apply g)
  ∧ GuiGame.discardedTiles (apply g) = GuiGame.discardedTiles g
  ∧ (∀ ev, dispatch ev (apply g) = apply g)
  ∧ apply (apply g) = apply g.
Proof.
  intros Hh. unfold GuiGame.applyManualDistribution at 1 2 3 4 5 6.
  rewrite Hh. simpl. repeat split.
  - intros ev. unfold GuiGame.applyManualDistribution. rewrite Hh.
    by destruct ev.
  - unfold GuiGame.applyManualDistribution. rewrite Hh. done.
Qed.

(** X10.  While every drop is backed by the supply, starting the round
    takes exactly the placed tiles out of our bag: colour by colour, and in
    number. *)
Theorem apply_removes_placed g h :
  supplied_phase getMoves Tile_Null g →
  GuiGame.factoryDropHandler g = Some h →
  (∀ c, countColor c (GuiGame.ourBag (apply g))
        = countColor c (GuiGame.ourBag g) - countColor c (placedTiles h))
  ∧ Z.of_nat (length (GuiGame.ourBag (apply g)))
    = Z.of_nat (length (GuiGame.ourBag g)) - FactoryDropHandler.getTotalTilesPlaced h.
Proof.
  intros Hs Hh. apply supplied_phase_inv in Hs as (h0 & bv & I & Hagree).
  assert (h0 = h) as -> by (pose proof (inv_handler _ _ _ I); congruence).
  assert (∀ c, countColor c (placedTiles h) ≤ countColor c (GuiGame.ourBag g)) as Hle.
  { intros c. destruct (decide (0 ≤ c ≤ 4)) as [Hc|Hc].
    - rewrite (phase_inv_exact g h bv c I Hagree Hc), placedCount_placedTiles.
      destruct (wfCounts_lookup _ c (inv_counts _ _ _ I) Hc). lia.
    - rewrite countColor_not_in; [apply countColor_nonneg|].
      intros Hin. apply Hc.
      by apply (proj1 (Forall_forall _ _) (placedTiles_valid h (inv_valid _ _ _ I))). }
  unfold GuiGame.applyManualDistribution. rewrite Hh. simpl.
  fold (placedTiles h). split.
  - intros c. rewrite countColor_remove_placed. specialize (Hle c). lia.
  - rewrite (length_remove_placed _ _ Hle), getTotalTilesPlaced_placedTiles. done.
Qed.

(** X11.  Entering starts a fresh session whatever was there before: the
    mode flag is on, the handler has one empty factory per regular factory
    of the engine, nothing counts as placed, the counts are those of our
    bag, and the start button is enabled at once exactly when there is no
    coloured tile to place or no factory to fill.  The views and the mode
    flag of the state entered from have no influence. *)
Theorem enter_starts_fresh_session g g' :
  enter g = Normal g' →
  (∃ h bv,
     GuiGame.factoryDropHandler g' = Some h
     ∧ GuiGame.bagView g' = Some bv
     ∧ GuiGame.manualDistributionMode g' = true
     ∧ FactoryDropHandler.getFactoryConfiguration h
       = replicate (Z.to_nat (numFactories g)) []
     ∧ getTilesPlaced bv = 0
     ∧ getRemainingCounts bv = BagView.countTilesInBag (GuiGame.ourBag g')
     ∧ BagView.tilesNeeded bv = numFactories g * 4
     ∧ (BagView.startRoundBtn bv = Some false
        ↔ filter isColor (GuiGame.ourBag g') = [] ∨ numFactories g = 0))
  ∧ ∀ mode prevHandler prevView,
      enter (GuiGame.with_mode mode
               (GuiGame.with_handler prevHandler (GuiGame.with_bagView prevView g)))
      = Normal g'.
Proof.
  intros Henter. split.
  - destruct (enter_views _ _ _ Henter) as (Hh & Hbv & Hmode & Hnf).
    eexists _, _. split; [exact Hh|]. split; [exact Hbv|]. split; [done|].
    split; [apply setup_configuration|]. split; [done|]. split; [done|].
    split; [done|].
    unfold BagView.create, BagView.updateStatus. simpl.
    unfold BagView.allPlaced, BagView.remaining. simpl.
    rewrite totalAvailable_countTilesInBag, sum_colors_filter. simpl.
    unfold tilesPerRound.
    set (T := length (filter isColor (GuiGame.ourBag g'))).
    assert (filter isColor (GuiGame.ourBag g') = [] ↔ T = 0%nat) as ->
      by (subst T; by rewrite length_zero_iff_nil).
    split.
    + intros [= Hb]. apply negb_false_iff, orb_true_iff in Hb.
      destruct Hb as [Hb|Hb]; apply Z.eqb_eq in Hb; lia.
    + intros Hb. f_equal. apply negb_false_iff, orb_true_iff.
      destruct Hb as [Hb|Hb]; [right|left]; apply Z.eqb_eq; lia.
  - intros mode prevHandler prevView.
    unfold GuiGame.enterManualDistributionPhase, GuiGame.seedOurBag in *.
    destruct g as [gs m obv oh bag disc]. simpl in *.
    destruct (decide (length bag = 0%nat)).
    + destruct (GuiGame.restoreTilesToBag Tile_Null gs); [|done].
      injection Henter as <-. unfold GuiGame.refillFromDiscard. simpl.
      by destruct (_ && _).
    + injection Henter as <-. unfold GuiGame.refillFromDiscard. simpl.
      by destruct (_ && _).
Qed.

End ApplyExtras.

Lemma countColor_filter_keep (P : Z → Prop) `{∀ x, Decision (P x)} c (l : list Z) :
  P c → countColor c (filter P l) = countColor c l.
Proof.
  intros Hc. induction l as [|x l IH]; [done|]. rewrite filter_cons.
  destruct (decide (P x)) as [Hx|Hx].
  - by rewrite !countColor_cons, IH.
  - rewrite countColor_cons, IH. rewrite decide_False; [lia|]. by intros ->.
Qed.

Section RestoreExtras.
Context {Moves Rest : Type}.
Variable Tile_Null : Z.
Local Abbreviation GameState := (@GuiGame.GameState Moves Rest).
Local Abbreviation state := (@GuiGame.state Moves Rest).
Local Abbreviation enter := (GuiGame.enterManualDistributionPhase Tile_Null).
Local Abbreviation restoredOf :=
  (λ entry : option (list Z),
     filter (λ t, GuiGame.restorable Tile_Null t = true) <$> entry).
Implicit Types (gs : GameState) (g : state).

Lemma array_get_lookup {A} (arr : list (option A)) i x :
  array_get arr i = Some x → arr !! i = Some (Some x).
Proof.
  unfold array_get. destruct (arr !! i) as [[y|]|]; simpl; [|done|done].
  by intros [= ->].
Qed.

Lemma array_get_insert_ne {A} (arr : list (option A)) i j x :
  i ≠ j → array_get (<[i := x]> arr) j = array_get arr j.
Proof. intros Hne. unfold array_get. by rewrite list_lookup_insert_ne. Qed.

(** The loop from index [s] to the end of the array, when it meets no
    hole. *)
Lemma restoreLoop_seq k s gs :
  (s + k = length (GuiGame.factory gs))%nat →
  (∀ i, (s ≤ i < s + k)%nat → is_Some (array_get (GuiGame.factory gs) i)) →
  ∃ gs', GuiGame.restoreLoop Tile_Null (seq s k) gs = Normal gs'
         ∧ GuiGame.tilebag gs'
           = GuiGame.tilebag gs ++ concat (omap restoredOf (drop s (GuiGame.factory gs)))
         ∧ GuiGame.factory gs' = take s (GuiGame.factory gs) ++ replicate k (Some [])
         ∧ GuiGame.availableMoves gs' = GuiGame.availableMoves gs
         ∧ GuiGame.rest gs' = GuiGame.rest gs.
Proof.
  revert s gs. induction k as [|k IH]; intros s gs Hlen Hholes.
  - exists gs. simpl. rewrite drop_ge, take_ge by lia. simpl.
    by rewrite !app_nil_r.
  - destruct (Hholes s) as [tiles Htiles]; [lia|].
    cbn [seq GuiGame.restoreLoop]. rewrite Htiles.
    apply array_get_lookup in Htiles as Hlook.
    edestruct (IH (S s)) as (gs' & Hrun & Hbag & Hfac & Hmoves & Hrest);
      [| |exists gs'; split; [exact Hrun|]].
    + simpl. rewrite length_insert. lia.
    + intros i Hi. simpl. rewrite array_get_insert_ne by lia. apply Hholes. lia.
    + simpl in *. rewrite Hbag, Hfac, Hmoves, Hrest. repeat split.
      * rewrite drop_insert_lt by lia. rewrite (drop_S _ _ _ Hlook). simpl.
        by rewrite <-app_assoc.
      * rewrite (take_S_r _ s (Some [])).
        2:{ apply list_lookup_insert_eq. apply lookup_lt_Some in Hlook. done. }
        rewrite take_insert_ge by lia. by rewrite <-app_assoc.
Qed.

Lemma restoreLoop_seq_hole k s gs i :
  (s ≤ i < s + k)%nat → array_get (GuiGame.factory gs) i = None →
  ∃ gs', GuiGame.restoreLoop Tile_Null (seq s k) gs = Throw "TypeError" gs'.
Proof.
  revert s gs. induction k as [|k IH]; intros s gs Hi Hhole; [lia|].
  cbn [seq GuiGame.restoreLoop].
  destruct (array_get (GuiGame.factory gs) s) as [tiles|] eqn:Hs; [|eauto].
  apply IH; [|simpl].
  - assert (i ≠ s) by (intros ->; congruence). lia.
  - rewrite array_get_insert_ne; [done|]. intros ->. congruence.
Qed.

Lemma restoreTilesToBag_normal gs :
  no_holes gs →
  ∃ gs', GuiGame.restoreTilesToBag Tile_Null gs = Normal gs'
         ∧ GuiGame.tilebag gs' = GuiGame.tilebag gs ++ restoredTiles Tile_Null gs
         ∧ length (GuiGame.factory gs') = length (GuiGame.factory gs)
         ∧ array_get (GuiGame.factory gs') 0 = array_get (GuiGame.factory gs) 0
         ∧ (∀ i, (1 ≤ i < length (GuiGame.factory gs))%nat →
                 array_get (GuiGame.factory gs') i = Some [])
         ∧ GuiGame.availableMoves gs' = GuiGame.availableMoves gs
         ∧ GuiGame.rest gs' = GuiGame.rest gs.
Proof.
  intros Hholes. unfold GuiGame.restoreTilesToBag, restoredTiles.
  destruct (GuiGame.factory gs) as [|centre regular] eqn:Hfac.
  { exists gs. simpl. rewrite Hfac, app_nil_r. repeat split; intros; simpl in *; lia. }
  destruct (restoreLoop_seq (length regular) 1 gs) as (gs' & Hrun & Hbag & Hfac' & Hm & Hr).
  - rewrite Hfac. simpl. lia.
  - intros i Hi. apply Hholes. rewrite Hfac. simpl. lia.
  - exists gs'.
    replace (length (centre :: regular) - 1)%nat with (length regular) by (simpl; lia).
    split; [exact Hrun|]. rewrite Hbag, Hfac', Hfac. simpl.
    rewrite ?take_0, ?length_replicate. repeat split; try done.
    intros i Hi. unfold array_get. destruct i as [|i]; [lia|]. simpl.
    rewrite lookup_replicate_2 by lia. done.
Qed.

(** X12.  [restoreTilesToBag] on an engine whose regular factories are all
    there returns normally: the tiles of the regular factories that are
    neither [Tile.Null] nor negative are appended to the engine's bag in
    factory order, every regular factory is left empty, and the centre, the
    length of the array and the rest of the engine are untouched.  A hole
    among the regular factories makes it throw. *)
Theorem restoreTilesToBag_moves_tiles gs :
  (no_holes gs →
   ∃ gs', GuiGame.restoreTilesToBag Tile_Null gs = Normal gs'
          ∧ GuiGame.tilebag gs' = GuiGame.tilebag gs ++ restoredTiles Tile_Null gs
          ∧ length (GuiGame.factory gs') = length (GuiGame.factory gs)
          ∧ array_get (GuiGame.factory gs') 0 = array_get (GuiGame.factory gs) 0
          ∧ (∀ i, (1 ≤ i < length (GuiGame.factory gs))%nat →
                  array_get (GuiGame.factory gs') i = Some [])
          ∧ GuiGame.availableMoves gs' = GuiGame.availableMoves gs
          ∧ GuiGame.rest gs' = GuiGame.rest gs)
  ∧ (∀ i, (1 ≤ i < length (GuiGame.factory gs))%nat →
          array_get (GuiGame.factory gs) i = None →
          ∃ gs', GuiGame.restoreTilesToBag Tile_Null gs = Throw "TypeError" gs').
Proof.
  split; [apply restoreTilesToBag_normal|].
  intros i Hi Hhole. unfold GuiGame.restoreTilesToBag.
  apply (restoreLoop_seq_hole _ _ _ i); [lia|done].
Qed.

Lemma restorable_color c : 0 ≤ c → c ≠ Tile_Null → GuiGame.restorable Tile_Null c = true.
Proof.
  intros Hc Hne. unfold GuiGame.restorable.
  rewrite bool_decide_eq_false_2 by done. simpl. by apply Z.leb_le.
Qed.

Lemma countColor_restored c (entries : list (option (list Z))) :
  0 ≤ c → c ≠ Tile_Null →
  countColor c (concat (omap restoredOf entries))
  = countColor c (concat (omap id entries)).
Proof.
  intros Hc Hne. induction entries as [|[tiles|] entries IH]; [done| |exact IH].
  simpl. rewrite !countColor_app. f_equal; [|exact IH].
  apply (countColor_filter_keep (λ t, GuiGame.restorable Tile_Null t = true)).
  by apply restorable_color.
Qed.

(** X13.  First-round seeding keeps every coloured tile: entering with an
    empty bag and an empty discard pile, on an engine whose regular
    factories are all there, makes our bag the engine's bag followed by the
    tiles of the regular factories, leaves the engine with that same bag
    and empty regular factories, and presents for each colour (other than
    [Tile.Null]) the number of such tiles the engine had in its bag and on
    its regular factories together. *)
Theorem first_round_seeding g :
  GuiGame.ourBag g = [] →
  GuiGame.discardedTiles g = [] →
  no_holes (GuiGame.gamestate g) →
  ∃ g' bv,
    enter g = Normal g'
    ∧ GuiGame.ourBag g'
      = GuiGame.tilebag (GuiGame.gamestate g) ++ restoredTiles Tile_Null (GuiGame.gamestate g)
    ∧ GuiGame.tilebag (GuiGame.gamestate g') = GuiGame.ourBag g'
    ∧ GuiGame.discardedTiles g' = []
    ∧ (∀ i, (1 ≤ i < length (GuiGame.factory (GuiGame.gamestate g)))%nat →
            array_get (GuiGame.factory (GuiGame.gamestate g')) i = Some [])
    ∧ GuiGame.bagView g' = Some bv
    ∧ (∀ c, 0 ≤ c ≤ 4 → c ≠ Tile_Null →
         getRemainingCounts bv !! c
         = Some (Num (countColor c (GuiGame.tilebag (GuiGame.gamestate g))
                      + countColor c (concat (omap id
                          (drop 1 (GuiGame.factory (GuiGame.gamestate g)))))))).
Proof.
  intros Hbag Hdisc Hholes.
  destruct (restoreTilesToBag_normal (GuiGame.gamestate g) Hholes)
    as (gs' & Hrun & Htb & Hlen & Hcentre & Hempty & Hm & Hr).
  unfold GuiGame.enterManualDistributionPhase, GuiGame.seedOurBag.
  rewrite Hbag. simpl. rewrite Hrun, Hdisc.
  unfold GuiGame.refillFromDiscard. simpl. rewrite andb_false_r. simpl.
  eexists _, _. split; [reflexivity|]. simpl. repeat split; try done.
  intros c Hc Hne. unfold getRemainingCounts.
  change (BagView.tileCounts (BagView.setOnDistributionComplete _ (BagView.create ?l _ _)))
    with (BagView.countTilesInBag l).
  rewrite countTilesInBag_lookup, decide_True by done.
  rewrite Htb, countColor_app. unfold restoredTiles.
  rewrite countColor_restored by (lia || done). done.
Qed.

(** The tail [replay] and [rematch] share: with the bag and the pile
    emptied, entering from an engine state reaches a state that engine
    state alone decides. *)
Lemma enter_emptied (gs : GameState) g g' :
  enter (GuiGame.with_bags [] [] (GuiGame.with_gamestate gs g)) = Normal g' →
  (∀ g2, enter (GuiGame.with_bags [] [] (GuiGame.with_gamestate gs g2)) = Normal g')
  ∧ GuiGame.discardedTiles g' = []
  ∧ GuiGame.ourBag g' = GuiGame.tilebag (GuiGame.gamestate g')
  ∧ (no_holes gs →
     GuiGame.ourBag g' = GuiGame.tilebag gs ++ restoredTiles Tile_Null gs).
Proof.
  intros Hre.
  unfold GuiGame.enterManualDistributionPhase, GuiGame.seedOurBag in *.
  simpl in *.
  destruct (GuiGame.restoreTilesToBag Tile_Null gs) as [gs1|] eqn:Hrun; [|done].
  unfold GuiGame.refillFromDiscard in *. simpl in *. rewrite andb_false_r in *.
  simpl in *. injection Hre as <-. simpl.
  split; [done|]. split; [done|]. split; [done|].
  intros Hholes.
  destruct (restoreTilesToBag_normal gs Hholes) as (gs' & Hrun' & Htb & _).
  rewrite Hrun in Hrun'. by injection Hrun' as ->.
Qed.

End RestoreExtras.

Section RestartExtras.
Context {Moves Rest Seed : Type}.
Variable Tile_Null : Z.
Variable seed : @GuiGame.GameState Moves Rest → Seed.
Variable set_seed : Seed → @GuiGame.GameState Moves Rest → @GuiGame.GameState Moves Rest.
Variable newGame : nat → @GuiGame.GameState Moves Rest → @GuiGame.GameState Moves Rest.
Local Abbreviation GameState := (@GuiGame.GameState Moves Rest).
Local Abbreviation state := (@GuiGame.state Moves Rest).
Local Abbreviation replayed := (replay Tile_Null seed set_seed newGame).
Local Abbreviation rematched := (rematch Tile_Null newGame).

(** X14.  [replay] and [rematch] carry nothing of the old game's supply
    over.  Of the old state [replay] keeps the engine's seed and nothing
    else: from any old state of the same seed it reaches the same state.
    [rematch] keeps nothing at all.  Either way the discard pile is empty
    and our bag is the engine's bag, seeded from the game the engine
    started: from the new engine state given the old seed for [replay],
    from the new engine state as constructed for [rematch]. *)
Theorem restart_forgets_supply (fresh : GameState) (players : list Player) g :
  (∀ g', replayed fresh players g = Normal g' →
     let started := newGame (length players)
                      (set_seed (seed (GuiGame.gamestate g)) fresh) in
     (∀ g2, seed (GuiGame.gamestate g2) = seed (GuiGame.gamestate g) →
            replayed fresh players g2 = Normal g')
     ∧ GuiGame.discardedTiles g' = []
     ∧ GuiGame.ourBag g' = GuiGame.tilebag (GuiGame.gamestate g')
     ∧ (no_holes started →
        GuiGame.ourBag g' = GuiGame.tilebag started ++ restoredTiles Tile_Null started))
  ∧ (∀ g', rematched fresh players g = Normal g' →
     let started := newGame (length players) fresh in
     (∀ g2, rematched fresh players g2 = Normal g')
     ∧ GuiGame.discardedTiles g' = []
     ∧ GuiGame.ourBag g' = GuiGame.tilebag (GuiGame.gamestate g')
     ∧ (no_holes started →
        GuiGame.ourBag g' = GuiGame.tilebag started ++ restoredTiles Tile_Null started)).
Proof.
  split; intros g' Hre started.
  - unfold replay in Hre. cbv zeta in Hre. fold started in Hre.
    destruct (enter_emptied Tile_Null started g g' Hre) as (Hany & Hrest).
    split; [|exact Hrest].
    intros g2 Hseed. unfold replay. cbv zeta. rewrite Hseed.
    apply Hany.
  - unfold rematch in Hre. cbv zeta in Hre. fold started in Hre.
    destruct (enter_emptied Tile_Null started g g' Hre) as (Hany & Hrest).
    split; [|exact Hrest].
    intros g2. unfold rematch. cbv zeta. apply Hany.
Qed.

End RestartExtras.

(** * The mode flag, and ordinary play *)

Section ModeExtras.
Context {Moves Rest : Type}.
Variable getMoves : @GuiGame.GameState Moves Rest → Moves.
Variable Tile_Null : Z.
Local Abbreviation state := (@GuiGame.state Moves Rest).
Local Abbreviation dispatch := (GuiGame.dispatch getMoves).
Implicit Types (g : state).

Lemma factory_event_keeps g h bv ev :
  phase_inv g h bv →
  match ev with GuiGame.StartRoundClick => False | _ => True end →
  GuiGame.gamestate (dispatch ev g) = GuiGame.gamestate g
  ∧ GuiGame.ourBag (dispatch ev g) = GuiGame.ourBag g
  ∧ GuiGame.discardedTiles (dispatch ev g) = GuiGame.discardedTiles g
  ∧ GuiGame.manualDistributionMode (dispatch ev g) = GuiGame.manualDistributionMode g.
Proof.
  intros I Hev. destruct ev as [e id|id slotIndex|]; [| |done].
  - rewrite (dispatch_drop _ g h bv e id I).
    destruct (payloadColor e) as [c|]; [|done].
    by destruct (FactoryDropHandler.addTileToFactory id c h) as [h' [|]].
  - rewrite (dispatch_click _ g h bv id slotIndex I).
    destruct (FactoryDropHandler.factories h !! id) as [f|]; [|done].
    by destruct (FactoryDropHandler.tiles f !! slotIndex).
Qed.

(** X15.  Throughout a distribution phase the mode flag is on (so that
    [screen_click_callback] returns at once), and drops and clicks on the
    factories touch neither the engine state, nor our bag, nor the discard
    pile: only the two views change before the round is started. *)
Theorem phase_leaves_engine_alone g :
  distributing getMoves Tile_Null g →
  GuiGame.manualDistributionMode g = true
  ∧ ∀ ev, match ev with GuiGame.StartRoundClick => False | _ => True end →
      GuiGame.gamestate (dispatch ev g) = GuiGame.gamestate g
      ∧ GuiGame.ourBag (dispatch ev g) = GuiGame.ourBag g
      ∧ GuiGame.discardedTiles (dispatch ev g) = GuiGame.discardedTiles g.
Proof.
  intros Hd.
  assert (GuiGame.manualDistributionMode g = true) as Hmode.
  { induction Hd as [g0 g Henter|e id g Hd IH|id slotIndex g Hd IH].
    - by destruct (enter_views _ _ _ Henter) as (_ & _ & ? & _).
    - destruct (distributing_inv _ _ _ Hd) as (h & bv & I).
      by rewrite (proj2 (proj2 (proj2
           (factory_event_keeps g h bv (GuiGame.DropOn e id) I Logic.I)))).
    - destruct (distributing_inv _ _ _ Hd) as (h & bv & I).
      by rewrite (proj2 (proj2 (proj2
           (factory_event_keeps g h bv (GuiGame.TileClick id slotIndex) I Logic.I)))). }
  split; [done|]. intros ev Hev.
  destruct (distributing_inv _ _ _ Hd) as (h & bv & I).
  destruct (factory_event_keeps g h bv ev I Hev) as (? & ? & ? & _). done.
Qed.

End ModeExtras.

Lemma filter_singleton_unique {A} (P : A → Prop) `{∀ x, Decision (P x)}
    (l : list A) (x : A) i j y z :
  filter P l = [x] → l !! i = Some y → l !! j = Some z → P y → P z →
  i = j ∧ y = x.
Proof.
  revert i j. induction l as [|a l IH]; intros i j Hfil Hi Hj Hy Hz; [done|].
  rewrite filter_cons in Hfil. destruct (decide (P a)) as [Ha|Ha].
  - injection Hfil as -> Hnil.
    assert (∀ k w, l !! k = Some w → ¬ P w) as Hnone.
    { intros k w Hk Hw.
      assert (w ∈ filter P l) as Hin
        by (apply list_elem_of_filter; split; [done|by eapply list_elem_of_lookup_2]).
      rewrite Hnil in Hin. by apply elem_of_nil in Hin. }
    destruct i as [|i]; destruct j as [|j]; simpl in *.
    + by injection Hi as ->.
    + by destruct (Hnone j z Hj).
    + by destruct (Hnone i y Hi).
    + by destruct (Hnone i y Hi).
  - destruct i as [|i]; [simpl in Hi; by injection Hi as ->|].
    destruct j as [|j]; [simpl in Hj; by injection Hj as ->|].
    simpl in *. destruct (IH i j Hfil Hi Hj Hy Hz) as [-> ->]. done.
Qed.

Section PlayExtras.
Context {Move Rest : Type}.
Variables move_factory move_tile move_line move_player : Move → Z.
Variable Tile_Null : Z.
Variable activePlayer : @GuiGame.GameState (list Move) Rest → nat.
Variable playMove :
  option Move → @GuiGame.GameState (list Move) Rest → @GuiGame.GameState (list Move) Rest.
Variable nextTurn :
  @GuiGame.GameState (list Move) Rest → @GuiGame.GameState (list Move) Rest.
Local Abbreviation state := (@Play.state Move Rest).
Local Abbreviation matches := (Play.matches move_factory move_tile move_line move_player).
Local Abbreviation check_move :=
  (Play.check_move move_factory move_tile move_line move_player).
Local Abbreviation factory_tile_callback :=
  (Play.factory_tile_callback move_factory move_tile move_line Tile_Null activePlayer).
Local Abbreviation line_click_callback :=
  (Play.line_click_callback move_factory move_tile move_line move_player Tile_Null
     activePlayer playMove nextTurn).
Implicit Types (s : state) (m : Move).

Lemma matches_fields player tile factory line m :
  matches player tile factory line m = true
  ↔ factory = Num (move_factory m) ∧ tile = Num (move_tile m)
    ∧ line = Num (move_line m) ∧ move_player m = player.
Proof.
  unfold Play.matches, num_eq. rewrite !andb_true_iff, bool_decide_eq_true.
  destruct factory, tile, line; simpl; rewrite ?bool_decide_eq_true;
    split; try (intros [[[? ?] ?] ?]; by subst); intros (? & ? & ? & ?);
    simplify_eq; done.
Qed.

(** X16.  [check_move] returns a move only when exactly one entry of the
    engine's available moves has the requested player, tile, factory and
    line, and then returns that entry; with no such entry or with several
    it returns [undefined] (nothing is thrown). *)
Theorem check_move_unique player tile factory line s :
  (∀ m, check_move player tile factory line s = Some m →
     m ∈ Play.availableMoves s
     ∧ factory = Num (move_factory m) ∧ tile = Num (move_tile m)
     ∧ line = Num (move_line m) ∧ move_player m = player
     ∧ ∀ i j m1 m2,
         Play.availableMoves s !! i = Some m1 →
         Play.availableMoves s !! j = Some m2 →
         matches player tile factory line m1 = true →
         matches player tile factory line m2 = true →
         i = j ∧ m1 = m)
  ∧ (check_move player tile factory line s = None
     ↔ length (filter (λ m, matches player tile factory line m = true)
                      (Play.availableMoves s)) ≠ 1%nat).
Proof.
  unfold Play.check_move. split.
  - intros m Hm.
    destruct (filter _ (Play.availableMoves s)) as [|m0 [|m1 rest]] eqn:Hfil;
      [done| |done].
    injection Hm as ->.
    assert (m ∈ filter (λ m, matches player tile factory line m = true)
                       (Play.availableMoves s)) as Hin by (rewrite Hfil; left).
    apply list_elem_of_filter in Hin as [Hmatch Hin].
    split; [done|]. apply matches_fields in Hmatch as (? & ? & ? & ?).
    repeat (split; [done|]).
    intros i j m1 m2 Hi Hj Hm1 Hm2.
    by eapply (filter_singleton_unique
                 (λ m, matches player tile factory line m = true)).
  - destruct (filter _ (Play.availableMoves s)) as [|m0 [|m1 rest]]; simpl;
      split; (done || lia).
Qed.

(** X17.  On a human's turn [factory_tile_callback] stops the propagation
    of the click, so that its body is all the click does: the selection
    records the tile and the factory, the possible lines are exactly the
    lines of the available moves that take that tile from that factory,
    and the engine state is untouched.  (On an AI's turn the callback
    returns at once and leaves the click to [screen_click_callback].) *)
Theorem factory_tile_callback_selects s active tile_str factory_attr :
  Play.get_active_player activePlayer s = Some active →
  player_type active = HUMAN →
  ∃ s', factory_tile_callback (Some tile_str) factory_attr s = Normal s'
        ∧ Play.game s' = Play.game s
        ∧ Play.players s' = Play.players s
        ∧ Play.selected_tile s' = parseInt tile_str
        ∧ Play.selected_factory s'
          = match factory_attr with Some a => parseInt a | None => NaN end
        ∧ ∀ line, line ∈ Play.possible_lines s'
            ↔ ∃ m, m ∈ Play.availableMoves s
                   ∧ Play.selected_factory s' = Num (move_factory m)
                   ∧ Play.selected_tile s' = Num (move_tile m)
                   ∧ move_line m = line.
Proof.
  intros Hactive Hhuman. unfold Play.factory_tile_callback. rewrite Hactive.
  rewrite decide_False by (by rewrite Hhuman; intros ?).
  eexists. split; [reflexivity|]. simpl. repeat (split; [done|]).
  intros line. rewrite list_elem_of_fmap. split.
  - intros (m & -> & Hin). apply list_elem_of_filter in Hin as [Hm Hin].
    apply andb_true_iff in Hm as [Hf Ht]. exists m. split; [done|].
    unfold num_eq in *.
    destruct (match factory_attr with Some a => parseInt a | None => NaN end);
      [|done].
    destruct (parseInt tile_str); [|done].
    apply bool_decide_eq_true in Hf, Ht. by subst.
  - intros (m & Hin & Hf & Ht & <-). exists m. split; [done|].
    apply list_elem_of_filter. split; [|done].
    rewrite Hf, Ht. simpl. by rewrite !bool_decide_eq_true_2.
Qed.

(** X18.  Selecting a tile and then clicking a line plays the one legal
    move: when exactly one available move has the active human's id, the
    selected tile and factory and the clicked line, that move is handed to
    the engine, the turn is advanced and the selection is cleared. *)
Theorem select_then_line_plays_move s active tile_str factory_attr line_attr m :
  Play.get_active_player activePlayer s = Some active →
  player_type active = HUMAN →
  parseInt tile_str = Num (move_tile m) →
  parseInt factory_attr = Num (move_factory m) →
  parseInt line_attr = Num (move_line m) →
  move_factory m ≠ -1 →
  move_tile m ≠ Tile_Null →
  filter (λ m', matches (player_id active) (Num (move_tile m)) (Num (move_factory m))
                  (Num (move_line m)) m' = true)
         (Play.availableMoves s) = [m] →
  ∃ s1 s2,
    factory_tile_callback (Some tile_str) (Some factory_attr) s = Normal s1
    ∧ line_click_callback (Some line_attr) s1 = Normal s2
    ∧ GuiGame.gamestate (Play.game s2)
      = nextTurn (playMove (Some m) (GuiGame.gamestate (Play.game s)))
    ∧ Play.selected_tile s2 = Num Tile_Null
    ∧ Play.selected_factory s2 = Num (-1)
    ∧ Play.possible_lines s2 = [].
Proof.
  intros Hactive Hhuman Htile Hfac Hline Hf Ht Hunique.
  assert (m ∈ Play.availableMoves s ∧ move_player m = player_id active) as [Hin Hpl].
  { assert (m ∈ filter (λ m', matches (player_id active) (Num (move_tile m))
                 (Num (move_factory m)) (Num (move_line m)) m' = true)
              (Play.availableMoves s)) as Hm by (rewrite Hunique; left).
    apply list_elem_of_filter in Hm as [Hm ?].
    by apply matches_fields in Hm as (_ & _ & _ & ?). }
  unfold Play.factory_tile_callback. rewrite Hactive.
  rewrite decide_False by (by rewrite Hhuman; intros ?).
  rewrite Htile, Hfac. eexists _, _. split; [reflexivity|].
  unfold Play.line_click_callback, Play.get_active_player in *. simpl.
  rewrite Hactive. rewrite decide_False by (by rewrite Hhuman; intros ?).
  unfold Play.num_ne, num_eq.
  rewrite !bool_decide_eq_false_2 by done. simpl.
  rewrite Hline. simpl.
  rewrite bool_decide_eq_true_2.
  2:{ apply list_elem_of_fmap. exists m. split; [done|].
      apply list_elem_of_filter. split; [|done].
      unfold num_eq. by rewrite !bool_decide_eq_true_2. }
  unfold Play.check_move, Play.availableMoves in *. simpl. rewrite Hunique.
  split; [reflexivity|]. done.
Qed.

(** X19.  On a human's turn [line_click_callback] stops the propagation of
    the click, so that its body is all the click does; it then returns
    normally, and it reaches the engine only with a factory and a tile
    selected and a line among the possible ones.  With no factory or no
    tile selected the selection is cleared, with a line that is not
    possible nothing changes; in each of these cases the engine state
    stays as it was. *)
Theorem line_click_without_move s active line_attr :
  Play.get_active_player activePlayer s = Some active →
  player_type active = HUMAN →
  (Play.selected_factory s = Num (-1) ∨ Play.selected_tile s = Num Tile_Null →
   line_click_callback line_attr s = Normal (Play.clear_selected Tile_Null s))
  ∧ (Play.includes (Play.possible_lines s)
       (match line_attr with Some a => parseInt a | None => NaN end) = false →
     ∃ s', line_click_callback line_attr s = Normal s'
           ∧ (s' = s ∨ s' = Play.clear_selected Tile_Null s)
           ∧ Play.game s' = Play.game s).
Proof.
  intros Hactive Hhuman. unfold Play.line_click_callback. rewrite Hactive.
  rewrite decide_False by (by rewrite Hhuman; intros ?). split.
  - intros [Hcase|Hcase]; rewrite Hcase; unfold Play.num_ne, num_eq.
    + by rewrite bool_decide_eq_true_2.
    + rewrite (bool_decide_eq_true_2 (Tile_Null = Tile_Null)) by done.
      by rewrite andb_false_r.
  - intros Hcase. rewrite Hcase. destruct (_ && _); eauto.
Qed.

End PlayExtras.

Section GateExtras.
Context {Moves Rest : Type}.
Variable getMoves : @GuiGame.GameState Moves Rest → Moves.
Variable Tile_Null : Z.
Local Abbreviation state := (@GuiGame.state Moves Rest).
Local Abbreviation dispatch := (GuiGame.dispatch getMoves).
Implicit Types (g : state) (h : FactoryDropHandler.state) (bv : BagView.state).

(** X20.  The gate of the bag view: in a distribution phase, the drag of a
    bag tile is prevented exactly when the count of its colour is zero, and
    a drag that starts carries a payload that [handleDrop] reads back as
    that colour, of which the supply has a tile: a drop that ends it is
    backed by the supply. *)
Theorem drag_start_gate g bv c :
  distributing getMoves Tile_Null g →
  GuiGame.bagView g = Some bv →
  0 ≤ c ≤ 4 →
  (BagView.handleDragStart c bv = None ↔ BagView.tileCounts bv !! c = Some (Num 0))
  ∧ ∀ payload id,
      BagView.handleDragStart c bv = Some payload →
      payloadColor (dropOf payload) = Some c
      ∧ supplied (GuiGame.DropOn (dropOf payload) id) g = true.
Proof.
  intros Hd Hbv Hc. apply distributing_inv in Hd as (h & bv0 & I).
  assert (bv0 = bv) as -> by (pose proof (inv_bagView _ _ _ I); congruence).
  pose proof (inv_counts _ _ _ I) as Hwf.
  destruct (wfCounts_lookup _ c Hwf Hc) as [Hlook Hnn]. split.
  - unfold BagView.handleDragStart. rewrite Hlook.
    destruct (Z.leb_spec (count_of (BagView.tileCounts bv) c) 0); split; try done.
    + intros _. do 2 f_equal. lia.
    + intros [= Hz]. lia.
  - intros payload id Hstart.
    destruct (handleDragStart_supplied c bv payload Hwf Hc Hstart) as [Hp Hpos].
    split; [done|]. simpl. rewrite Hp. unfold supplyCounts. by rewrite Hbv.
Qed.

(** X21.  A disabled handler is inert: whatever drops and clicks arrive,
    no tile is placed or removed, no callback runs and the controller
    stays as it is. *)
Theorem disabled_handler_inert g h (evs : list GuiGame.Event) :
  GuiGame.factoryDropHandler g = Some h →
  FactoryDropHandler.enabled h = false →
  Forall (λ ev, ev ≠ GuiGame.StartRoundClick) evs →
  run getMoves evs g = g
  ∧ ∀ e id slotIndex,
      FactoryDropHandler.handleDrop e id h = (h, [])
      ∧ FactoryDropHandler.handleTileClick id slotIndex h = (h, []).
Proof.
  intros Hh He Hevs.
  assert (∀ e id slotIndex,
      FactoryDropHandler.handleDrop e id h = (h, [])
      ∧ FactoryDropHandler.handleTileClick id slotIndex h = (h, [])) as Hinert.
  { intros e id slotIndex.
    unfold FactoryDropHandler.handleDrop, FactoryDropHandler.handleTileClick.
    by rewrite He. }
  split; [|done]. unfold run.
  induction Hevs as [|ev evs Hev _ IH]; [done|]. simpl.
  assert (dispatch ev g = g) as ->; [|done].
  destruct ev as [e id|id slotIndex|]; [| |done].
  - eapply dispatch_drop_rejected; [done|]. apply (Hinert e id 0%nat).
  - unfold GuiGame.dispatch. rewrite Hh.
    rewrite (proj2 (Hinert {| dataTransfer := None |} id slotIndex)). simpl.
    by apply with_handler_id.
Qed.

End GateExtras.

(** * The further properties at concrete states *)

Lemma ex_entered_supplied : supplied_phase ex_getMoves (-1) ex_entered.
Proof. apply (supplied_enter _ _ ex_start). vm_compute. reflexivity. Qed.

Lemma ex_filled_supplied : supplied_phase ex_getMoves (-1) ex_filled.
Proof.
  unfold ex_filled, run. cbn [foldl].
  do 4 (apply supplied_event; [|vm_compute; reflexivity]).
  apply ex_entered_supplied.
Qed.

Lemma ex_start_no_holes : no_holes (GuiGame.gamestate ex_start).
Proof.
  intros i Hi. simpl in Hi. assert (i = 1%nat) as -> by lia. vm_compute. eauto.
Qed.

Lemma invalid_click_ignored_witness :
  GuiGame.dispatch ex_getMoves (GuiGame.TileClick 1 4) ex_filled = ex_filled
  ∧ GuiGame.dispatch ex_getMoves (GuiGame.TileClick 9 0) ex_filled = ex_filled.
Proof.
  assert (∃ h, GuiGame.factoryDropHandler ex_filled = Some h
               ∧ (∀ f, FactoryDropHandler.factories h !! 1%nat = Some f →
                       (length (FactoryDropHandler.tiles f) ≤ 4)%nat)
               ∧ (∀ f, FactoryDropHandler.factories h !! 9%nat = Some f →
                       (length (FactoryDropHandler.tiles f) ≤ 0)%nat))
    as (h & Hh & H1 & H9).
  { eexists. split; [vm_compute; reflexivity|]. split.
    - intros f Hf. vm_compute in Hf. injection Hf as <-. simpl. lia.
    - intros f Hf. vm_compute in Hf. discriminate. }
  split.
  - apply (proj2 (invalid_click_ignored ex_getMoves ex_filled h 1 4 Hh H1)).
  - apply (proj2 (invalid_click_ignored ex_getMoves ex_filled h 9 0 Hh H9)).
Defined.

Lemma remove_last_then_place_restores_witness :
  GuiGame.dispatch ex_getMoves (GuiGame.DropOn (dropOf "1") 1)
    (GuiGame.dispatch ex_getMoves (GuiGame.TileClick 1 3) ex_filled)
  = ex_filled.
Proof.
  assert (∃ h f, GuiGame.factoryDropHandler ex_filled = Some h
                 ∧ FactoryDropHandler.factories h !! 1%nat = Some f
                 ∧ FactoryDropHandler.tiles f = [1; 1; 1] ++ [1])
    as (h & f & Hh & Hf & Htiles).
  { eexists _, _. split; [vm_compute; reflexivity|]. split; vm_compute; reflexivity. }
  apply (remove_last_then_place_restores ex_getMoves (-1) ex_filled h (dropOf "1")
           1 1 f [1; 1; 1] ex_filled_distributing Hh Hf Htiles eq_refl).
Defined.

Lemma supplied_phase_views_agree_witness :
  ∃ h bv, GuiGame.factoryDropHandler ex_filled = Some h
          ∧ GuiGame.bagView ex_filled = Some bv
          ∧ getTilesPlaced bv = 4
          ∧ FactoryDropHandler.getTotalTilesPlaced h = 4.
Proof.
  destruct (supplied_phase_views_agree ex_getMoves (-1) ex_filled ex_filled_supplied)
    as (h & bv & Hh & Hbv & Hplaced & _).
  exists h, bv. split; [done|]. split; [done|].
  assert (getTilesPlaced bv = 4) as Hfour.
  { vm_compute in Hbv. injection Hbv as <-. reflexivity. }
  split; [done|]. by rewrite <-Hplaced.
Defined.

Lemma start_button_iff_isComplete_witness :
  ∃ h bv, GuiGame.factoryDropHandler ex_filled = Some h
          ∧ GuiGame.bagView ex_filled = Some bv
          ∧ BagView.startRoundBtn bv = Some false
          ∧ FactoryDropHandler.isComplete (Num 8) h = true.
Proof.
  assert (∃ h bv, GuiGame.factoryDropHandler ex_filled = Some h
                  ∧ GuiGame.bagView ex_filled = Some bv
                  ∧ BagView.startRoundBtn bv = Some false
                  ∧ nadd (BagView.totalAvailable (getRemainingCounts bv))
                         (Num (getTilesPlaced bv)) = Num 8)
    as (h & bv & Hh & Hbv & Hbtn & Hpool).
  { eexists _, _. split; [vm_compute; reflexivity|]. split; [reflexivity|].
    split; vm_compute; reflexivity. }
  exists h, bv. repeat (split; [done|]). rewrite <-Hpool.
  apply (start_button_iff_isComplete ex_getMoves (-1) ex_filled h bv
           ex_filled_supplied Hh Hbv); [|done].
  vm_compute. discriminate.
Defined.

Lemma after_apply_idle_witness :
  GuiGame.manualDistributionMode (GuiGame.applyManualDistribution ex_getMoves ex_filled)
  = false
  ∧ GuiGame.dispatch ex_getMoves (GuiGame.DropOn (dropOf "1") 1)
      (GuiGame.applyManualDistribution ex_getMoves ex_filled)
    = GuiGame.applyManualDistribution ex_getMoves ex_filled.
Proof.
  assert (∃ h, GuiGame.factoryDropHandler ex_filled = Some h) as [h Hh].
  { eexists. vm_compute. reflexivity. }
  destruct (after_apply_idle ex_getMoves ex_filled h Hh)
    as (Hmode & _ & _ & _ & _ & Hev & _).
  split; [done|]. apply Hev.
Defined.

Lemma apply_removes_placed_witness :
  Z.of_nat (length (GuiGame.ourBag (GuiGame.applyManualDistribution ex_getMoves ex_filled)))
  = 8 - 4.
Proof.
  assert (∃ h, GuiGame.factoryDropHandler ex_filled = Some h
               ∧ FactoryDropHandler.getTotalTilesPlaced h = 4) as (h & Hh & Hfour).
  { eexists. split; vm_compute; reflexivity. }
  rewrite (proj2 (apply_removes_placed ex_getMoves (-1) ex_filled h
                    ex_filled_supplied Hh)), Hfour.
  reflexivity.
Defined.

Lemma enter_starts_fresh_session_witness :
  ∃ h bv, GuiGame.factoryDropHandler ex_entered = Some h
          ∧ GuiGame.bagView ex_entered = Some bv
          ∧ FactoryDropHandler.getFactoryConfiguration h = [[]]
          ∧ BagView.tilesNeeded bv = 4.
Proof.
  destruct (proj1 (enter_starts_fresh_session (-1) ex_start ex_entered
                     ltac:(vm_compute; reflexivity)))
    as (h & bv & Hh & Hbv & _ & Hcfg & _ & _ & Hneeded & _).
  exists h, bv. repeat (split; [done|]). done.
Defined.

Lemma restoreTilesToBag_moves_tiles_witness :
  ∃ gs', GuiGame.restoreTilesToBag (-1) (GuiGame.gamestate ex_start) = Normal gs'
         ∧ GuiGame.tilebag gs' = [1; 1; 1; 1; 1; 1; 1; 1]
         ∧ array_get (GuiGame.factory gs') 0 = Some [5].
Proof.
  destruct (proj1 (restoreTilesToBag_moves_tiles (-1) (GuiGame.gamestate ex_start))
              ex_start_no_holes)
    as (gs' & Hrun & Hbag & _ & Hcentre & _).
  exists gs'. split; [done|]. split; [by rewrite Hbag|by rewrite Hcentre].
Defined.

Lemma first_round_seeding_witness :
  ∃ g', GuiGame.enterManualDistributionPhase (-1) ex_start = Normal g'
        ∧ GuiGame.ourBag g' = [1; 1; 1; 1; 1; 1; 1; 1]
        ∧ GuiGame.tilebag (GuiGame.gamestate g') = GuiGame.ourBag g'.
Proof.
  destruct (first_round_seeding (-1) ex_start eq_refl eq_refl ex_start_no_holes)
    as (g' & bv & Henter & Hbag & Htb & _).
  exists g'. split; [done|]. split; [by rewrite Hbag|done].
Defined.

Lemma restart_forgets_supply_witness :
  ∃ g1 g2,
    replay (-1) ex_seed ex_set_seed ex_newGame ex_fresh ex_players ex_old = Normal g1
    ∧ replay (-1) ex_seed ex_set_seed ex_newGame ex_fresh ex_players ex_old' = Normal g1
    ∧ rematch (-1) ex_newGame ex_fresh ex_players ex_old = Normal g2
    ∧ rematch (-1) ex_newGame ex_fresh ex_players ex_old' = Normal g2
    ∧ GuiGame.discardedTiles g1 = [] ∧ GuiGame.discardedTiles g2 = []
    ∧ GuiGame.ourBag g1 = replicate 22 2
    ∧ GuiGame.ourBag g2 = replicate 22 3.
Proof.
  assert (∃ g1 g2,
    replay (-1) ex_seed ex_set_seed ex_newGame ex_fresh ex_players ex_old = Normal g1
    ∧ rematch (-1) ex_newGame ex_fresh ex_players ex_old = Normal g2
    ∧ GuiGame.ourBag g1 = replicate 22 2
    ∧ GuiGame.ourBag g2 = replicate 22 3) as (g1 & g2 & H1 & H2 & Hb1 & Hb2).
  { eexists _, _. split; [vm_compute; reflexivity|]. split; [vm_compute; reflexivity|].
    split; vm_compute; reflexivity. }
  destruct (restart_forgets_supply (-1) ex_seed ex_set_seed ex_newGame
              ex_fresh ex_players ex_old) as [Hreplay Hrematch].
  destruct (Hreplay g1 H1) as (Hany1 & Hd1 & _).
  destruct (Hrematch g2 H2) as (Hany2 & Hd2 & _).
  exists g1, g2. split; [done|]. split; [by apply Hany1|]. split; [done|].
  split; [apply Hany2|]. done.
Defined.

Lemma phase_leaves_engine_alone_witness :
  GuiGame.manualDistributionMode ex_filled = true
  ∧ GuiGame.gamestate (GuiGame.dispatch ex_getMoves (GuiGame.TileClick 1 0) ex_filled)
    = GuiGame.gamestate ex_filled.
Proof.
  destruct (phase_leaves_engine_alone ex_getMoves (-1) ex_filled ex_filled_distributing)
    as [Hmode Hev].
  split; [done|]. by destruct (Hev (GuiGame.TileClick 1 0) Logic.I).
Defined.

Lemma drag_start_gate_witness :
  (∃ bv, GuiGame.bagView ex_entered = Some bv
         ∧ BagView.handleDragStart 0 bv = None)
  ∧ supplied (GuiGame.DropOn (dropOf "1") 1) ex_entered = true.
Proof.
  assert (∃ bv, GuiGame.bagView ex_entered = Some bv
                ∧ BagView.tileCounts bv !! 0 = Some (Num 0)
                ∧ BagView.handleDragStart 1 bv = Some "1")
    as (bv & Hbv & Hzero & Hone).
  { eexists. split; [reflexivity|]. split; vm_compute; reflexivity. }
  split.
  - exists bv. split; [done|].
    by apply (proj1 (drag_start_gate ex_getMoves (-1) ex_entered bv 0
                       ex_entered_distributing Hbv ltac:(lia))).
  - apply (proj2 (drag_start_gate ex_getMoves (-1) ex_entered bv 1
                    ex_entered_distributing Hbv ltac:(lia)) "1" 1%nat Hone).
Defined.

Lemma disabled_handler_inert_witness :
  run ex_getMoves
    [GuiGame.DropOn (dropOf "1") 1; GuiGame.TileClick 1 0; GuiGame.DropOn (dropOf "2") 1]
    ex_disabled
  = ex_disabled.
Proof.
  assert (∃ h, GuiGame.factoryDropHandler ex_disabled = Some h
               ∧ FactoryDropHandler.enabled h = false) as (h & Hh & He).
  { eexists. split; vm_compute; reflexivity. }
  apply (proj1 (disabled_handler_inert ex_getMoves ex_disabled h _ Hh He
                  ltac:(repeat constructor; discriminate))).
Defined.

Lemma check_move_unique_witness :
  Play.check_move ex_move_factory ex_move_tile ex_move_line ex_move_player
    0 (Num 1) (Num 1) (Num 2) ex_play = Some (1, 1, 2, 0)
  ∧ (1, 1, 2, 0) ∈ Play.availableMoves ex_play
  ∧ Play.check_move ex_move_factory ex_move_tile ex_move_line ex_move_player
      0 (Num 1) (Num 1) (Num 3) ex_play = None.
Proof.
  assert (Play.check_move ex_move_factory ex_move_tile ex_move_line ex_move_player
            0 (Num 1) (Num 1) (Num 2) ex_play = Some (1, 1, 2, 0)) as Hfound
    by (vm_compute; reflexivity).
  split; [done|]. split.
  - apply (proj1 (check_move_unique ex_move_factory ex_move_tile ex_move_line
                    ex_move_player 0 (Num 1) (Num 1) (Num 2) ex_play) _ Hfound).
  - apply (proj2 (check_move_unique ex_move_factory ex_move_tile ex_move_line
                    ex_move_player 0 (Num 1) (Num 1) (Num 3) ex_play)).
    vm_compute. discriminate.
Defined.

Lemma factory_tile_callback_selects_witness :
  ∃ s', Play.factory_tile_callback ex_move_factory ex_move_tile ex_move_line (-1)
          (λ _, 0%nat) (Some "1") (Some "1") ex_play = Normal s'
        ∧ Play.selected_tile s' = Num 1
        ∧ Play.selected_factory s' = Num 1
        ∧ 2 ∈ Play.possible_lines s'.
Proof.
  destruct (factory_tile_callback_selects ex_move_factory ex_move_tile
              ex_move_line (-1) (λ _, 0%nat) ex_play
              {| player_type := HUMAN; player_id := 0 |} "1" (Some "1") eq_refl eq_refl)
    as (s' & Hrun & _ & _ & Htile & Hfac & Hlines).
  exists s'. split; [done|]. split; [done|]. split; [done|].
  apply Hlines. exists (1, 1, 2, 0). rewrite Hfac, Htile.
  split; [|done]. apply list_elem_of_lookup. by exists 1%nat.
Defined.

Lemma select_then_line_plays_move_witness :
  ∃ s1 s2,
    Play.factory_tile_callback ex_move_factory ex_move_tile ex_move_line (-1)
      (λ _, 0%nat) (Some "3") (Some "1") ex_play = Normal s1
    ∧ Play.line_click_callback ex_move_factory ex_move_tile ex_move_line ex_move_player
        (-1) (λ _, 0%nat) ex_playMove id (Some "1") s1 = Normal s2
    ∧ GuiGame.availableMoves (GuiGame.gamestate (Play.game s2)) = [(1, 3, 1, 0)].
Proof.
  destruct (select_then_line_plays_move ex_move_factory ex_move_tile ex_move_line
              ex_move_player (-1) (λ _, 0%nat) ex_playMove id ex_play
              {| player_type := HUMAN; player_id := 0 |} "3" "1" "1" (1, 3, 1, 0)
              eq_refl eq_refl eq_refl eq_refl eq_refl
              ltac:(vm_compute; discriminate) ltac:(vm_compute; discriminate)
              ltac:(vm_compute; reflexivity))
    as (s1 & s2 & H1 & H2 & Hgs & _).
  exists s1, s2. split; [done|]. split; [done|]. by rewrite Hgs.
Defined.

Lemma line_click_without_move_witness :
  Play.line_click_callback ex_move_factory ex_move_tile ex_move_line ex_move_player
    (-1) (λ _, 0%nat) ex_playMove id (Some "2") ex_play
  = Normal ex_play
  ∧ ∃ s1 s2,
      Play.factory_tile_callback ex_move_factory ex_move_tile ex_move_line (-1)
        (λ _, 0%nat) (Some "1") (Some "1") ex_play = Normal s1
      ∧ Play.line_click_callback ex_move_factory ex_move_tile ex_move_line
          ex_move_player (-1) (λ _, 0%nat) ex_playMove id (Some "4") s1 = Normal s2
      ∧ Play.game s2 = Play.game ex_play.
Proof.
  split.
  - apply (proj1 (line_click_without_move ex_move_factory ex_move_tile ex_move_line
                    ex_move_player (-1) (λ _, 0%nat) ex_playMove id ex_play
                    {| player_type := HUMAN; player_id := 0 |} (Some "2")
                    eq_refl eq_refl)).
    left. reflexivity.
  - assert (∃ s1,
      Play.factory_tile_callback ex_move_factory ex_move_tile ex_move_line (-1)
        (λ _, 0%nat) (Some "1") (Some "1") ex_play = Normal s1
      ∧ Play.get_active_player (λ _, 0%nat) s1
        = Some {| player_type := HUMAN; player_id := 0 |}
      ∧ Play.includes (Play.possible_lines s1) (parseInt "4") = false
      ∧ Play.game s1 = Play.game ex_play) as (s1 & Hsel & Hactive & Hline & Hgame).
    { eexists. split; [vm_compute; reflexivity|]. split; [reflexivity|].
      split; vm_compute; reflexivity. }
    destruct (proj2 (line_click_without_move ex_move_factory ex_move_tile ex_move_line
                       ex_move_player (-1) (λ _, 0%nat) ex_playMove id s1
                       {| player_type := HUMAN; player_id := 0 |} (Some "4")
                       Hactive eq_refl) Hline) as (s2 & Hrun & _ & Hsame).
    exists s1, s2. split; [done|]. split; [done|]. by rewrite Hsame.
Defined.
